(** * provider-alibaba, Redis: the client adapter, the drift detectors and the
      external resource controller, embedded in Rocq.

    The development follows the layout of the repository:
    - [Go]         the packages [strings], [strconv] and [unicode/utf8], and
                   panics;
    - [JSON]       [encoding/json], as far as the code uses it;
    - [SDK]        the vendor SDK: [sdkerrors.ServerError] and the request and
                   response structs of [r-kvstore];
    - [V1alpha1]   [apis/redis/v1alpha1];
    - [Runtime]    the effects of a call: allocations, calls that leave the
                   process, panics;
    - [Errors]     error values, [github.com/pkg/errors] and [errors.Is/As];
    - [Redis]      [pkg/clients/redis/redis.go];
    - [Controller] [pkg/controller/redis];
    - [EarlierRedis] what earlier revisions of redis.go, kept in the source
                   tree, do differently.
    The properties follow the definitions.

    A Go [string] is a Rocq [string], a sequence of bytes, and a Go [int] is
    an integer of [Z]; no arithmetic is done on them.  The clock (timeouts of
    requests, transition times of conditions) is outside the model. *)

From Stdlib Require Import ZArith NArith Ascii String List Bool Lia.
From Stdlib Require Import DecimalString DecimalFacts DecimalPos DecimalN.
From stdpp Require Import base option gmap strings list fin_maps.

Set Warnings "-register-all".
Local Open Scope Z_scope.

(** Arithmetic on character codes and the append of strings compute under
    [cbn] in this file. *)
#[local] Arguments String.append : simpl nomatch.
#[local] Arguments N.add : simpl nomatch.
#[local] Arguments N.mul : simpl nomatch.
#[local] Arguments N.sub : simpl nomatch.
#[local] Arguments N.div : simpl nomatch.
#[local] Arguments N.modulo : simpl nomatch.
#[local] Arguments Pos.add : simpl nomatch.
#[local] Arguments Pos.mul : simpl nomatch.
#[local] Arguments Pos.sub : simpl nomatch.
#[local] Arguments Pos.succ : simpl nomatch.
#[local] Arguments Pos.pred : simpl nomatch.

(** The double quote, and test data written with apostrophes in its place. *)
Abbreviation DQ := ("034"%char) (only parsing).

Fixpoint dq (s : string) : string :=
  match s with
  | EmptyString => EmptyString
  | String c s' => String (if Ascii.eqb c "'" then DQ else c) (dq s')
  end.

(* ===================================================================== *)
(** ** Go runtime and standard packages *)
(* ===================================================================== *)

Module Go.

(** A Go call either returns or panics. *)
Inductive Outcome (A : Type) : Type :=
  | Returns (a : A)
  | Panics (msg : string).
Arguments Returns {A} a.
Arguments Panics {A} msg.

(** *** package strings *)

(** [strings.Contains(s, substr)]: [substr] occurs in [s]. *)
Fixpoint Contains (s substr : string) : bool :=
  String.prefix substr s ||
  match s with
  | EmptyString => false
  | String _ s' => Contains s' substr
  end.

(** [split_from sep skip s] drops [skip] bytes of [s] (the rest of a separator
    that has just been matched) and cuts what follows at every occurrence of
    [sep]; it returns the first piece and the list of the others. *)
Fixpoint split_from (sep : string) (skip : nat) (s : string) : string * list string :=
  match s with
  | EmptyString => (EmptyString, [])
  | String c s' =>
      match skip with
      | S k => split_from sep k s'
      | O =>
          if String.prefix sep s
          then let '(p, ps) := split_from sep (Nat.pred (String.length sep)) s' in
               (EmptyString, p :: ps)
          else let '(p, ps) := split_from sep O s' in
               (String c p, ps)
      end
  end.

(** [strings.Split(s, sep)].  With an empty separator Go explodes [s] into its
    characters. *)
Definition Split (s sep : string) : list string :=
  match sep with
  | EmptyString => (λ c, String c EmptyString) <$> list_ascii_of_string s
  | _ => let '(p, ps) := split_from sep O s in p :: ps
  end.

(** *** package strconv *)

(** [strconv.Itoa] and [strconv.FormatInt(_, 10)]. *)
Definition Itoa (z : Z) : string :=
  match z with
  | Z0 => "0"
  | Zpos p => NilEmpty.string_of_uint (Pos.to_uint p)
  | Zneg p => String "-" (NilEmpty.string_of_uint (Pos.to_uint p))
  end.

(** [strconv.FormatBool]. *)
Definition FormatBool (b : bool) : string := if b then "true" else "false".

(** *** package unicode/utf8 *)

Definition byte_in (lo hi : N) (c : ascii) : bool :=
  ((lo <=? N_of_ascii c) && (N_of_ascii c <=? hi))%N.

(** The range [acceptRanges] has for the second byte of a character whose
    first byte is [c]. *)
Definition second_byte (c c2 : ascii) : bool :=
  let n := N_of_ascii c in
  if (n =? 224)%N then byte_in 160 191 c2
  else if (n =? 237)%N then byte_in 128 159 c2
  else if (n =? 240)%N then byte_in 144 191 c2
  else if (n =? 244)%N then byte_in 128 143 c2
  else byte_in 128 191 c2.

(** The size [utf8.DecodeRuneInString(s)] returns for a string that is not
    empty: the number of bytes of the well-formed character [s] starts with;
    [0] stands for the answer [(RuneError, 1)], given when [s] starts with no
    well-formed character. *)
Definition rune_width (s : string) : nat :=
  match s with
  | EmptyString => 0
  | String c r =>
      if (N_of_ascii c <? 128)%N then 1
      else if byte_in 194 223 c then
        match r with
        | String c2 _ => if second_byte c c2 then 2 else 0
        | _ => 0
        end
      else if byte_in 224 239 c then
        match r with
        | String c2 (String c3 _) =>
            if second_byte c c2 && byte_in 128 191 c3 then 3 else 0
        | _ => 0
        end
      else if byte_in 240 244 c then
        match r with
        | String c2 (String c3 (String c4 _)) =>
            if second_byte c c2 && byte_in 128 191 c3 && byte_in 128 191 c4 then 4 else 0
        | _ => 0
        end
      else 0
  end.

End Go.

(* ===================================================================== *)
(** ** encoding/json *)
(* ===================================================================== *)

(** The texts [json.Marshal] writes and the values [json.Unmarshal] reads, for
    the three types the code uses: a struct of an [int] and strings, a
    [map[string]string], an empty interface.  Both directions coerce a string
    to well-formed UTF-8, each byte that starts no well-formed character
    becoming U+FFFD.  A well-formed character is copied as it is: what
    [utf8.EncodeRune] writes for the rune [utf8.DecodeRune] has read are the
    bytes read.  The range check of a number read into a [float64] is left
    out: the numbers the code writes are those of an [int]. *)

Module JSON.
Import Go.

(** A decoded JSON text.  A number keeps its literal. *)
Inductive json : Type :=
  | JNull
  | JBool (b : bool)
  | JNum (literal : string)
  | JStr (s : string)
  | JArr (elems : list json)
  | JObj (members : list (string * json)).

(** **** The encoder *)

Definition hex_digit (n : N) : ascii :=
  match n with
  | 0 => "0" | 1 => "1" | 2 => "2" | 3 => "3" | 4 => "4" | 5 => "5" | 6 => "6"
  | 7 => "7" | 8 => "8" | 9 => "9" | 10 => "a" | 11 => "b" | 12 => "c"
  | 13 => "d" | 14 => "e" | _ => "f"
  end%N%char.

(** The bytes [json.Marshal] writes for one ASCII byte of a string (HTML
    escaping is on by default): printable ASCII other than the double quote,
    the backslash and [<], [>], [&] is copied. *)
Definition escape_byte (c : ascii) : string :=
  let n := N_of_ascii c in
  if (n =? 34)%N then String "\" (String DQ "")
  else if (n =? 92)%N then "\\"
  else if (n =? 8)%N then "\b"
  else if (n =? 12)%N then "\f"
  else if (n =? 10)%N then "\n"
  else if (n =? 13)%N then "\r"
  else if (n =? 9)%N then "\t"
  else if (n <? 32)%N || (n =? 60)%N || (n =? 62)%N || (n =? 38)%N
  then "\u00" +:+ String (hex_digit (n / 16)) (String (hex_digit (n mod 16)) "")
  else String c "".

(** U+2028 and U+2029, the two characters written as escapes although they
    are well formed. *)
Definition is_line_separator (c c2 c3 : ascii) : bool :=
  ((N_of_ascii c =? 226) && (N_of_ascii c2 =? 128) &&
   ((N_of_ascii c3 =? 168) || (N_of_ascii c3 =? 169)))%N.

(** The contents of a string literal: character by character, an ASCII byte
    through [escape_byte], a byte that starts no well-formed character as the
    escape of U+FFFD, and any other character as it is. *)
Fixpoint escape (s : string) : string :=
  match s with
  | EmptyString => ""
  | String c r =>
      match rune_width s, r with
      | 1%nat, _ => escape_byte c +:+ escape r
      | 2%nat, String c2 r2 => String c (String c2 (escape r2))
      | 3%nat, String c2 (String c3 r3) =>
          if is_line_separator c c2 c3
          then "\u202" +:+ String (hex_digit (N_of_ascii c3 mod 16)) (escape r3)
          else String c (String c2 (String c3 (escape r3)))
      | 4%nat, String c2 (String c3 (String c4 r4)) =>
          String c (String c2 (String c3 (String c4 (escape r4))))
      | _, _ => "\ufffd" +:+ escape r
      end
  end.

(** A string value: quoted and escaped. *)
Definition quote (s : string) : string := String DQ (escape s +:+ String DQ "").

(** **** The decoder *)

Definition is_ws (c : ascii) : bool :=
  let n := N_of_ascii c in ((n =? 32) || (n =? 9) || (n =? 10) || (n =? 13))%N.

Fixpoint skip_ws (s : string) : string :=
  match s with
  | EmptyString => EmptyString
  | String c s' => if is_ws c then skip_ws s' else s
  end.

Definition is_digit (c : ascii) : bool :=
  let n := N_of_ascii c in ((48 <=? n) && (n <=? 57))%N.

(** The longest prefix of digits, and what follows it. *)
Fixpoint span_digits (s : string) : string * string :=
  match s with
  | EmptyString => (EmptyString, EmptyString)
  | String c s' =>
      if is_digit c
      then let '(d, r) := span_digits s' in (String c d, r)
      else (EmptyString, s)
  end.

(** The integer part of a number: one digit at least, and no leading zero. *)
Definition lex_int (s : string) : option (string * string) :=
  match span_digits s with
  | (EmptyString, _) => None
  | (String c (String c' d), r) =>
      if Ascii.eqb c "0" then None else Some (String c (String c' d), r)
  | (d, r) => Some (d, r)
  end.

Definition lex_frac (s : string) : option (string * string) :=
  match s with
  | String c r =>
      if Ascii.eqb c "." then
        match span_digits r with
        | (EmptyString, _) => None
        | (d, r') => Some (String c d, r')
        end
      else Some (EmptyString, s)
  | EmptyString => Some (EmptyString, s)
  end.

Definition lex_sign (s : string) : string * string :=
  match s with
  | String c r =>
      if Ascii.eqb c "+" || Ascii.eqb c "-" then (String c "", r) else (EmptyString, s)
  | EmptyString => (EmptyString, s)
  end.

Definition lex_exp (s : string) : option (string * string) :=
  match s with
  | String c r =>
      if Ascii.eqb c "e" || Ascii.eqb c "E" then
        let '(sg, r1) := lex_sign r in
        match span_digits r1 with
        | (EmptyString, _) => None
        | (d, r2) => Some (String c (sg +:+ d), r2)
        end
      else Some (EmptyString, s)
  | EmptyString => Some (EmptyString, s)
  end.

(** A number literal: an optional minus sign, an integer part, an optional
    fraction and an optional exponent. *)
Definition lex_number (s : string) : option (string * string) :=
  let '(sg, s1) :=
    match s with
    | String c r => if Ascii.eqb c "-" then (String c "", r) else (EmptyString, s)
    | EmptyString => (EmptyString, s)
    end in
  '(i, s2) ← lex_int s1;
  '(f, s3) ← lex_frac s2;
  '(e, s4) ← lex_exp s3;
  Some (sg +:+ i +:+ f +:+ e, s4).

Definition hex_val (c : ascii) : option N :=
  let n := N_of_ascii c in
  if ((48 <=? n) && (n <=? 57))%N then Some (n - 48)%N
  else if ((97 <=? n) && (n <=? 102))%N then Some (n - 87)%N
  else if ((65 <=? n) && (n <=? 70))%N then Some (n - 55)%N
  else None.

(** The code unit written [\uXXXX]. *)
Definition getu4 (h1 h2 h3 h4 : ascii) : option N :=
  a ← hex_val h1; b ← hex_val h2; c ← hex_val h3; d ← hex_val h4;
  Some (((a * 16 + b) * 16 + c) * 16 + d)%N.

(** [utf8.EncodeRune] on a code point that is not a surrogate. *)
Definition utf8_encode (cp : N) : string :=
  let byte n := String (ascii_of_N n) "" in
  (if cp <? 128 then byte cp
   else if cp <? 2048 then byte (192 + cp / 64) +:+ byte (128 + cp mod 64)
   else if cp <? 65536 then
     byte (224 + cp / 4096) +:+ byte (128 + (cp / 64) mod 64) +:+ byte (128 + cp mod 64)
   else
     byte (240 + cp / 262144) +:+ byte (128 + (cp / 4096) mod 64) +:+
     byte (128 + (cp / 64) mod 64) +:+ byte (128 + cp mod 64))%N.

Definition replacement_char : N := 65533.

Definition is_surrogate (cp : N) : bool := ((55296 <=? cp) && (cp <? 57344))%N.

(** [utf16.DecodeRune]. *)
Definition decode_pair (hi lo : N) : N :=
  (if (55296 <=? hi) && (hi <? 56320) && (56320 <=? lo) && (lo <? 57344)
   then (hi - 55296) * 1024 + (lo - 56320) + 65536
   else replacement_char)%N.

(** The character a one-letter escape stands for. *)
Definition unescape (e : ascii) : option ascii :=
  if Ascii.eqb e DQ then Some DQ
  else if Ascii.eqb e "\" then Some "\"%char
  else if Ascii.eqb e "/" then Some "/"%char
  else if Ascii.eqb e "b" then Some "008"%char
  else if Ascii.eqb e "f" then Some "012"%char
  else if Ascii.eqb e "n" then Some "010"%char
  else if Ascii.eqb e "r" then Some "013"%char
  else if Ascii.eqb e "t" then Some "009"%char
  else None.

Definition push (pre : string) (res : option (string * string)) : option (string * string) :=
  '(d, rest) ← res; Some (pre +:+ d, rest).

(** The second half of a surrogate pair, when [s] starts with one. *)
Definition low_surrogate (hi : N) (s : string) : option (N * string) :=
  match s with
  | String b (String u (String g1 (String g2 (String g3 (String g4 r))))) =>
      if Ascii.eqb b "\" && Ascii.eqb u "u" then
        lo ← getu4 g1 g2 g3 g4;
        let cp := decode_pair hi lo in
        if (cp =? replacement_char)%N then None else Some (cp, r)
      else None
  | _ => None
  end.

(** The contents of a string literal after its opening quote, unescaped, and
    the text after its closing quote. *)
Fixpoint parse_string_body (s : string) : option (string * string) :=
  match s with
  | EmptyString => None
  | String c r =>
      if Ascii.eqb c DQ then Some (EmptyString, r)
      else if Ascii.eqb c "\" then
        match r with
        | EmptyString => None
        | String e r1 =>
            if Ascii.eqb e "u" then
              match r1 with
              | String h1 (String h2 (String h3 (String h4 r2))) =>
                  match getu4 h1 h2 h3 h4 with
                  | None => None
                  | Some cp =>
                      if is_surrogate cp then
                        match r2 with
                        | String b (String u (String g1 (String g2 (String g3 (String g4 r3))))) =>
                            match low_surrogate cp r2 with
                            | Some (cp', _) => push (utf8_encode cp') (parse_string_body r3)
                            | None => push (utf8_encode replacement_char) (parse_string_body r2)
                            end
                        | _ => push (utf8_encode replacement_char) (parse_string_body r2)
                        end
                      else push (utf8_encode cp) (parse_string_body r2)
                  end
              | _ => None
              end
            else
              match unescape e with
              | Some b => push (String b "") (parse_string_body r1)
              | None => None
              end
        end
      else if (N_of_ascii c <? 32)%N then None
      else if (N_of_ascii c <? 128)%N then push (String c "") (parse_string_body r)
      else
        match rune_width s, r with
        | 2%nat, String c2 r2 =>
            push (String c (String c2 "")) (parse_string_body r2)
        | 3%nat, String c2 (String c3 r3) =>
            push (String c (String c2 (String c3 ""))) (parse_string_body r3)
        | 4%nat, String c2 (String c3 (String c4 r4)) =>
            push (String c (String c2 (String c3 (String c4 "")))) (parse_string_body r4)
        | _, _ => push (utf8_encode replacement_char) (parse_string_body r)
        end
  end.

Fixpoint skip (n : nat) (s : string) : string :=
  match n, s with
  | S n', String _ s' => skip n' s'
  | _, _ => s
  end.

(** A value, the members of an object after its brace, the elements of an
    array after its bracket.  Each call is made after a byte was consumed, so
    the length of the text bounds their number; [fuel] counts them. *)
Fixpoint parse_value (fuel : nat) (s : string) : option (json * string) :=
  match fuel with
  | O => None
  | S fuel =>
      match skip_ws s with
      | EmptyString => None
      | String c r as s0 =>
          if Ascii.eqb c "{" then
            match skip_ws r with
            | String c' r' =>
                if Ascii.eqb c' "}" then Some (JObj [], r')
                else '(ms, r1) ← parse_members fuel r; Some (JObj ms, r1)
            | EmptyString => None
            end
          else if Ascii.eqb c "[" then
            match skip_ws r with
            | String c' r' =>
                if Ascii.eqb c' "]" then Some (JArr [], r')
                else '(es, r1) ← parse_elements fuel r; Some (JArr es, r1)
            | EmptyString => None
            end
          else if Ascii.eqb c DQ then
            '(str, r1) ← parse_string_body r; Some (JStr str, r1)
          else if String.prefix "true" s0 then Some (JBool true, skip 4 s0)
          else if String.prefix "false" s0 then Some (JBool false, skip 5 s0)
          else if String.prefix "null" s0 then Some (JNull, skip 4 s0)
          else '(lit, r1) ← lex_number s0; Some (JNum lit, r1)
      end
  end
with parse_members (fuel : nat) (s : string) : option (list (string * json) * string) :=
  match fuel with
  | O => None
  | S fuel =>
      match skip_ws s with
      | EmptyString => None
      | String c r =>
          if Ascii.eqb c DQ then
            '(k, r1) ← parse_string_body r;
            match skip_ws r1 with
            | EmptyString => None
            | String c1 r2 =>
                if Ascii.eqb c1 ":" then
                  '(v, r3) ← parse_value fuel r2;
                  match skip_ws r3 with
                  | EmptyString => None
                  | String c3 r4 =>
                      if Ascii.eqb c3 "," then
                        '(ms, r5) ← parse_members fuel r4; Some ((k, v) :: ms, r5)
                      else if Ascii.eqb c3 "}" then Some ([(k, v)], r4)
                      else None
                  end
                else None
            end
          else None
      end
  end
with parse_elements (fuel : nat) (s : string) : option (list json * string) :=
  match fuel with
  | O => None
  | S fuel =>
      '(v, r1) ← parse_value fuel s;
      match skip_ws r1 with
      | EmptyString => None
      | String c r2 =>
          if Ascii.eqb c "," then
            '(es, r3) ← parse_elements fuel r2; Some (v :: es, r3)
          else if Ascii.eqb c "]" then Some ([v], r2)
          else None
      end
  end.

(** The whole text is one value, with white space around it at most. *)
Definition parse (text : string) : option json :=
  '(v, r) ← parse_value (S (String.length text)) text;
  match skip_ws r with
  | EmptyString => Some v
  | _ => None
  end.

(** What [json.Unmarshal] hands back: the value, or one of its two errors. *)
Inductive Decoded (A : Type) : Type :=
  | Value (a : A)
  | SyntaxError
  | UnmarshalTypeError.
Arguments Value {A} a.
Arguments SyntaxError {A}.
Arguments UnmarshalTypeError {A}.

(** [json.Unmarshal(text, &data)] where [data] is an empty interface. *)
Definition Unmarshal_interface (text : string) : Decoded json :=
  match parse text with
  | Some v => Value v
  | None => SyntaxError
  end.

(** The entry of a decoded object under [key]; the last member with that key
    wins, as in the Go map the object is decoded into. *)
Fixpoint lookup_member (key : string) (ms : list (string * json)) : option json :=
  match ms with
  | [] => None
  | (k, v) :: ms' =>
      match lookup_member key ms' with
      | Some v' => Some v'
      | None => if String.eqb k key then Some v else None
      end
  end.

(** The members of an object stored into a [map[string]string]: a string is
    stored, [null] stores the zero value, anything else is a type error. *)
Fixpoint members_to_map (ms : list (string * json)) (m : gmap string string)
  : option (gmap string string) :=
  match ms with
  | [] => Some m
  | (k, JStr v) :: ms' => members_to_map ms' (<[k := v]> m)
  | (k, JNull) :: ms' => members_to_map ms' (<[k := ""]> m)
  | _ => None
  end.

(** [json.Unmarshal(text, &m)] where [m] is a nil [map[string]string]: [None]
    is the nil map, which [null] leaves in place. *)
Definition Unmarshal_map (text : string) : Decoded (option (gmap string string)) :=
  match parse text with
  | None => SyntaxError
  | Some JNull => Value None
  | Some (JObj ms) =>
      match members_to_map ms ∅ with
      | Some m => Value (Some m)
      | None => UnmarshalTypeError
      end
  | Some _ => UnmarshalTypeError
  end.

(** [json.Marshal] of a [map[string]string]: the keys are written in
    increasing order. *)
Fixpoint insert_sorted (kv : string * string) (l : list (string * string))
  : list (string * string) :=
  match l with
  | [] => [kv]
  | kv' :: l' =>
      if String.leb kv.1 kv'.1 then kv :: l else kv' :: insert_sorted kv l'
  end.

Definition sorted_members (m : gmap string string) : list (string * string) :=
  foldr insert_sorted [] (map_to_list m).

Definition member_text (kv : string * string) : string :=
  quote kv.1 +:+ ":" +:+ quote kv.2.

Definition Marshal_map (m : option (gmap string string)) : string :=
  match m with
  | None => "null"
  | Some m => "{" +:+ String.concat "," (member_text <$> sorted_members m) +:+ "}"
  end.

End JSON.

(* ===================================================================== *)
(** ** The vendor SDK: sdk/errors and services/r-kvstore *)
(* ===================================================================== *)

Module SDK.
Import Go JSON.

(** [sdkerrors.ServerError]; its fields are private to the SDK and set by
    [NewServerError] only. *)
Record ServerError : Type := mkServerError {
  httpStatus : Z;
  requestId : string;
  hostId : string;
  errorCode : string;
  recommend : string;
  message : string;
  comment : string;
}.

(** [jmespath.Search(key, data)] followed by the type assertion [.(string)]
    that [NewServerError] applies to a result that is not nil. *)
Definition search_string (key : string) (data : json) : Outcome (option string) :=
  match data with
  | JObj ms =>
      match lookup_member key ms with
      | None | Some JNull => Returns None
      | Some (JStr s) => Returns (Some s)
      | Some _ => Panics "interface conversion: interface {} is not string"
      end
  | _ => Returns None
  end.

(** [sdkerrors.NewServerError]: the response content is the message; when it
    is a JSON text, the fields it carries are taken from it. *)
Definition NewServerError (status : Z) (responseContent comment : string)
  : Outcome ServerError :=
  let result := mkServerError status "" "" "" "" responseContent comment in
  match Unmarshal_interface responseContent with
  | Value data =>
      match search_string "RequestId" data, search_string "HostId" data,
            search_string "Code" data, search_string "Recommend" data,
            search_string "Message" data with
      | Returns rid, Returns hid, Returns code, Returns rec, Returns msg =>
          Returns (mkServerError status
                     (default (requestId result) rid)
                     (default (hostId result) hid)
                     (default (errorCode result) code)
                     (default (recommend result) rec)
                     (default (message result) msg)
                     comment)
      | Panics m, _, _, _, _ | _, Panics m, _, _, _ | _, _, Panics m, _, _
      | _, _, _, Panics m, _ | _, _, _, _, Panics m => Panics m
      end
  | _ => Returns result
  end.

(** [ServerError.Error()]. *)
Definition ServerError_Error (e : ServerError) : string :=
  let nl := String "010"%char "" in
  "SDK.ServerError" +:+ nl +:+ "ErrorCode: " +:+ errorCode e +:+ nl +:+
  "Recommend: " +:+ comment e +:+ recommend e +:+ nl +:+
  "RequestId: " +:+ requestId e +:+ nl +:+ "Message: " +:+ message e.

(** *** services/r-kvstore: the fields the adapter reads or writes *)

Record DBInstanceAttribute : Type := {
  InstanceId : string;
  InstanceStatus : string;
  ConnectionDomain : string;
  Port : Z;
  ArchitectureType : string;
  InstanceClass : string;
  RealInstanceClass : string;
  ReadOnlyCount : Z;
  SecurityIPList : string;
  Config : string;
}.

Record DescribeInstanceAttributeRequest : Type := {
  describe_Scheme : string;
  describe_InstanceId : string;
}.

(** [response.Instances.DBInstanceAttribute]. *)
Record DescribeInstanceAttributeResponse : Type := {
  Instances : list DBInstanceAttribute;
}.

Record CreateInstanceTag : Type := mkCreateInstanceTag {
  tag_Key : string;
  tag_Value : string;
}.

Record CreateInstanceRequest : Type := {
  create_ConnectTimeout : Z;
  create_ReadTimeout : Z;
  create_Token : string;
  create_InstanceName : string;
  create_InstanceClass : string;
  create_ZoneId : string;
  create_ChargeType : string;
  create_NodeType : string;
  create_NetworkType : string;
  create_VpcId : string;
  create_VSwitchId : string;
  create_Period : string;
  create_BusinessInfo : string;
  create_CouponNo : string;
  create_SrcDBInstanceId : string;
  create_BackupId : string;
  create_InstanceType : string;
  create_EngineVersion : string;
  create_PrivateIpAddress : string;
  create_AutoUseCoupon : string;
  create_AutoRenew : string;
  create_AutoRenewPeriod : string;
  create_ResourceGroupId : string;
  create_RestoreTime : string;
  create_DedicatedHostGroupId : string;
  create_GlobalInstanceId : string;
  create_GlobalInstance : string;
  create_SecondaryZoneId : string;
  create_GlobalSecurityGroupIds : string;
  create_Appendonly : string;
  create_ConnectionStringPrefix : string;
  create_ParamGroupId : string;
  create_ClusterBackupId : string;
  create_Port : string;
  create_Capacity : string;
  create_ShardCount : string;
  create_ReadOnlyCount : string;
  create_Password : string;
  create_Tag : list CreateInstanceTag;
}.

Record CreateInstanceResponse : Type := {
  resp_InstanceId : string;
  resp_ConnectionDomain : string;
  resp_Port : Z;
}.

Record DeleteInstanceRequest : Type := {
  delete_Scheme : string;
  delete_InstanceId : string;
}.

Record ModifySecurityIpsRequest : Type := {
  ips_InstanceId : string;
  ips_SecurityIps : string;
  ips_ModifyMode : string;
}.

Record ModifyInstanceSpecRequest : Type := {
  spec_InstanceId : string;
  spec_EffectiveTime : string;
  spec_InstanceClass : string;
  spec_ReadOnlyCount : string;
}.

Record ModifyInstanceParameterRequest : Type := {
  param_InstanceId : string;
  param_Parameters : string;
}.

(** The [Create...Request()] constructors: every field above starts at its
    zero value. *)
Definition CreateModifySecurityIpsRequest : ModifySecurityIpsRequest :=
  {| ips_InstanceId := ""; ips_SecurityIps := ""; ips_ModifyMode := "" |}.

Definition CreateModifyInstanceSpecRequest : ModifyInstanceSpecRequest :=
  {| spec_InstanceId := ""; spec_EffectiveTime := ""; spec_InstanceClass := "";
     spec_ReadOnlyCount := "" |}.

Definition CreateModifyInstanceParameterRequest : ModifyInstanceParameterRequest :=
  {| param_InstanceId := ""; param_Parameters := "" |}.

(** [requests.NewInteger] and [requests.NewBoolean]. *)
Definition NewInteger (i : Z) : string := Itoa i.
Definition NewBoolean (b : bool) : string := FormatBool b.

End SDK.

(* ===================================================================== *)
(** ** apis/redis/v1alpha1 *)
(* ===================================================================== *)

Module V1alpha1.

Definition RedisInstanceStateRunning : string := "Normal".
Definition RedisInstanceStateCreating : string := "Creating".
Definition RedisInstanceStateDeleting : string := "Flushing".

Record Tag : Type := mkTag {
  Key : string;
  Value : string;
}.

(** [RedisInstanceParameters].  A field of type [*int] is an [option Z].

    Modelled from the spec: the fields [SecurityIps], [ParameterConfig] and
    [EffectiveTime], which redis.go reads and the declaration of the struct
    at hand does not list (the desired security-IP list, the parameter JSON
    blob, and when a change of the spec takes effect). *)
Record RedisInstanceParameters : Type := {
  RegionID : string;
  Token : string;
  InstanceName : string;
  Password : string;
  Capacity : option Z;
  InstanceClass : string;
  ZoneID : string;
  ChargeType : string;
  NodeType : string;
  NetworkType : string;
  VpcID : string;
  VSwitchID : string;
  Period : string;
  BusinessInfo : string;
  CouponNo : string;
  SrcDBInstanceId : string;
  BackupId : string;
  InstanceType : string;
  EngineVersion : string;
  PrivateIpAddress : string;
  AutoUseCoupon : string;
  AutoRenew : string;
  AutoRenewPeriod : string;
  ResourceGroupId : string;
  RestoreTime : string;
  DedicatedHostGroupId : string;
  ShardCount : option Z;
  ReadOnlyCount : option Z;
  GlobalInstanceId : string;
  GlobalInstance : bool;
  SecondaryZoneID : string;
  Port : option Z;
  GlobalSecurityGroupIds : string;
  Appendonly : string;
  ConnectionStringPrefix : string;
  ParamGroupId : string;
  Tag_ : list Tag;
  ClusterBackupId : string;
  SecurityIps : string;
  ParameterConfig : string;
  EffectiveTime : string;
}.

Record RedisInstanceObservation : Type := {
  InstanceStatus : string;
  ConnectionReady : bool;
  ConnectionDomain : string;
  ObservedPort : string;
}.

(** The conditions of crossplane-runtime ([xpv1]); the transition time of a
    condition is left out. *)
Inductive ConditionType : Type := TypeReady | TypeSynced.
Inductive ConditionStatus : Type := ConditionTrue | ConditionFalse | ConditionUnknown.

Record Condition : Type := {
  cond_Type : ConditionType;
  cond_Status : ConditionStatus;
  cond_Reason : string;
}.

Definition Available : Condition :=
  {| cond_Type := TypeReady; cond_Status := ConditionTrue; cond_Reason := "Available" |}.
Definition Creating : Condition :=
  {| cond_Type := TypeReady; cond_Status := ConditionFalse; cond_Reason := "Creating" |}.
Definition Deleting : Condition :=
  {| cond_Type := TypeReady; cond_Status := ConditionFalse; cond_Reason := "Deleting" |}.
Definition Unavailable : Condition :=
  {| cond_Type := TypeReady; cond_Status := ConditionFalse; cond_Reason := "Unavailable" |}.

Definition same_type (a b : ConditionType) : bool :=
  match a, b with
  | TypeReady, TypeReady | TypeSynced, TypeSynced => true
  | _, _ => false
  end.

(** [ConditionedStatus.SetConditions] with one condition: it takes the place of
    every condition of its type, and is appended when there is none. *)
Definition SetConditions (cs : list Condition) (new : Condition) : list Condition :=
  if existsb (λ c, same_type (cond_Type c) (cond_Type new)) cs
  then (λ c, if same_type (cond_Type c) (cond_Type new) then new else c) <$> cs
  else cs ++ [new].

(** [RedisInstance]: the metadata the controller reads, the desired and the
    observed state. *)
Record RedisInstance : Type := {
  Name : string;
  Annotations : gmap string string;
  ForProvider : RedisInstanceParameters;
  AtProvider : RedisInstanceObservation;
  Conditions : list Condition;
}.

(** A managed resource handed to the controller is a [*RedisInstance] or
    something else (nil, another kind). *)
Inductive Managed : Type :=
  | IsRedisInstance (cr : RedisInstance)
  | NotRedisInstance.

End V1alpha1.

(* ===================================================================== *)
(** ** What a call does to the world around it *)
(* ===================================================================== *)

Module Runtime.
Import Go.

(** What leaves the process, in order: calls of the vendor SDK, calls through
    the [Client] interface of the adapter, the draw of a random password and
    text printed to the standard output. *)
Inductive Event : Type :=
  | PasswordGenerate
  | SDKDescribeInstanceAttribute (req : SDK.DescribeInstanceAttributeRequest)
  | SDKCreateInstance (req : SDK.CreateInstanceRequest)
  | SDKDeleteInstance (req : SDK.DeleteInstanceRequest)
  | ClientDescribeInstance (id : string)
  | ClientDeleteInstance (id : string)
  | Print (text : string).

(** [next_addr] is the next free address of the heap: the allocations of
    error values matter, because [errors.Is] compares pointers. *)
Record World : Type := mkWorld {
  next_addr : nat;
  trace : list Event;
}.

Definition M (A : Type) : Type := World → Outcome (A * World).

#[global] Instance M_ret : MRet M := λ A a w, Returns (a, w).

#[global] Instance M_bind : MBind M := λ A B f m w,
  match m w with
  | Returns (a, w') => f a w'
  | Panics msg => Panics msg
  end.

Definition emit (e : Event) : M unit :=
  λ w, Returns (tt, mkWorld (next_addr w) (trace w ++ [e])).

Definition alloc : M nat :=
  λ w, Returns (next_addr w, mkWorld (S (next_addr w)) (trace w)).

Definition panic {A : Type} (msg : string) : M A := λ _, Panics msg.

Definition lift {A : Type} (o : Outcome A) : M A :=
  λ w, match o with Returns a => Returns (a, w) | Panics msg => Panics msg end.

(** The events between the world [w] and the later world [w']. *)
Definition events (w w' : World) : list Event :=
  drop (length (trace w)) (trace w').

End Runtime.

(* ===================================================================== *)
(** ** Go error values: github.com/pkg/errors and the standard errors *)
(* ===================================================================== *)

Module Errors.
Import Go Runtime.

(** The error values the code meets.
    - [EServer]: a [*sdkerrors.ServerError];
    - [EFundamental]: what [errors.New] returns, a pointer to a fresh struct,
      here its address and its message;
    - [EWrap]: what [errors.Wrap] returns around a cause;
    - [EOther]: an error of any other type (an SDK client error, an error of
      [encoding/json], ...), by its message. *)
Inductive GoError : Type :=
  | EServer (e : SDK.ServerError)
  | EFundamental (addr : nat) (msg : string)
  | EWrap (cause : GoError) (msg : string)
  | EOther (msg : string).

(** A value of the interface [error]: [None] is nil. *)
Definition error : Type := option GoError.

(** [err.Error()]. *)
Fixpoint Error (e : GoError) : string :=
  match e with
  | EServer s => SDK.ServerError_Error s
  | EFundamental _ msg => msg
  | EWrap cause msg => msg +:+ ": " +:+ Error cause
  | EOther msg => msg
  end.

(** [errors.New(msg)] allocates. *)
Definition New (msg : string) : M GoError :=
  a ← alloc; mret (EFundamental a msg).

(** [errors.Wrap(err, msg)]: nil when [err] is nil. *)
Definition Wrap (err : error) (msg : string) : error :=
  match err with
  | None => None
  | Some e => Some (EWrap e msg)
  end.

(** [err == target] on interface values, for a [target] made by [errors.New]:
    the same dynamic type and the same pointer. *)
Definition same (e target : GoError) : bool :=
  match e, target with
  | EFundamental a _, EFundamental b _ => Nat.eqb a b
  | _, _ => false
  end.

(** [errors.Is(err, target)]: some error of the chain of [err] is [target]. *)
Fixpoint Is (e target : GoError) : bool :=
  same e target ||
  match e with
  | EWrap cause _ => Is cause target
  | _ => false
  end.

(** [errors.As(err, &srverr)] with [srverr] a [*sdkerrors.ServerError]: the
    first server error of the chain of [err]. *)
Fixpoint As (e : GoError) : option SDK.ServerError :=
  match e with
  | EServer s => Some s
  | EWrap cause _ => As cause
  | _ => None
  end.

(** The addresses below which every allocation of [e] lies. *)
Fixpoint allocated_below (n : nat) (e : GoError) : Prop :=
  match e with
  | EFundamental a _ => (a < n)%nat
  | EWrap cause _ => allocated_below n cause
  | _ => True
  end.

End Errors.

(* ===================================================================== *)
(** ** pkg/clients/redis/redis.go *)
(* ===================================================================== *)

Module Redis.
Import Go JSON Runtime Errors.

Definition HTTPSScheme : string := "https".
(** [60 * time.Second], in nanoseconds. *)
Definition ConnectTimeOut : Z := 60 * 1000000000.
Definition ReadTimeOut : Z := 60 * 1000000000.
Definition DefaultIPModifyMode : string := "Cover".

Definition EffectiveTimeImmediate : string := "Immediately".
Definition EffectiveTimeMaintain : string := "MaintainTime".
Definition DefaultEffectiveTime : string := "Immediately".

Definition RedisArchTypeCluster : string := "cluster".
Definition RedisArchTypeStandard : string := "standard".
Definition RedisArchTypeRWSplit : string := "rwsplit".

Definition errInstanceNotFound : string := "InstanceNotFound".
Definition errInstanceNotFoundCode : string := "InvalidInstanceId.NotFound".
Definition errDescribeInstanceFailed : string := "cannot describe instance attributes".
Definition errGeneratePasswordFailed : string := "cannot generate a password".
Definition errFailedToUnmarshalWantedConfig : string :=
  "cannot unmarshal the json config from users input".
Definition errFailedToUnmarshalRealConfig : string :=
  "cannot unmarshal the json config from the real instance".
Definition errFailedToMarshalConfig : string :=
  "cannot marshal the json config for the update params request".

(** The same server error, without its request ID. *)
Record CleanedServerError : Type := {
  HttpStatus : Z;
  HostId : string;
  Code : string;
  Message : string;
  Comment : string;
}.

(** [json.Marshal(cleanedErr)]: the exported fields in the order of their
    declaration, under their names.  It does not fail on this struct. *)
Definition Marshal_CleanedServerError (c : CleanedServerError) : string :=
  "{" +:+ quote "HttpStatus" +:+ ":" +:+ Itoa (HttpStatus c) +:+
  "," +:+ quote "HostId" +:+ ":" +:+ quote (HostId c) +:+
  "," +:+ quote "Code" +:+ ":" +:+ quote (Code c) +:+
  "," +:+ quote "Message" +:+ ":" +:+ quote (Message c) +:+
  "," +:+ quote "Comment" +:+ ":" +:+ quote (Comment c) +:+ "}".

(** [CleanError]: a server error is rebuilt from the JSON text of its fields
    other than the request ID. *)
Definition CleanError (err : error) : Outcome error :=
  match err with
  | None => Returns None
  | Some (EServer aliCloudErr) =>
      let cleanedErr :=
        {| HttpStatus := SDK.httpStatus aliCloudErr;
           HostId := SDK.hostId aliCloudErr;
           Code := SDK.errorCode aliCloudErr;
           Message := SDK.message aliCloudErr;
           Comment := SDK.comment aliCloudErr |} in
      let strData := Marshal_CleanedServerError cleanedErr in
      match SDK.NewServerError (SDK.httpStatus aliCloudErr) strData
              (SDK.comment aliCloudErr) with
      | Returns e => Returns (Some (EServer e))
      | Panics msg => Panics msg
      end
  | Some e => Returns (Some e)
  end.

(** The vendor client [*aliredis.Client]: each call answers a request with a
    response and an error. *)
Record AliClient : Type := {
  DescribeInstanceAttribute :
    SDK.DescribeInstanceAttributeRequest → SDK.DescribeInstanceAttributeResponse * error;
  sdk_CreateInstance : SDK.CreateInstanceRequest → SDK.CreateInstanceResponse * error;
  sdk_DeleteInstance : SDK.DeleteInstanceRequest → error;
}.

(** [client], with what [password.Generate()] yields when it is called. *)
Record client : Type := {
  redisCli : AliClient;
  password_Generate : string * error;
}.

Record RedisConnection : Type := {
  Username : string;
  Password : string;
  ConnectionDomain : string;
  Port : string;
}.

Definition DescribeInstance (c : client) (id : string)
  : M (option SDK.DBInstanceAttribute * option RedisConnection * error) :=
  let request := {| SDK.describe_Scheme := HTTPSScheme; SDK.describe_InstanceId := id |} in
  emit (SDKDescribeInstanceAttribute request);;
  let '(response, err) := DescribeInstanceAttribute (redisCli c) request in
  match err with
  | Some _ =>
      cleaned ← lift (CleanError err);
      mret (None, None, Wrap cleaned errDescribeInstanceFailed)
  | None =>
      match SDK.Instances response with
      | [] => e ← New errInstanceNotFound; mret (None, None, Some e)
      | attr :: _ =>
          let conn :=
            {| Username := ""; Password := "";
               ConnectionDomain := SDK.ConnectionDomain attr;
               Port := Itoa (SDK.Port attr) |} in
          mret (Some attr, Some conn, None)
      end
  end.

(** The loop that fills the tags of the create request. *)
Definition requestTags (tags : list V1alpha1.Tag) : list SDK.CreateInstanceTag :=
  foldl (λ acc tag, acc ++ [SDK.mkCreateInstanceTag (V1alpha1.Key tag) (V1alpha1.Value tag)])
        (replicate (length tags) (SDK.mkCreateInstanceTag "" ""))
        tags.

(** The request [CreateInstance] has built when it calls the vendor; [pw] is
    the local variable of that name. *)
Definition createRequest (externalName : string) (p : V1alpha1.RedisInstanceParameters)
    (pw : string) : SDK.CreateInstanceRequest :=
  {| SDK.create_ConnectTimeout := ConnectTimeOut;
     SDK.create_ReadTimeout := ReadTimeOut;
     SDK.create_Token := V1alpha1.Token p;
     SDK.create_InstanceName := externalName;
     SDK.create_InstanceClass := V1alpha1.InstanceClass p;
     SDK.create_ZoneId := V1alpha1.ZoneID p;
     SDK.create_ChargeType := V1alpha1.ChargeType p;
     SDK.create_NodeType := V1alpha1.NodeType p;
     SDK.create_NetworkType := V1alpha1.NetworkType p;
     SDK.create_VpcId := V1alpha1.VpcID p;
     SDK.create_VSwitchId := V1alpha1.VSwitchID p;
     SDK.create_Period := V1alpha1.Period p;
     SDK.create_BusinessInfo := V1alpha1.BusinessInfo p;
     SDK.create_CouponNo := V1alpha1.CouponNo p;
     SDK.create_SrcDBInstanceId := V1alpha1.SrcDBInstanceId p;
     SDK.create_BackupId := V1alpha1.BackupId p;
     SDK.create_InstanceType := V1alpha1.InstanceType p;
     SDK.create_EngineVersion := V1alpha1.EngineVersion p;
     SDK.create_PrivateIpAddress := V1alpha1.PrivateIpAddress p;
     SDK.create_AutoUseCoupon := V1alpha1.AutoUseCoupon p;
     SDK.create_AutoRenew := V1alpha1.AutoRenew p;
     SDK.create_AutoRenewPeriod := V1alpha1.AutoRenewPeriod p;
     SDK.create_ResourceGroupId := V1alpha1.ResourceGroupId p;
     SDK.create_RestoreTime := V1alpha1.RestoreTime p;
     SDK.create_DedicatedHostGroupId := V1alpha1.DedicatedHostGroupId p;
     SDK.create_GlobalInstanceId := V1alpha1.GlobalInstanceId p;
     SDK.create_GlobalInstance := SDK.NewBoolean (V1alpha1.GlobalInstance p);
     SDK.create_SecondaryZoneId := V1alpha1.SecondaryZoneID p;
     SDK.create_GlobalSecurityGroupIds := V1alpha1.GlobalSecurityGroupIds p;
     SDK.create_Appendonly := V1alpha1.Appendonly p;
     SDK.create_ConnectionStringPrefix := V1alpha1.ConnectionStringPrefix p;
     SDK.create_ParamGroupId := V1alpha1.ParamGroupId p;
     SDK.create_ClusterBackupId := V1alpha1.ClusterBackupId p;
     SDK.create_Port := from_option Itoa "" (V1alpha1.Port p);
     SDK.create_Capacity := from_option SDK.NewInteger "" (V1alpha1.Capacity p);
     SDK.create_ShardCount := from_option SDK.NewInteger "" (V1alpha1.ShardCount p);
     SDK.create_ReadOnlyCount := from_option SDK.NewInteger "" (V1alpha1.ReadOnlyCount p);
     SDK.create_Password := pw;
     SDK.create_Tag := requestTags (V1alpha1.Tag_ p) |}.

(** [CreateInstance].  [pw] starts as the empty string and is assigned only
    where the source assigns it. *)
Definition CreateInstance (c : client) (externalName : string)
    (p : V1alpha1.RedisInstanceParameters)
  : M (option SDK.CreateInstanceResponse * option RedisConnection * error) :=
  '(pw, err) ←
    (if String.eqb (V1alpha1.Password p) ""
     then emit PasswordGenerate;; mret (password_Generate c)
     else mret (EmptyString, None));
  match err with
  | Some _ => mret (None, None, Wrap err errGeneratePasswordFailed)
  | None =>
      let request := createRequest externalName p pw in
      emit (SDKCreateInstance request);;
      let '(resp, err) := sdk_CreateInstance (redisCli c) request in
      match err with
      | Some _ => cleaned ← lift (CleanError err); mret (None, None, cleaned)
      | None =>
          let conn :=
            {| Username := SDK.resp_InstanceId resp;
               Password := pw;
               ConnectionDomain := SDK.resp_ConnectionDomain resp;
               Port := Itoa (SDK.resp_Port resp) |} in
          mret (Some resp, Some conn, None)
      end
  end.

Definition DeleteInstance (c : client) (id : string) : M error :=
  let request := {| SDK.delete_Scheme := HTTPSScheme; SDK.delete_InstanceId := id |} in
  emit (SDKDeleteInstance request);;
  lift (CleanError (sdk_DeleteInstance (redisCli c) request)).

Definition GenerateObservation (attr : SDK.DBInstanceAttribute)
  : V1alpha1.RedisInstanceObservation :=
  {| V1alpha1.InstanceStatus := SDK.InstanceStatus attr;
     V1alpha1.ConnectionReady := false;
     V1alpha1.ConnectionDomain := SDK.ConnectionDomain attr;
     V1alpha1.ObservedPort := Itoa (SDK.Port attr) |}.

(** [IsErrorNotFound]. *)
Definition IsErrorNotFound (err : error) : M bool :=
  match err with
  | None => mret false
  | Some e =>
      match As e with
      | None => target ← New errInstanceNotFound; mret (false || Is e target)
      | Some srverr => mret (String.eqb (SDK.errorCode srverr) errInstanceNotFoundCode)
      end
  end.

(** [SecurityIpsNeedUpdate]. *)
Definition SecurityIpsNeedUpdate (attr : SDK.DBInstanceAttribute)
    (p : V1alpha1.RedisInstanceParameters) : option SDK.ModifySecurityIpsRequest :=
  if String.eqb (V1alpha1.SecurityIps p) "" then None
  else
    let ips := Split (SDK.SecurityIPList attr) "," in
    let needUpdate := existsb (λ ip, negb (Contains (V1alpha1.SecurityIps p) ip)) ips in
    if needUpdate then
      Some {| SDK.ips_InstanceId := SDK.ips_InstanceId SDK.CreateModifySecurityIpsRequest;
              SDK.ips_SecurityIps := V1alpha1.SecurityIps p;
              SDK.ips_ModifyMode := DefaultIPModifyMode |}
    else None.

(** [calculateSpecDiff]. *)
Definition calculateSpecDiff (attr : SDK.DBInstanceAttribute)
    (p : V1alpha1.RedisInstanceParameters) : option SDK.ModifyInstanceSpecRequest :=
  let diff := SDK.CreateModifyInstanceSpecRequest in
  let effectiveTime :=
    if String.eqb (V1alpha1.EffectiveTime p) "" then SDK.spec_EffectiveTime diff
    else V1alpha1.EffectiveTime p in
  let classOnly :=
    {| SDK.spec_InstanceId := SDK.spec_InstanceId diff;
       SDK.spec_EffectiveTime := effectiveTime;
       SDK.spec_InstanceClass := V1alpha1.InstanceClass p;
       SDK.spec_ReadOnlyCount := SDK.spec_ReadOnlyCount diff |} in
  let current :=
    if String.eqb (SDK.ArchitectureType attr) RedisArchTypeCluster
    then SDK.RealInstanceClass attr
    else SDK.InstanceClass attr in
  if negb (String.eqb current (V1alpha1.InstanceClass p)) then Some classOnly
  else
    match V1alpha1.ReadOnlyCount p with
    | Some n =>
        if negb (SDK.ReadOnlyCount attr =? n) then
          Some {| SDK.spec_InstanceId := SDK.spec_InstanceId diff;
                  SDK.spec_EffectiveTime := effectiveTime;
                  SDK.spec_InstanceClass := SDK.spec_InstanceClass diff;
                  SDK.spec_ReadOnlyCount := SDK.NewInteger n |}
        else None
    | None => None
    end.

Definition SpecsNeedUpdate (attr : SDK.DBInstanceAttribute)
    (p : V1alpha1.RedisInstanceParameters) : option SDK.ModifyInstanceSpecRequest :=
  calculateSpecDiff attr p.

(** The error of [json.Unmarshal]; one text stands for each kind. *)
Definition json_error {A : Type} (d : Decoded A) : GoError :=
  match d with
  | UnmarshalTypeError => EOther "json: cannot unmarshal into Go value"
  | _ => EOther "json: invalid JSON input"
  end.

(** The body of the loop of [calculateParamDiff] over the wanted parameters:
    [actual] is the map read from the instance (nil when [None]), [needUpdate]
    the flag.  Writing into a nil map panics. *)
Definition paramStep (key val : string)
    (st : Outcome (option (gmap string string) * bool))
  : Outcome (option (gmap string string) * bool) :=
  match st with
  | Panics msg => Panics msg
  | Returns (actual, needUpdate) =>
      match actual ≫= (λ a, a !! key) with
      | Some actualVal =>
          if negb (String.eqb actualVal val)
          then Returns (insert key val <$> actual, true)
          else Returns (actual, needUpdate)
      | None =>
          match actual with
          | Some a => Returns (Some (<[key := val]> a), true)
          | None => Panics "assignment to entry in nil map"
          end
      end
  end.

(** [calculateParamDiff]. *)
Definition calculateParamDiff (attr : SDK.DBInstanceAttribute)
    (p : V1alpha1.RedisInstanceParameters)
  : Outcome (option SDK.ModifyInstanceParameterRequest * error) :=
  if String.eqb (V1alpha1.ParameterConfig p) "" then Returns (None, None)
  else
    match Unmarshal_map (SDK.Config attr) with
    | Value actual =>
        match Unmarshal_map (V1alpha1.ParameterConfig p) with
        | Value wanted =>
            match map_fold paramStep (Returns (actual, false)) (default ∅ wanted) with
            | Panics msg => Panics msg
            | Returns (actual', needUpdate) =>
                let configStr := Marshal_map actual' in
                if needUpdate then
                  Returns
                    (Some {| SDK.param_InstanceId :=
                               SDK.param_InstanceId SDK.CreateModifyInstanceParameterRequest;
                             SDK.param_Parameters := configStr |},
                     None)
                else Returns (None, None)
            end
        | d => Returns (None, Wrap (Some (json_error d)) errFailedToUnmarshalWantedConfig)
        end
    | d => Returns (None, Wrap (Some (json_error d)) errFailedToUnmarshalRealConfig)
    end.

Definition ParamsNeedUpdate (attr : SDK.DBInstanceAttribute)
    (p : V1alpha1.RedisInstanceParameters)
  : Outcome (option SDK.ModifyInstanceParameterRequest * error) :=
  calculateParamDiff attr p.

(** *** The operations that change an instance *)

(** [ModifyRedisInstanceRequest]. *)
Record ModifyRedisInstanceRequest : Type := {
  InstanceClass : string;
}.

(** The calls of [*aliredis.Client] that change an instance.  Such a call runs
    in [M]: a vendor may do anything there, and a vendor that panics whenever
    it is called shows which paths do not call it.  [ModifyInstanceSpec]
    receives the [Scheme] of the embedded [*requests.RpcRequest] beside the
    fields of the request; a request fresh from its constructor has the
    scheme "".  The methods below take this record where the source has
    their receiver, of which they use the vendor client only. *)
Record AliModifier : Type := {
  ModifyInstanceSpec : string → SDK.ModifyInstanceSpecRequest → M error;
  sdk_ModifySecurityIps : SDK.ModifySecurityIpsRequest → M error;
  ModifyInstanceParameter : SDK.ModifyInstanceParameterRequest → M error;
}.

Definition nil_dereference : string := "invalid memory address or nil pointer dereference".

Definition modifyInstanceSpec (c : AliModifier) (id : string)
    (req : ModifyRedisInstanceRequest) : M error :=
  let request := SDK.CreateModifyInstanceSpecRequest in
  let request :=
    {| SDK.spec_InstanceId := id;
       SDK.spec_EffectiveTime := SDK.spec_EffectiveTime request;
       SDK.spec_InstanceClass := InstanceClass req;
       SDK.spec_ReadOnlyCount := SDK.spec_ReadOnlyCount request |} in
  err ← ModifyInstanceSpec c HTTPSScheme request;
  lift (CleanError err).

(** [UpdateInstance], with its three returns. *)
Definition UpdateInstance (c : AliModifier) (id : string)
    (req : ModifyRedisInstanceRequest) : M error :=
  if String.eqb (InstanceClass req) "" then
    e ← New "modify instances spec is require"; mret (Some e)
  else if negb (String.eqb (InstanceClass req) "") then modifyInstanceSpec c id req
  else mret None.

(** [ModifySecurityIps], [ModifyInstanceSpecs] and [ModifyInstanceParams]
    write the instance ID into the request they are handed, which is behind a
    pointer: [None] is the nil pointer, and the request is returned as the
    call leaves it. *)
Definition ModifySecurityIps (c : AliModifier) (id : string)
    (req : option SDK.ModifySecurityIpsRequest)
  : M (SDK.ModifySecurityIpsRequest * error) :=
  match req with
  | None => panic nil_dereference
  | Some req =>
      let req := {| SDK.ips_InstanceId := id;
                    SDK.ips_SecurityIps := SDK.ips_SecurityIps req;
                    SDK.ips_ModifyMode := SDK.ips_ModifyMode req |} in
      err ← sdk_ModifySecurityIps c req;
      cleaned ← lift (CleanError err);
      mret (req, cleaned)
  end.

Definition ModifyInstanceSpecs (c : AliModifier) (id : string)
    (req : option SDK.ModifyInstanceSpecRequest)
  : M (SDK.ModifyInstanceSpecRequest * error) :=
  match req with
  | None => panic nil_dereference
  | Some req =>
      let req := {| SDK.spec_InstanceId := id;
                    SDK.spec_EffectiveTime := SDK.spec_EffectiveTime req;
                    SDK.spec_InstanceClass := SDK.spec_InstanceClass req;
                    SDK.spec_ReadOnlyCount := SDK.spec_ReadOnlyCount req |} in
      err ← ModifyInstanceSpec c "" req;
      cleaned ← lift (CleanError err);
      mret (req, cleaned)
  end.

Definition ModifyInstanceParams (c : AliModifier) (id : string)
    (req : option SDK.ModifyInstanceParameterRequest)
  : M (SDK.ModifyInstanceParameterRequest * error) :=
  match req with
  | None => panic nil_dereference
  | Some req =>
      let req := {| SDK.param_InstanceId := id;
                    SDK.param_Parameters := SDK.param_Parameters req |} in
      err ← ModifyInstanceParameter c req;
      cleaned ← lift (CleanError err);
      mret (req, cleaned)
  end.

End Redis.

(* ===================================================================== *)
(** ** pkg/controller/redis *)
(* ===================================================================== *)

Module Controller.
Import Go Runtime Errors.

Definition errNotInstance : string := "managed resource is not an instance custom resource".
Definition errDeleteFailed : string := "cannot delete redis instance".
Definition errDescribeFailed : string := "cannot describe redis instance".

(** The keys of a connection secret ([xpv1]). *)
Definition ResourceCredentialsSecretUserKey : string := "username".
Definition ResourceCredentialsSecretPasswordKey : string := "password".
Definition ResourceCredentialsSecretEndpointKey : string := "endpoint".
Definition ResourceCredentialsSecretPortKey : string := "port".

(** [meta.AnnotationKeyExternalName] and [meta.GetExternalName]. *)
Definition AnnotationKeyExternalName : string := "crossplane.io/external-name".

Definition GetExternalName (cr : V1alpha1.RedisInstance) : string :=
  default "" (V1alpha1.Annotations cr !! AnnotationKeyExternalName).

(** The interface [redis.Client], as far as [Observe] and [Delete] call it. *)
Record Client : Type := {
  DescribeInstance :
    string → M (option SDK.DBInstanceAttribute * option Redis.RedisConnection * error);
  DeleteInstance : string → M error;
}.

(** The adapter of redis.go behind the interface. *)
Definition adapter (c : Redis.client) : Client :=
  {| DescribeInstance := Redis.DescribeInstance c;
     DeleteInstance := Redis.DeleteInstance c |}.

Record external : Type := {
  redisClient : Client;
}.

(** [managed.ExternalObservation]; a nil map of connection details is the
    empty map. *)
Record ExternalObservation : Type := {
  ResourceExists : bool;
  ResourceUpToDate : bool;
  ConnectionDetails : gmap string string;
}.

Definition noObservation : ExternalObservation :=
  {| ResourceExists := false; ResourceUpToDate := false; ConnectionDetails := ∅ |}.

(** [resource.Ignore(is, err)]. *)
Definition Ignore (ignore : error → M bool) (err : error) : M error :=
  b ← ignore err; mret (if b : bool then None else err).

(** How [fmt.Print] shows an error. *)
Definition show_error (err : error) : string :=
  match err with
  | None => "<nil>"
  | Some e => Error e
  end.

Definition getConnectionDetails (c : Redis.RedisConnection) : gmap string string :=
  let cd : gmap string string := ∅ in
  let cd := if negb (String.eqb (Redis.Username c) "")
            then <[ResourceCredentialsSecretUserKey := Redis.Username c]> cd else cd in
  let cd := if negb (String.eqb (Redis.Password c) "")
            then <[ResourceCredentialsSecretPasswordKey := Redis.Password c]> cd else cd in
  let cd := if negb (String.eqb (Redis.ConnectionDomain c) "")
            then <[ResourceCredentialsSecretEndpointKey := Redis.ConnectionDomain c]> cd else cd in
  let cd := if negb (String.eqb (Redis.Port c) "")
            then <[ResourceCredentialsSecretPortKey := Redis.Port c]> cd else cd in
  cd.

Definition setAtProvider (cr : V1alpha1.RedisInstance)
    (o : V1alpha1.RedisInstanceObservation) : V1alpha1.RedisInstance :=
  {| V1alpha1.Name := V1alpha1.Name cr;
     V1alpha1.Annotations := V1alpha1.Annotations cr;
     V1alpha1.ForProvider := V1alpha1.ForProvider cr;
     V1alpha1.AtProvider := o;
     V1alpha1.Conditions := V1alpha1.Conditions cr |}.

Definition setCondition (cr : V1alpha1.RedisInstance) (c : V1alpha1.Condition)
  : V1alpha1.RedisInstance :=
  {| V1alpha1.Name := V1alpha1.Name cr;
     V1alpha1.Annotations := V1alpha1.Annotations cr;
     V1alpha1.ForProvider := V1alpha1.ForProvider cr;
     V1alpha1.AtProvider := V1alpha1.AtProvider cr;
     V1alpha1.Conditions := V1alpha1.SetConditions (V1alpha1.Conditions cr) c |}.

(** [Observe].  The resource is behind a pointer: it is returned as the call
    leaves it. *)
Definition Observe (e : external) (mg : V1alpha1.Managed)
  : M (V1alpha1.Managed * ExternalObservation * error) :=
  match mg with
  | V1alpha1.NotRedisInstance =>
      err ← New errNotInstance; mret (mg, noObservation, Some err)
  | V1alpha1.IsRedisInstance cr =>
      let instanceId := GetExternalName cr in
      if String.eqb instanceId "" then
        mret (mg, {| ResourceExists := false; ResourceUpToDate := false;
                     ConnectionDetails := ∅ |}, None)
      else
        emit (ClientDescribeInstance instanceId);;
        '(resp, conn, err) ← DescribeInstance (redisClient e) instanceId;
        match err with
        | Some err' =>
            shown ← Ignore Redis.IsErrorNotFound err;
            emit (Print (Error err' +:+ show_error shown));;
            ignored ← Ignore Redis.IsErrorNotFound err;
            mret (mg, noObservation, Wrap ignored errDescribeFailed)
        | None =>
            match resp, conn with
            | Some attr, Some conn' =>
                let cr := setAtProvider cr (Redis.GenerateObservation attr) in
                let status := V1alpha1.InstanceStatus (V1alpha1.AtProvider cr) in
                let cr :=
                  if String.eqb status V1alpha1.RedisInstanceStateRunning
                  then setCondition cr V1alpha1.Available
                  else if String.eqb status V1alpha1.RedisInstanceStateCreating
                  then setCondition cr V1alpha1.Creating
                  else if String.eqb status V1alpha1.RedisInstanceStateDeleting
                  then setCondition cr V1alpha1.Deleting
                  else setCondition cr V1alpha1.Unavailable in
                mret (V1alpha1.IsRedisInstance cr,
                      {| ResourceExists := true; ResourceUpToDate := true;
                         ConnectionDetails := getConnectionDetails conn' |},
                      None)
            | _, _ => panic "invalid memory address or nil pointer dereference"
            end
        end
  end.

(** [Delete]. *)
Definition Delete (e : external) (mg : V1alpha1.Managed) : M (V1alpha1.Managed * error) :=
  match mg with
  | V1alpha1.NotRedisInstance => err ← New errNotInstance; mret (mg, Some err)
  | V1alpha1.IsRedisInstance cr =>
      let cr := setCondition cr V1alpha1.Deleting in
      emit (ClientDeleteInstance (GetExternalName cr));;
      err ← DeleteInstance (redisClient e) (GetExternalName cr);
      ignored ← Ignore Redis.IsErrorNotFound err;
      mret (V1alpha1.IsRedisInstance cr, Wrap ignored errDeleteFailed)
  end.

(** *** Create and Update *)

Definition errStatusUpdate : string := "failed to update CR status".
Definition errCreateFailed : string := "cannot create redis instance".

(** [meta.SetExternalName]. *)
Definition SetExternalName (cr : V1alpha1.RedisInstance) (name : string)
  : V1alpha1.RedisInstance :=
  {| V1alpha1.Name := V1alpha1.Name cr;
     V1alpha1.Annotations := <[AnnotationKeyExternalName := name]> (V1alpha1.Annotations cr);
     V1alpha1.ForProvider := V1alpha1.ForProvider cr;
     V1alpha1.AtProvider := V1alpha1.AtProvider cr;
     V1alpha1.Conditions := V1alpha1.Conditions cr |}.

(** The methods of the interface [redis.Client] that [Create] and [Update]
    call. *)
Record Writer : Type := {
  CreateInstance :
    string → V1alpha1.RedisInstanceParameters →
    M (option SDK.CreateInstanceResponse * option Redis.RedisConnection * error);
  UpdateInstance : string → Redis.ModifyRedisInstanceRequest → M error;
}.

(** The adapter of redis.go behind these methods. *)
Definition writer (c : Redis.client) (m : Redis.AliModifier) : Writer :=
  {| CreateInstance := Redis.CreateInstance c;
     UpdateInstance := Redis.UpdateInstance m |}.

(** [kubeClient.Status().Update(ctx, cr)]: the resource is behind a pointer
    and comes back as the API server answers. *)
Record KubeClient : Type := {
  StatusUpdate : V1alpha1.RedisInstance → M (V1alpha1.RedisInstance * error);
}.

(** [managed.ExternalCreation] and [managed.ExternalUpdate]; a nil map of
    connection details is the empty map. *)
Record ExternalCreation : Type := {
  creation_ConnectionDetails : gmap string string;
}.

Record ExternalUpdate : Type := {
  update_ConnectionDetails : gmap string string;
}.

Definition noCreation : ExternalCreation := {| creation_ConnectionDetails := ∅ |}.
Definition noUpdate : ExternalUpdate := {| update_ConnectionDetails := ∅ |}.

(** [Create]; [c] is the client of the receiver and [k] its kube client. *)
Definition Create (c : Writer) (k : KubeClient) (mg : V1alpha1.Managed)
  : M (V1alpha1.Managed * ExternalCreation * error) :=
  match mg with
  | V1alpha1.NotRedisInstance =>
      err ← New errNotInstance; mret (mg, noCreation, Some err)
  | V1alpha1.IsRedisInstance cr =>
      let cr := setCondition cr V1alpha1.Creating in
      '(cr, err) ← StatusUpdate k cr;
      match err with
      | Some _ => mret (V1alpha1.IsRedisInstance cr, noCreation, Wrap err errStatusUpdate)
      | None =>
          '(resp, conn, err) ←
            CreateInstance c (V1alpha1.Name cr) (V1alpha1.ForProvider cr);
          match err with
          | Some _ =>
              mret (V1alpha1.IsRedisInstance cr, noCreation, Wrap err errCreateFailed)
          | None =>
              match resp, conn with
              | Some resp, Some conn =>
                  let cr := SetExternalName cr (SDK.resp_InstanceId resp) in
                  mret (V1alpha1.IsRedisInstance cr,
                        {| creation_ConnectionDetails := getConnectionDetails conn |},
                        None)
              | _, _ => panic "invalid memory address or nil pointer dereference"
              end
          end
      end
  end.

(** [Update]. *)
Definition Update (c : Writer) (mg : V1alpha1.Managed)
  : M (V1alpha1.Managed * ExternalUpdate * error) :=
  match mg with
  | V1alpha1.NotRedisInstance =>
      err ← New errNotInstance; mret (mg, noUpdate, Some err)
  | V1alpha1.IsRedisInstance cr =>
      let cr := setCondition cr V1alpha1.Creating in
      let description := V1alpha1.ForProvider cr in
      let modifyReq := {| Redis.InstanceClass := V1alpha1.InstanceClass description |} in
      err ← UpdateInstance c (GetExternalName cr) modifyReq;
      mret (V1alpha1.IsRedisInstance cr, noUpdate, err)
  end.

End Controller.

(* ===================================================================== *)
(** ** Earlier revisions of the adapter *)
(* ===================================================================== *)

(** The source tree keeps earlier revisions of redis.go.  The functions below
    are those that differ from the ones above in more than their types. *)

Module EarlierRedis.
Import Go JSON Runtime Errors.

(** *** The first revision of redis.go *)

(** [ErrDBInstanceNotFound] is a variable of the package: [errors.New] runs
    once, when the program starts, and the functions read the value it
    returned. *)
Definition init : M GoError := New "DBInstanceNotFound".

(** [v1alpha1.Endpoint] and [DBInstance]. *)
Record Endpoint : Type := {
  Address : string;
  Port : string;
}.

Record DBInstance : Type := {
  ID : string;
  Status : string;
  Endpoint_ : option Endpoint;
}.

(** [aliredis.KVStoreInstance] and the request of [DescribeInstances], as far
    as the adapter reads and writes them. *)
Record KVStoreInstance : Type := {
  InstanceId : string;
  InstanceStatus : string;
  ConnectionDomain : string;
  kv_Port : Z;
}.

Record DescribeInstancesRequest : Type := {
  Scheme : string;
  InstanceIds : string;
}.

Record AliClient : Type := {
  DescribeInstances : DescribeInstancesRequest → list KVStoreInstance * error;
}.

Definition DescribeDBInstance (ErrDBInstanceNotFound : GoError) (c : AliClient)
    (id : string) : Outcome (option DBInstance * error) :=
  let request := {| Scheme := Redis.HTTPSScheme; InstanceIds := id |} in
  let '(response, err) := DescribeInstances c request in
  match err with
  | Some _ =>
      match Redis.CleanError err with
      | Returns cleaned => Returns (None, Wrap cleaned "cannot describe redis instance")
      | Panics msg => Panics msg
      end
  | None =>
      match response with
      | [] => Returns (None, Some ErrDBInstanceNotFound)
      | rsp :: _ =>
          Returns (Some {| ID := InstanceId rsp;
                           Status := InstanceStatus rsp;
                           Endpoint_ := Some {| Address := ConnectionDomain rsp;
                                                Port := Itoa (kv_Port rsp) |} |},
                   None)
      end
  end.

Definition IsErrorNotFound (ErrDBInstanceNotFound : GoError) (err : error) : bool :=
  match err with
  | None => false
  | Some e =>
      match As e with
      | None => false || Is e ErrDBInstanceNotFound
      | Some srverr => String.eqb (SDK.errorCode srverr) "InvalidInstanceId.NotFound"
      end
  end.

(** *** The revision in which the security IPs are plain strings *)

Definition DefaultModifyMode : string := "Cover".

Definition ModifySecurityIps (c : Redis.AliModifier) (id ips : string) : M error :=
  let req := SDK.CreateModifySecurityIpsRequest in
  let req := {| SDK.ips_InstanceId := id;
                SDK.ips_SecurityIps := ips;
                SDK.ips_ModifyMode := DefaultModifyMode |} in
  err ← Redis.sdk_ModifySecurityIps c req;
  lift (Redis.CleanError err).

Definition SecurityIpsNeedUpdate (configuredIps parameterIps : string) : bool :=
  if String.eqb parameterIps "" then false
  else
    let ips := Split configuredIps "," in
    existsb (λ ip, negb (Contains parameterIps ip)) ips.

End EarlierRedis.

(* ===================================================================== *)
(** ** Definitions used to state the properties, and sample values *)
(* ===================================================================== *)

Import Go JSON Runtime Errors.

(** [s] with every byte that starts no well-formed character replaced by
    U+FFFD, the string [string([]rune(s))] of Go: what is left of a string
    that was written by [json.Marshal] and read back by [json.Unmarshal].  A
    well-formed string is left as it is. *)
Fixpoint coerce_utf8 (s : string) : string :=
  match s with
  | EmptyString => EmptyString
  | String c r =>
      match rune_width s, r with
      | 1%nat, _ => String c (coerce_utf8 r)
      | 2%nat, String c2 r2 => String c (String c2 (coerce_utf8 r2))
      | 3%nat, String c2 (String c3 r3) =>
          String c (String c2 (String c3 (coerce_utf8 r3)))
      | 4%nat, String c2 (String c3 (String c4 r4)) =>
          String c (String c2 (String c3 (String c4 (coerce_utf8 r4))))
      | _, _ => utf8_encode replacement_char +:+ coerce_utf8 r
      end
  end.

(** The string is well-formed UTF-8. *)
Definition well_formed (s : string) : Prop := coerce_utf8 s = s.

(** Every byte of the string is ASCII. *)
Definition ascii_only (s : string) : bool :=
  forallb (λ c, (N_of_ascii c <? 128)%N) (list_ascii_of_string s).

(** A mapping all of whose keys and values are well formed. *)
Definition well_formed_map (m : gmap string string) : Prop :=
  map_Forall (λ k v, well_formed k ∧ well_formed v) m.

(** What [CleanError] returns, as a total function: the request ID and the
    recommendation of a server error are emptied, and the three texts that
    travel through JSON come back coerced. *)
Definition scrubbed (err : error) : error :=
  match err with
  | Some (EServer s) =>
      Some (EServer (SDK.mkServerError (SDK.httpStatus s) "" (coerce_utf8 (SDK.hostId s))
                       (coerce_utf8 (SDK.errorCode s)) "" (coerce_utf8 (SDK.message s))
                       (SDK.comment s)))
  | _ => err
  end.

(** The test [IsErrorNotFound] makes, read off the chain of the error. *)
Definition not_found (e : GoError) : bool :=
  match As e with
  | Some srverr => String.eqb (SDK.errorCode srverr) Redis.errInstanceNotFoundCode
  | None => false
  end.

(** What [CreateInstance] returns once the vendor has answered the request
    that carries the password [pw]. *)
Definition created (c : Redis.client) (externalName : string)
    (p : V1alpha1.RedisInstanceParameters) (pw : string)
  : option SDK.CreateInstanceResponse * option Redis.RedisConnection * error :=
  let '(resp, err) :=
    Redis.sdk_CreateInstance (Redis.redisCli c) (Redis.createRequest externalName p pw) in
  match err with
  | Some _ => (None, None, scrubbed err)
  | None =>
      (Some resp,
       Some {| Redis.Username := SDK.resp_InstanceId resp;
               Redis.Password := pw;
               Redis.ConnectionDomain := SDK.resp_ConnectionDomain resp;
               Redis.Port := Itoa (SDK.resp_Port resp) |},
       None)
  end.

(** The tag of the request made from a desired tag, and the zero tag. *)
Definition request_tag (tag : V1alpha1.Tag) : SDK.CreateInstanceTag :=
  SDK.mkCreateInstanceTag (V1alpha1.Key tag) (V1alpha1.Value tag).

Definition zero_tag : SDK.CreateInstanceTag := SDK.mkCreateInstanceTag "" "".

(** The class [calculateSpecDiff] compares the desired class with. *)
Definition compared_class (attr : SDK.DBInstanceAttribute) : string :=
  if decide (SDK.ArchitectureType attr = Redis.RedisArchTypeCluster)
  then SDK.RealInstanceClass attr
  else SDK.InstanceClass attr.

(** Some desired key is missing from the actual mapping, or has another
    value there. *)
Definition differs (desired actual : gmap string string) : Prop :=
  ∃ k v, desired !! k = Some v ∧ actual !! k ≠ Some v.

(** The condition [Observe] sets for an observed status. *)
Definition ready_condition (status : string) : V1alpha1.Condition :=
  if String.eqb status V1alpha1.RedisInstanceStateRunning then V1alpha1.Available
  else if String.eqb status V1alpha1.RedisInstanceStateCreating then V1alpha1.Creating
  else if String.eqb status V1alpha1.RedisInstanceStateDeleting then V1alpha1.Deleting
  else V1alpha1.Unavailable.

Module Sample.

(** Desired parameters, all zero but the fields given. *)
Definition parameters (password class : string) (readOnlyCount : option Z)
    (tags : list V1alpha1.Tag) (securityIps parameterConfig : string)
  : V1alpha1.RedisInstanceParameters :=
  {| V1alpha1.RegionID := ""; V1alpha1.Token := ""; V1alpha1.InstanceName := "";
     V1alpha1.Password := password; V1alpha1.Capacity := None;
     V1alpha1.InstanceClass := class;
     V1alpha1.ZoneID := ""; V1alpha1.ChargeType := ""; V1alpha1.NodeType := "";
     V1alpha1.NetworkType := ""; V1alpha1.VpcID := ""; V1alpha1.VSwitchID := "";
     V1alpha1.Period := ""; V1alpha1.BusinessInfo := ""; V1alpha1.CouponNo := "";
     V1alpha1.SrcDBInstanceId := ""; V1alpha1.BackupId := ""; V1alpha1.InstanceType := "";
     V1alpha1.EngineVersion := ""; V1alpha1.PrivateIpAddress := "";
     V1alpha1.AutoUseCoupon := ""; V1alpha1.AutoRenew := ""; V1alpha1.AutoRenewPeriod := "";
     V1alpha1.ResourceGroupId := ""; V1alpha1.RestoreTime := "";
     V1alpha1.DedicatedHostGroupId := ""; V1alpha1.ShardCount := None;
     V1alpha1.ReadOnlyCount := readOnlyCount; V1alpha1.GlobalInstanceId := "";
     V1alpha1.GlobalInstance := false; V1alpha1.SecondaryZoneID := "";
     V1alpha1.Port := None; V1alpha1.GlobalSecurityGroupIds := "";
     V1alpha1.Appendonly := ""; V1alpha1.ConnectionStringPrefix := "";
     V1alpha1.ParamGroupId := ""; V1alpha1.Tag_ := tags; V1alpha1.ClusterBackupId := "";
     V1alpha1.SecurityIps := securityIps; V1alpha1.ParameterConfig := parameterConfig;
     V1alpha1.EffectiveTime := "" |}.

(** A described instance. *)
Definition attribute (status arch class realClass : string) (readOnlyCount : Z)
    (securityIPList config : string) : SDK.DBInstanceAttribute :=
  {| SDK.InstanceId := "testId"; SDK.InstanceStatus := status;
     SDK.ConnectionDomain := "172.0.0.1"; SDK.Port := 8080;
     SDK.ArchitectureType := arch; SDK.InstanceClass := class;
     SDK.RealInstanceClass := realClass; SDK.ReadOnlyCount := readOnlyCount;
     SDK.SecurityIPList := securityIPList; SDK.Config := config |}.

(** A resource with its external name and its observed status. *)
Definition instance (externalName status : string) (p : V1alpha1.RedisInstanceParameters)
  : V1alpha1.RedisInstance :=
  {| V1alpha1.Name := "testName";
     V1alpha1.Annotations :=
       if String.eqb externalName "" then ∅
       else {[ Controller.AnnotationKeyExternalName := externalName ]};
     V1alpha1.ForProvider := p;
     V1alpha1.AtProvider :=
       {| V1alpha1.InstanceStatus := status; V1alpha1.ConnectionReady := false;
          V1alpha1.ConnectionDomain := "172.0.0.1"; V1alpha1.ObservedPort := "8080" |};
     V1alpha1.Conditions := [] |}.

(** A vendor that knows one instance, [testId], and answers every other
    request with the server error [failure]. *)
Definition vendor (failure : SDK.ServerError) : Redis.AliClient :=
  {| Redis.DescribeInstanceAttribute := λ req,
       if String.eqb (SDK.describe_InstanceId req) "testId"
       then ({| SDK.Instances := [attribute "Normal" "standard" "c" "c" 0 "" ""] |}, None)
       else ({| SDK.Instances := [] |}, Some (EServer failure));
     Redis.sdk_CreateInstance := λ req,
       ({| SDK.resp_InstanceId := "testId"; SDK.resp_ConnectionDomain := "172.0.0.1";
           SDK.resp_Port := 8080 |}, None);
     Redis.sdk_DeleteInstance := λ req,
       if String.eqb (SDK.delete_InstanceId req) "testId" then None
       else Some (EServer failure) |}.

Definition throttled : SDK.ServerError :=
  SDK.mkServerError 400 "REQ-1" "r-kvstore.aliyuncs.com" "Throttling" ""
    "Request was denied due to user flow control." "".

Definition client (failure : SDK.ServerError) : Redis.client :=
  {| Redis.redisCli := vendor failure; Redis.password_Generate := ("Gen3rated", None) |}.

Definition external (failure : SDK.ServerError) : Controller.external :=
  {| Controller.redisClient := Controller.adapter (client failure) |}.

Definition world : World := mkWorld 0 [].

(** The client of the tests of the controller, [fakeRedisClient]. *)
Definition fakeRedisClient : Controller.Client :=
  {| Controller.DescribeInstance := λ id,
       if negb (String.eqb id "testId") then
         e ← New "DescribeRedisInstance: client doesn't work"; mret (None, None, Some e)
       else
         mret (Some (attribute V1alpha1.RedisInstanceStateRunning "" "" "" 0 "" ""),
               Some {| Redis.Username := ""; Redis.Password := "";
                       Redis.ConnectionDomain := "172.0.0.1"; Redis.Port := "8080" |},
               None);
     Controller.DeleteInstance := λ id,
       if negb (String.eqb id "testId") then
         e ← New "DeleteRedisInstance: client doesn't work"; mret (Some e)
       else mret None |}.

(** What a call of the controller reports, when it returns. *)
Definition observation
    (o : Outcome (V1alpha1.Managed * Controller.ExternalObservation * error * World))
  : option (Controller.ExternalObservation * error) :=
  match o with
  | Returns (_, obs, err, _) => Some (obs, err)
  | Panics _ => None
  end.

Definition deletion (o : Outcome (V1alpha1.Managed * error * World)) : option error :=
  match o with
  | Returns (_, err, _) => Some err
  | Panics _ => None
  end.

(** A vendor that answers every change with [answer], and one that panics
    when it is called. *)
Definition modifier (answer : error) : Redis.AliModifier :=
  {| Redis.ModifyInstanceSpec := λ _ _, mret answer;
     Redis.sdk_ModifySecurityIps := λ _, mret answer;
     Redis.ModifyInstanceParameter := λ _, mret answer |}.

Definition untouchable : Redis.AliModifier :=
  {| Redis.ModifyInstanceSpec := λ _ _, panic "the vendor was called";
     Redis.sdk_ModifySecurityIps := λ _, panic "the vendor was called";
     Redis.ModifyInstanceParameter := λ _, panic "the vendor was called" |}.

(** A kube client whose status update answers [answer] and leaves the
    resource as it is. *)
Definition kube (answer : error) : Controller.KubeClient :=
  {| Controller.StatusUpdate := λ cr, mret (cr, answer) |}.

(** The parameters [p], with a desired port. *)
Definition on_port (port : Z) (p : V1alpha1.RedisInstanceParameters)
  : V1alpha1.RedisInstanceParameters :=
  {| V1alpha1.RegionID := V1alpha1.RegionID p;
     V1alpha1.Token := V1alpha1.Token p;
     V1alpha1.InstanceName := V1alpha1.InstanceName p;
     V1alpha1.Password := V1alpha1.Password p;
     V1alpha1.Capacity := V1alpha1.Capacity p;
     V1alpha1.InstanceClass := V1alpha1.InstanceClass p;
     V1alpha1.ZoneID := V1alpha1.ZoneID p;
     V1alpha1.ChargeType := V1alpha1.ChargeType p;
     V1alpha1.NodeType := V1alpha1.NodeType p;
     V1alpha1.NetworkType := V1alpha1.NetworkType p;
     V1alpha1.VpcID := V1alpha1.VpcID p;
     V1alpha1.VSwitchID := V1alpha1.VSwitchID p;
     V1alpha1.Period := V1alpha1.Period p;
     V1alpha1.BusinessInfo := V1alpha1.BusinessInfo p;
     V1alpha1.CouponNo := V1alpha1.CouponNo p;
     V1alpha1.SrcDBInstanceId := V1alpha1.SrcDBInstanceId p;
     V1alpha1.BackupId := V1alpha1.BackupId p;
     V1alpha1.InstanceType := V1alpha1.InstanceType p;
     V1alpha1.EngineVersion := V1alpha1.EngineVersion p;
     V1alpha1.PrivateIpAddress := V1alpha1.PrivateIpAddress p;
     V1alpha1.AutoUseCoupon := V1alpha1.AutoUseCoupon p;
     V1alpha1.AutoRenew := V1alpha1.AutoRenew p;
     V1alpha1.AutoRenewPeriod := V1alpha1.AutoRenewPeriod p;
     V1alpha1.ResourceGroupId := V1alpha1.ResourceGroupId p;
     V1alpha1.RestoreTime := V1alpha1.RestoreTime p;
     V1alpha1.DedicatedHostGroupId := V1alpha1.DedicatedHostGroupId p;
     V1alpha1.ShardCount := V1alpha1.ShardCount p;
     V1alpha1.ReadOnlyCount := V1alpha1.ReadOnlyCount p;
     V1alpha1.GlobalInstanceId := V1alpha1.GlobalInstanceId p;
     V1alpha1.GlobalInstance := V1alpha1.GlobalInstance p;
     V1alpha1.SecondaryZoneID := V1alpha1.SecondaryZoneID p;
     V1alpha1.Port := Some port;
     V1alpha1.GlobalSecurityGroupIds := V1alpha1.GlobalSecurityGroupIds p;
     V1alpha1.Appendonly := V1alpha1.Appendonly p;
     V1alpha1.ConnectionStringPrefix := V1alpha1.ConnectionStringPrefix p;
     V1alpha1.ParamGroupId := V1alpha1.ParamGroupId p;
     V1alpha1.Tag_ := V1alpha1.Tag_ p;
     V1alpha1.ClusterBackupId := V1alpha1.ClusterBackupId p;
     V1alpha1.SecurityIps := V1alpha1.SecurityIps p;
     V1alpha1.ParameterConfig := V1alpha1.ParameterConfig p;
     V1alpha1.EffectiveTime := V1alpha1.EffectiveTime p |}.

(** The same client of the tests, for [Create] and [Update]. *)
Definition fakeWriter : Controller.Writer :=
  {| Controller.CreateInstance := λ instanceName p,
       if negb (String.eqb instanceName "testName") then
         e ← New "CreateRedisInstance: client doesn't work"; mret (None, None, Some e)
       else
         match V1alpha1.Port p with
         | Some port =>
             mret (Some {| SDK.resp_InstanceId := "testId";
                           SDK.resp_ConnectionDomain := "172.0.0.1";
                           SDK.resp_Port := port |},
                   Some {| Redis.Username := "testId";
                           Redis.Password := V1alpha1.Password p;
                           Redis.ConnectionDomain := "172.0.0.1";
                           Redis.Port := Itoa port |},
                   None)
         | None => panic "invalid memory address or nil pointer dereference"
         end;
     Controller.UpdateInstance := λ id req,
       if negb (String.eqb id "testId") then
         e ← New "Update: client doesn't work"; mret (Some e)
       else mret None |}.

(** What [Create] and [Update] report, when they return. *)
Definition creation
    (o : Outcome (V1alpha1.Managed * Controller.ExternalCreation * error * World))
  : option (Controller.ExternalCreation * error) :=
  match o with
  | Returns (_, u, err, _) => Some (u, err)
  | Panics _ => None
  end.

Definition update
    (o : Outcome (V1alpha1.Managed * Controller.ExternalUpdate * error * World))
  : option (Controller.ExternalUpdate * error) :=
  match o with
  | Returns (_, u, err, _) => Some (u, err)
  | Panics _ => None
  end.

End Sample.

(** A run of the decoder that succeeds consumes some bytes, and succeeds as
    well with any fuel that is at least their number. *)
Definition fuel_enough {A : Type} (run : nat → string → option (A * string))
    (f : nat) : Prop :=
  ∀ s a r, run f s = Some (a, r) →
    (String.length r < String.length s)%nat ∧
    ∀ f', (String.length s - String.length r ≤ f')%nat → run f' s = Some (a, r).

Ltac rewrite_cases :=
  repeat (cbn [mbind option_bind];
          match goal with
          | E : ?x = _ |- context [?x] => rewrite E
          end);
  cbn [mbind option_bind].

(** Running a computation of [M]: its operations are unfolded. *)
Ltac run_M :=
  repeat (unfold mbind, M_bind, mret, M_ret, emit, alloc, lift, panic, New; cbn).


(* ===================================================================== *)
(** * Properties *)

(** Arithmetic with the quotients and remainders of code points. *)
Ltac lia_div := zify; Z.to_euclidean_division_equations; lia.

(** Case analysis on the comparisons of bytes in the goal. *)
Ltac compare_bytes :=
  repeat match goal with
         | |- context [(?a <? ?b)%N] => destruct (N.ltb_spec a b); try (exfalso; lia)
         | |- context [(?a <=? ?b)%N] => destruct (N.leb_spec a b); try (exfalso; lia)
         | |- context [(?a =? ?b)%N] => destruct (N.eqb_spec a b); try (exfalso; lia)
         end.


(* ===================================================================== *)


(** ** Well-formed characters *)

Lemma append_assoc (a b c : string) : (a +:+ b) +:+ c = a +:+ (b +:+ c).
Proof. induction a as [|x a IH]; simpl; [reflexivity | now rewrite IH]. Qed.

Lemma append_nil_r (a : string) : a +:+ "" = a.
Proof. induction a as [|x a IH]; simpl; [reflexivity | now rewrite IH]. Qed.

(** A byte that is not ASCII is neither a quote, nor a backslash, nor a
    control character. *)
Lemma non_ascii (c : ascii) :
  (N_of_ascii c <? 128)%N = false →
  Ascii.eqb c DQ = false ∧ Ascii.eqb c "\" = false ∧ (N_of_ascii c <? 32)%N = false.
Proof. destruct c as [[] [] [] [] [] [] [] []]; vm_compute; intros; try discriminate; done. Qed.

(** The strings, character by character: an ASCII byte, a well-formed
    character of two, three or four bytes, or a byte that starts none. *)
Lemma rune_ind (P : string → Prop) :
  P "" →
  (∀ c r, (N_of_ascii c <? 128)%N = true → P r → P (String c r)) →
  (∀ c c2 r, (N_of_ascii c <? 128)%N = false →
     (∀ t, rune_width (String c (String c2 t)) = 2%nat) →
     P r → P (String c (String c2 r))) →
  (∀ c c2 c3 r, (N_of_ascii c <? 128)%N = false →
     (∀ t, rune_width (String c (String c2 (String c3 t))) = 3%nat) →
     P r → P (String c (String c2 (String c3 r)))) →
  (∀ c c2 c3 c4 r, (N_of_ascii c <? 128)%N = false →
     (∀ t, rune_width (String c (String c2 (String c3 (String c4 t)))) = 4%nat) →
     P r → P (String c (String c2 (String c3 (String c4 r))))) →
  (∀ c r, (N_of_ascii c <? 128)%N = false → rune_width (String c r) = 0%nat →
     P r → P (String c r)) →
  ∀ s, P s.
Proof.
  intros H0 H1 H2 H3 H4 Hbad s.
  assert (H : ∀ n s, (String.length s ≤ n)%nat → P s).
  { clear s. induction n as [|n IH]; intros s Hn.
    - destruct s; [assumption | cbn in Hn; lia].
    - destruct s as [|c r]; [assumption|]. cbn [String.length] in Hn.
      destruct (N_of_ascii c <? 128)%N eqn:Hc; [apply H1; [assumption | apply IH; lia]|].
      destruct (rune_width (String c r)) as [|[|[|[|[|k]]]]] eqn:Hw.
      + apply Hbad; [assumption.. | apply IH; lia].
      + exfalso. revert Hw. unfold rune_width. rewrite Hc.
        repeat match goal with
               | |- context [if ?b then _ else _] => destruct b
               | |- context [match ?x with _ => _ end] => destruct x
               end; discriminate.
      + destruct r as [|c2 r].
        { exfalso. revert Hw. unfold rune_width. rewrite Hc.
          repeat match goal with
                 | |- context [if ?b then _ else _] => destruct b
                 end; discriminate. }
        apply H2; [assumption | | apply IH; cbn [String.length] in Hn; lia].
        intros t. revert Hw. unfold rune_width. rewrite Hc.
        destruct (byte_in 194 223 c); [by destruct (second_byte c c2)|].
        destruct (byte_in 224 239 c).
        { destruct r as [|c3 r]; [discriminate|].
          destruct (second_byte c c2 && byte_in 128 191 c3); discriminate. }
        destruct (byte_in 240 244 c); [|discriminate].
        destruct r as [|c3 [|c4 r]]; try discriminate.
        destruct (second_byte c c2 && byte_in 128 191 c3 && byte_in 128 191 c4);
          discriminate.
      + destruct r as [|c2 [|c3 r]];
          try (exfalso; revert Hw; unfold rune_width; rewrite Hc;
               repeat match goal with
                      | |- context [if ?b then _ else _] => destruct b
                      end; discriminate).
        apply H3; [assumption | | apply IH; cbn [String.length] in Hn; lia].
        intros t. revert Hw. unfold rune_width. rewrite Hc.
        destruct (byte_in 194 223 c); [by destruct (second_byte c c2)|].
        destruct (byte_in 224 239 c).
        { by destruct (second_byte c c2 && byte_in 128 191 c3). }
        destruct (byte_in 240 244 c); [|discriminate].
        destruct r as [|c4 r]; try discriminate.
        destruct (second_byte c c2 && byte_in 128 191 c3 && byte_in 128 191 c4);
          discriminate.
      + destruct r as [|c2 [|c3 [|c4 r]]];
          try (exfalso; revert Hw; unfold rune_width; rewrite Hc;
               repeat match goal with
                      | |- context [if ?b then _ else _] => destruct b
                      end; discriminate).
        apply H4; [assumption | | apply IH; cbn [String.length] in Hn; lia].
        intros t. revert Hw. unfold rune_width. rewrite Hc.
        destruct (byte_in 194 223 c); [by destruct (second_byte c c2)|].
        destruct (byte_in 224 239 c).
        { by destruct (second_byte c c2 && byte_in 128 191 c3). }
        destruct (byte_in 240 244 c); [|discriminate].
        by destruct (second_byte c c2 && byte_in 128 191 c3 && byte_in 128 191 c4).
      + exfalso. revert Hw. unfold rune_width. rewrite Hc.
        repeat match goal with
               | |- context [if ?b then _ else _] => destruct b
               | |- context [match ?x with _ => _ end] => destruct x
               end; discriminate. }
  apply (H (String.length s)). lia.
Qed.

Lemma rune_width_ascii (c : ascii) (r : string) :
  (N_of_ascii c <? 128)%N = true → rune_width (String c r) = 1%nat.
Proof. intros H. unfold rune_width. by rewrite H. Qed.

(** What the decoder does with a byte that is not ASCII. *)
Lemma parse_string_body_non_ascii (c : ascii) (r : string) :
  (N_of_ascii c <? 128)%N = false →
  parse_string_body (String c r)
  = match rune_width (String c r), r with
    | 2%nat, String c2 r2 =>
        push (String c (String c2 "")) (parse_string_body r2)
    | 3%nat, String c2 (String c3 r3) =>
        push (String c (String c2 (String c3 ""))) (parse_string_body r3)
    | 4%nat, String c2 (String c3 (String c4 r4)) =>
        push (String c (String c2 (String c3 (String c4 "")))) (parse_string_body r4)
    | _, _ => push (utf8_encode replacement_char) (parse_string_body r)
    end.
Proof.
  intros H. destruct (non_ascii c H) as (H1 & H2 & H3).
  cbn [parse_string_body]. rewrite H1, H2, H3, H. reflexivity.
Qed.

Lemma is_line_separator_bytes (c c2 c3 : ascii) :
  is_line_separator c c2 c3 = true →
  c = "226"%char ∧ c2 = "128"%char ∧ (c3 = "168"%char ∨ c3 = "169"%char).
Proof.
  unfold is_line_separator. rewrite !andb_true_iff, orb_true_iff, !N.eqb_eq.
  intros [[H1 H2] H3].
  rewrite <- (ascii_N_embedding c), <- (ascii_N_embedding c2), <- (ascii_N_embedding c3).
  rewrite H1, H2. destruct H3 as [-> | ->]; auto.
Qed.

(** The decoder reads what the encoder has written of a string: the string,
    coerced. *)
Lemma parse_string_body_escape (s rest : string) :
  parse_string_body (escape s +:+ String DQ rest) = Some (coerce_utf8 s, rest).
Proof.
  induction s as [| c r Hc IH | c c2 r Hc Hw IH | c c2 c3 r Hc Hw IH
                  | c c2 c3 c4 r Hc Hw IH | c r Hc Hw IH] using rune_ind.
  - reflexivity.
  - cbn [escape coerce_utf8]. rewrite (rune_width_ascii c r Hc).
    rewrite append_assoc. revert Hc.
    destruct c as [[] [] [] [] [] [] [] []]; intros Hc; try discriminate Hc;
      match goal with
      | |- context [escape_byte ?c] =>
          let e := eval vm_compute in (escape_byte c) in
          change (escape_byte c) with e
      end; cbn; rewrite IH; reflexivity.
  - cbn [escape coerce_utf8]. rewrite Hw. cbn [String.append].
    rewrite (parse_string_body_non_ascii _ _ Hc), Hw, IH. reflexivity.
  - cbn [escape coerce_utf8]. rewrite Hw.
    destruct (is_line_separator c c2 c3) eqn:Hl.
    + apply is_line_separator_bytes in Hl as (-> & -> & [-> | ->]);
        cbn; rewrite IH; reflexivity.
    + cbn [String.append].
      rewrite (parse_string_body_non_ascii _ _ Hc), Hw, IH. reflexivity.
  - cbn [escape coerce_utf8]. rewrite Hw. cbn [String.append].
    rewrite (parse_string_body_non_ascii _ _ Hc), Hw, IH. reflexivity.
  - cbn [escape coerce_utf8]. rewrite Hw.
    cbn. rewrite IH. reflexivity.
Qed.

(** Coercing is idempotent. *)
Lemma coerce_utf8_idempotent (s : string) : coerce_utf8 (coerce_utf8 s) = coerce_utf8 s.
Proof.
  induction s as [| c r Hc IH | c c2 r Hc Hw IH | c c2 c3 r Hc Hw IH
                  | c c2 c3 c4 r Hc Hw IH | c r Hc Hw IH] using rune_ind.
  - reflexivity.
  - cbn [coerce_utf8]. rewrite (rune_width_ascii c _ Hc). cbn [coerce_utf8].
    rewrite (rune_width_ascii c _ Hc), IH. reflexivity.
  - cbn [coerce_utf8]. rewrite Hw. cbn [coerce_utf8]. rewrite Hw, IH. reflexivity.
  - cbn [coerce_utf8]. rewrite Hw. cbn [coerce_utf8]. rewrite Hw, IH. reflexivity.
  - cbn [coerce_utf8]. rewrite Hw. cbn [coerce_utf8]. rewrite Hw, IH. reflexivity.
  - cbn [coerce_utf8]. rewrite Hw. cbn. rewrite IH. reflexivity.
Qed.

(** A string that is ASCII after it was coerced was so before, and was not
    changed. *)
Lemma coerce_utf8_ascii (s k : string) :
  coerce_utf8 s = k → ascii_only k = true → s = k.
Proof.
  revert k.
  induction s as [| c r Hc IH | c c2 r Hc Hw IH | c c2 c3 r Hc Hw IH
                  | c c2 c3 c4 r Hc Hw IH | c r Hc Hw IH] using rune_ind; intros k.
  - by intros <-.
  - cbn [coerce_utf8]. rewrite (rune_width_ascii c _ Hc). intros <-.
    unfold ascii_only. cbn. rewrite Hc. intros Hk. f_equal. by apply IH.
  - cbn [coerce_utf8]. rewrite Hw. intros <-. unfold ascii_only. cbn. by rewrite Hc.
  - cbn [coerce_utf8]. rewrite Hw. intros <-. unfold ascii_only. cbn. by rewrite Hc.
  - cbn [coerce_utf8]. rewrite Hw. intros <-. unfold ascii_only. cbn. by rewrite Hc.
  - cbn [coerce_utf8]. rewrite Hw. intros <-. discriminate.
Qed.

Lemma ascii_only_well_formed (s : string) : ascii_only s = true → well_formed s.
Proof.
  unfold well_formed, ascii_only. induction s as [|c r IH]; [reflexivity|].
  cbn [list_ascii_of_string forallb]. intros [Hc Hr]%andb_true_iff. cbn [coerce_utf8].
  rewrite (rune_width_ascii c _ Hc), (IH Hr). reflexivity.
Qed.

(** ** What the decoder stores is well formed *)

Lemma rune_width_1 (a : N) (t : string) :
  (a < 128)%N → rune_width (String (ascii_of_N a) t) = 1%nat.
Proof.
  intros Ha. unfold rune_width. rewrite N_ascii_embedding by lia.
  by compare_bytes.
Qed.

Lemma rune_width_2 (a b : N) (t : string) :
  (194 ≤ a ≤ 223)%N → (128 ≤ b ≤ 191)%N →
  rune_width (String (ascii_of_N a) (String (ascii_of_N b) t)) = 2%nat.
Proof.
  intros Ha Hb. unfold rune_width, second_byte, byte_in.
  rewrite !N_ascii_embedding by lia. by compare_bytes.
Qed.

Lemma rune_width_3 (a b c : N) (t : string) :
  (224 ≤ a ≤ 239)%N → (128 ≤ b ≤ 191)%N → (128 ≤ c ≤ 191)%N →
  (a = 224 → 160 ≤ b)%N → (a = 237 → b ≤ 159)%N →
  rune_width (String (ascii_of_N a) (String (ascii_of_N b) (String (ascii_of_N c) t)))
  = 3%nat.
Proof.
  intros Ha Hb Hc H1 H2. unfold rune_width, second_byte, byte_in.
  rewrite !N_ascii_embedding by lia. by compare_bytes.
Qed.

Lemma rune_width_4 (a b c d : N) (t : string) :
  (240 ≤ a ≤ 244)%N → (128 ≤ b ≤ 191)%N → (128 ≤ c ≤ 191)%N → (128 ≤ d ≤ 191)%N →
  (a = 240 → 144 ≤ b)%N → (a = 244 → b ≤ 143)%N →
  rune_width (String (ascii_of_N a) (String (ascii_of_N b) (String (ascii_of_N c)
                (String (ascii_of_N d) t))))
  = 4%nat.
Proof.
  intros Ha Hb Hc Hd H1 H2. unfold rune_width, second_byte, byte_in.
  rewrite !N_ascii_embedding by lia. by compare_bytes.
Qed.

(** What [utf8.EncodeRune] writes for a code point that is no surrogate is
    one well-formed character. *)
Lemma coerce_utf8_encode (cp : N) (t : string) :
  (cp < 1114112)%N → is_surrogate cp = false →
  coerce_utf8 (utf8_encode cp +:+ t) = utf8_encode cp +:+ coerce_utf8 t.
Proof.
  intros Hcp Hs. unfold is_surrogate in Hs. apply andb_false_iff in Hs.
  rewrite N.leb_gt, N.ltb_ge in Hs.
  unfold utf8_encode. cbv zeta.
  destruct (N.ltb_spec cp 128); [|destruct (N.ltb_spec cp 2048);
                                  [|destruct (N.ltb_spec cp 65536)]];
    cbn [String.append coerce_utf8].
  - rewrite rune_width_1 by assumption. reflexivity.
  - rewrite rune_width_2 by lia_div. reflexivity.
  - rewrite rune_width_3 by lia_div. reflexivity.
  - rewrite rune_width_4 by lia_div. reflexivity.
Qed.

Lemma getu4_bound (h1 h2 h3 h4 : ascii) (cp : N) :
  getu4 h1 h2 h3 h4 = Some cp → (cp < 65536)%N.
Proof.
  assert (Hh : ∀ h n, hex_val h = Some n → (n < 16)%N).
  { intros h n. unfold hex_val.
    repeat match goal with
           | |- context [if ?b then _ else _] => destruct b eqn:?
           end; intros [= <-];
      repeat match goal with
             | H : (_ && _) = true |- _ => apply andb_true_iff in H as [? ?]
             | H : (_ <=? _)%N = true |- _ => apply N.leb_le in H
             end; lia. }
  unfold getu4.
  destruct (hex_val h1) as [a|] eqn:Ea; [|discriminate].
  destruct (hex_val h2) as [b|] eqn:Eb; [|discriminate].
  destruct (hex_val h3) as [c|] eqn:Ec; [|discriminate].
  destruct (hex_val h4) as [d|] eqn:Ed; [|discriminate].
  cbn. intros [= <-].
  apply Hh in Ea, Eb, Ec, Ed. lia.
Qed.

Lemma low_surrogate_scalar (hi : N) (s : string) (cp : N) (r : string) :
  low_surrogate hi s = Some (cp, r) → (cp < 1114112)%N ∧ is_surrogate cp = false.
Proof.
  unfold low_surrogate.
  destruct s as [|b [|u [|g1 [|g2 [|g3 [|g4 r']]]]]]; try discriminate.
  destruct (Ascii.eqb b "\" && Ascii.eqb u "u"); [|discriminate].
  destruct (getu4 g1 g2 g3 g4) as [lo|] eqn:E; [|discriminate]. cbn.
  destruct (N.eqb_spec (decode_pair hi lo) replacement_char) as [|Hne]; [discriminate|].
  intros [= <- <-]. revert Hne. unfold decode_pair, is_surrogate, replacement_char.
  destruct (_ && _ && _ && _) eqn:Hp; [|congruence]. intros _.
  repeat match goal with
         | H : (_ && _) = true |- _ => apply andb_true_iff in H as [? ?]
         | H : (_ <=? _)%N = true |- _ => apply N.leb_le in H
         | H : (_ <? _)%N = true |- _ => apply N.ltb_lt in H
         end.
  split; [lia|]. apply andb_false_iff. right. apply N.ltb_ge. lia.
Qed.

Lemma unescape_ascii (e b : ascii) : unescape e = Some b → (N_of_ascii b <? 128)%N = true.
Proof.
  unfold unescape.
  repeat match goal with
         | |- context [if ?b then _ else _] => destruct b
         end; intros [= <-]; reflexivity.
Qed.

Lemma push_inv (pre : string) (res : option (string * string)) (d r : string) :
  push pre res = Some (d, r) → ∃ d', res = Some (d', r) ∧ d = pre +:+ d'.
Proof. destruct res as [[d' r']|]; cbn; [intros [= <- <-]; eauto | discriminate]. Qed.

Lemma rune_width_2_tail (c c2 : ascii) (t t' : string) :
  rune_width (String c (String c2 t)) = 2%nat →
  rune_width (String c (String c2 t')) = 2%nat.
Proof.
  unfold rune_width.
  repeat match goal with
         | |- context [if ?b then _ else _] => destruct b
         | |- context [match ?x with _ => _ end] => destruct x
         end; done.
Qed.

Lemma rune_width_3_tail (c c2 c3 : ascii) (t t' : string) :
  rune_width (String c (String c2 (String c3 t))) = 3%nat →
  rune_width (String c (String c2 (String c3 t'))) = 3%nat.
Proof.
  unfold rune_width.
  repeat match goal with
         | |- context [if ?b then _ else _] => destruct b
         | |- context [match ?x with _ => _ end] => destruct x
         end; done.
Qed.

Lemma rune_width_4_tail (c c2 c3 c4 : ascii) (t t' : string) :
  rune_width (String c (String c2 (String c3 (String c4 t)))) = 4%nat →
  rune_width (String c (String c2 (String c3 (String c4 t')))) = 4%nat.
Proof.
  unfold rune_width.
  repeat match goal with
         | |- context [if ?b then _ else _] => destruct b
         | |- context [match ?x with _ => _ end] => destruct x
         end; done.
Qed.

Lemma replacement_char_scalar :
  (replacement_char < 1114112)%N ∧ is_surrogate replacement_char = false.
Proof. done. Qed.

(** The contents the decoder stores for a string literal are well formed,
    whatever the bytes of the literal. *)
Lemma parse_string_body_well_formed (n : nat) :
  ∀ s d r, (String.length s ≤ n)%nat →
           parse_string_body s = Some (d, r) → well_formed d.
Proof.
  unfold well_formed.
  induction n as [|n IH]; intros s d r Hn H.
  { destruct s; [discriminate | cbn in Hn; lia]. }
  destruct s as [|c s]; [discriminate|].
  assert (Hpush : ∀ pre t,
             (∀ x, coerce_utf8 (pre +:+ x) = pre +:+ coerce_utf8 x) →
             (String.length t ≤ n)%nat →
             push pre (parse_string_body t) = Some (d, r) → coerce_utf8 d = d).
  { intros pre t Hpre Ht Hp. apply push_inv in Hp as (d' & Hp & ->).
    rewrite Hpre. f_equal. by apply (IH _ _ _ Ht Hp). }
  assert (Hrep := λ t, coerce_utf8_encode replacement_char t
                         (proj1 replacement_char_scalar) (proj2 replacement_char_scalar)).
  cbn [String.length] in Hn.
  destruct (N_of_ascii c <? 128)%N eqn:Hc.
  - cbn [parse_string_body] in H. rewrite Hc in H.
    destruct (Ascii.eqb c DQ); [by injection H as <- <-|].
    destruct (Ascii.eqb c "\").
    + destruct s as [|e r1]; [discriminate|]. cbn [String.length] in Hn.
      destruct (Ascii.eqb e "u").
      * destruct r1 as [|h1 [|h2 [|h3 [|h4 r2]]]]; try discriminate.
        cbn [String.length] in Hn.
        destruct (getu4 h1 h2 h3 h4) as [cp|] eqn:Eg; [|discriminate].
        apply getu4_bound in Eg.
        destruct (is_surrogate cp) eqn:Es.
        -- destruct r2 as [|b [|u [|g1 [|g2 [|g3 [|g4 r3]]]]]];
             try (apply (Hpush _ _ Hrep) in H; [exact H | cbn [String.length] in *; lia]).
           destruct (low_surrogate cp _) as [[cp' ?]|] eqn:El.
           ++ apply low_surrogate_scalar in El as [? ?].
              apply (Hpush _ _ (λ t, coerce_utf8_encode cp' t ltac:(assumption)
                                       ltac:(assumption))) in H;
                [exact H | cbn [String.length] in *; lia].
           ++ apply (Hpush _ _ Hrep) in H; [exact H | cbn [String.length] in *; lia].
        -- apply (Hpush _ _ (λ t, coerce_utf8_encode cp t ltac:(lia) Es)) in H;
             [exact H | lia].
      * destruct (unescape e) as [b|] eqn:Eu; [|discriminate].
        apply unescape_ascii in Eu.
        refine (Hpush _ _ _ _ H); [|lia].
        intros x. cbn [String.append coerce_utf8].
        by rewrite (rune_width_ascii _ _ Eu).
    + destruct (N_of_ascii c <? 32)%N; [discriminate|].
      refine (Hpush _ _ _ _ H); [|lia].
      intros x. cbn [String.append coerce_utf8]. by rewrite (rune_width_ascii _ _ Hc).
  - rewrite (parse_string_body_non_ascii _ _ Hc) in H.
    destruct (rune_width (String c s)) as [|[|[|[|[|k]]]]] eqn:Hw;
      try (apply (Hpush _ _ Hrep) in H; [exact H | lia]).
    + destruct s as [|c2 r2]; [apply (Hpush _ _ Hrep) in H; [exact H | cbn; lia]|].
      refine (Hpush _ _ _ _ H); [|cbn [String.length] in Hn; lia].
      intros x. cbn [String.append coerce_utf8].
      by rewrite (rune_width_2_tail _ _ _ _ Hw).
    + destruct s as [|c2 [|c3 r3]];
        try (apply (Hpush _ _ Hrep) in H; [exact H | cbn [String.length] in *; lia]).
      refine (Hpush _ _ _ _ H); [|cbn [String.length] in Hn; lia].
      intros x. cbn [String.append coerce_utf8].
      by rewrite (rune_width_3_tail _ _ _ _ _ Hw).
    + destruct s as [|c2 [|c3 [|c4 r4]]];
        try (apply (Hpush _ _ Hrep) in H; [exact H | cbn [String.length] in *; lia]).
      refine (Hpush _ _ _ _ H); [|cbn [String.length] in Hn; lia].
      intros x. cbn [String.append coerce_utf8].
      by rewrite (rune_width_4_tail _ _ _ _ _ _ Hw).
Qed.

(** ** The JSON text of a cleaned error decodes to its fields *)

Lemma span_digits_uint (d : Decimal.uint) (c : ascii) (rest : string) :
  is_digit c = false →
  span_digits (NilEmpty.string_of_uint d +:+ String c rest)
  = (NilEmpty.string_of_uint d, String c rest).
Proof.
  intros Hc. induction d; cbn; rewrite ?IHd; cbn; rewrite ?Hc; reflexivity.
Qed.

Lemma nzhead_not_D0 (d d' : Decimal.uint) : Decimal.nzhead d ≠ Decimal.D0 d'.
Proof. induction d; cbn; try discriminate; assumption. Qed.

Lemma to_uint_unorm (p : positive) : Pos.to_uint p = Decimal.unorm (Pos.to_uint p).
Proof.
  rewrite <- (DecimalPos.Unsigned.to_of (Pos.to_uint p)).
  rewrite DecimalPos.Unsigned.of_to. reflexivity.
Qed.

(** The numeral of a positive starts with a digit that is not zero. *)
Lemma to_uint_head (p : positive) :
  ∃ c r, NilEmpty.string_of_uint (Pos.to_uint p) = String c r
         ∧ is_digit c = true ∧ Ascii.eqb c "0" = false.
Proof.
  pose proof (to_uint_unorm p) as Hn.
  pose proof (DecimalPos.Unsigned.to_uint_nonzero p) as Hz.
  unfold Decimal.unorm in Hn.
  pose proof (nzhead_not_D0 (Pos.to_uint p)) as Hh.
  destruct (Decimal.nzhead (Pos.to_uint p)) eqn:E;
    try (rewrite Hn; cbn; eauto; fail).
  - contradiction.
  - exfalso. eapply Hh. reflexivity.
Qed.

Lemma lex_int_uint (p : positive) (c : ascii) (rest : string) :
  is_digit c = false →
  lex_int (NilEmpty.string_of_uint (Pos.to_uint p) +:+ String c rest)
  = Some (NilEmpty.string_of_uint (Pos.to_uint p), String c rest).
Proof.
  intros Hc. unfold lex_int. rewrite span_digits_uint by assumption.
  destruct (to_uint_head p) as (c0 & r & -> & _ & H0).
  destruct r; [reflexivity|]. rewrite H0. reflexivity.
Qed.

Lemma lex_number_unsigned (s i r : string) :
  (∀ s', s ≠ String "-" s') →
  lex_int s = Some (i, String "," r) →
  lex_number s = Some (i, String "," r).
Proof.
  intros Hs Hi. unfold lex_number.
  assert (E : match s with
              | String c r => if Ascii.eqb c "-" then (String c "", r) else (EmptyString, s)
              | EmptyString => (EmptyString, s)
              end = (EmptyString, s)).
  { destruct s as [|c s']; [reflexivity|].
    destruct (Ascii.eqb_spec c "-") as [->|]; [|reflexivity].
    now destruct (Hs s'). }
  rewrite E, Hi. cbn. rewrite append_nil_r. reflexivity.
Qed.

Lemma lex_number_Itoa (z : Z) (rest : string) :
  lex_number (Itoa z +:+ String "," rest) = Some (Itoa z, String "," rest).
Proof.
  destruct z as [|p|p].
  - reflexivity.
  - apply lex_number_unsigned; [|now apply lex_int_uint].
    intros s'. unfold Itoa.
    destruct (to_uint_head p) as (c0 & r & -> & Hd & _).
    intros [= -> _]. discriminate Hd.
  - unfold lex_number, Itoa. cbn -[lex_int].
    rewrite lex_int_uint by reflexivity. cbn. rewrite append_nil_r. reflexivity.
Qed.

Lemma parse_value_Itoa (fuel : nat) (z : Z) (rest : string) :
  parse_value (S fuel) (Itoa z +:+ String "," rest)
  = Some (JNum (Itoa z), String "," rest).
Proof.
  assert (H : ∃ c r, Itoa z = String c r ∧ (is_digit c = true ∨ c = "-"%char)).
  { destruct z as [|p|p]; cbn.
    - eexists _, _. split; [reflexivity|]. left. reflexivity.
    - destruct (to_uint_head p) as (c0 & r & E & Hd & _). eauto.
    - eauto. }
  destruct H as (c & r & E & Hc).
  pose proof (lex_number_Itoa z rest) as L.
  rewrite E in *. 
  assert (Hv : ∀ s, parse_value (S fuel) (String c s)
               = '(lit, r1) ← lex_number (String c s); Some (JNum lit, r1)).
  { intros s. destruct Hc as [Hc | ->]; [|reflexivity].
    destruct c as [[] [] [] [] [] [] [] []]; try discriminate Hc; reflexivity. }
  change (String c r +:+ String "," rest) with (String c (r +:+ String "," rest)) in *.
  rewrite Hv, L. reflexivity.
Qed.

Lemma length_append (a b : string) :
  String.length (a +:+ b) = (String.length a + String.length b)%nat.
Proof. induction a as [|x a IH]; cbn; [reflexivity | now rewrite IH]. Qed.

Lemma parse_value_string (f : nat) (v rest : string) :
  parse_value (S f) (String DQ (escape v +:+ String DQ rest)) = Some (JStr (coerce_utf8 v), rest).
Proof. cbn. rewrite parse_string_body_escape. reflexivity. Qed.

Lemma parse_members_string (f : nat) (k v rest : string) :
  parse_members (S (S f))
    (String DQ (escape k +:+ String DQ (String ":"
       (String DQ (escape v +:+ String DQ (String "," rest))))))
  = '(ms, r) ← parse_members (S f) rest;
    Some ((coerce_utf8 k, JStr (coerce_utf8 v)) :: ms, r).
Proof.
  remember (S f) as g eqn:Hg. cbn. rewrite parse_string_body_escape. cbn.
  rewrite Hg at 1. rewrite parse_value_string. reflexivity.
Qed.

Lemma parse_members_string_last (f : nat) (k v rest : string) :
  parse_members (S (S f))
    (String DQ (escape k +:+ String DQ (String ":"
       (String DQ (escape v +:+ String DQ (String "}" rest))))))
  = Some ([(coerce_utf8 k, JStr (coerce_utf8 v))], rest).
Proof.
  remember (S f) as g eqn:Hg. cbn. rewrite parse_string_body_escape. cbn.
  rewrite Hg at 1. rewrite parse_value_string. reflexivity.
Qed.

Lemma parse_members_number (f : nat) (k : string) (z : Z) (rest : string) :
  parse_members (S (S f))
    (String DQ (escape k +:+ String DQ (String ":" (Itoa z +:+ String "," rest))))
  = '(ms, r) ← parse_members (S f) rest; Some ((coerce_utf8 k, JNum (Itoa z)) :: ms, r).
Proof.
  remember (S f) as g eqn:Hg. cbn. rewrite parse_string_body_escape. cbn.
  rewrite Hg at 1. rewrite parse_value_Itoa. reflexivity.
Qed.

Lemma parse_value_object (f : nat) (s : string) :
  parse_value (S f) (String "{" (String DQ s))
  = '(ms, r1) ← parse_members f (String DQ s); Some (JObj ms, r1).
Proof. reflexivity. Qed.

Lemma parse_CleanedServerError (c : Redis.CleanedServerError) :
  parse (Redis.Marshal_CleanedServerError c)
  = Some (JObj [("HttpStatus", JNum (Itoa (Redis.HttpStatus c)));
                ("HostId", JStr (coerce_utf8 (Redis.HostId c)));
                ("Code", JStr (coerce_utf8 (Redis.Code c)));
                ("Message", JStr (coerce_utf8 (Redis.Message c)));
                ("Comment", JStr (coerce_utf8 (Redis.Comment c)))]).
Proof.
  unfold parse.
  assert (Hlen : ∃ f, S (String.length (Redis.Marshal_CleanedServerError c))
                      = S (S (S (S (S (S (S f))))))).
  { unfold Redis.Marshal_CleanedServerError. rewrite !length_append.
    change (String.length (quote "HttpStatus")) with 12%nat.
    eexists. cbn. reflexivity. }
  destruct Hlen as [f ->].
  unfold Redis.Marshal_CleanedServerError, quote.
  cbn [String.append]. rewrite !append_assoc. cbn [String.append].
  rewrite parse_value_object, parse_members_number, !parse_members_string,
    parse_members_string_last.
  reflexivity.
Qed.

(** ** The fuel of the decoder is enough *)

Lemma skip_ws_length (s : string) :
  ∃ k, String.length s = (k + String.length (skip_ws s))%nat.
Proof.
  induction s as [|a s [k IH]]; [by exists 0%nat|].
  cbn [skip_ws]. destruct (is_ws a).
  - exists (S k). cbn. lia.
  - by exists 0%nat.
Qed.

Lemma span_digits_length (s d r : string) :
  span_digits s = (d, r) → String.length s = (String.length d + String.length r)%nat.
Proof.
  revert d r. induction s as [|a s IH]; intros d r; cbn [span_digits].
  - intros [= <- <-]. reflexivity.
  - destruct (is_digit a).
    + destruct (span_digits s) as [d' r'] eqn:E. intros [= <- <-].
      cbn. rewrite (IH _ _ eq_refl). reflexivity.
    + intros [= <- <-]. reflexivity.
Qed.

Lemma push_Some (pre : string) (res : option (string * string)) (d r : string) :
  push pre res = Some (d, r) → ∃ d', res = Some (d', r).
Proof. destruct res as [[d' r']|]; cbn; [intros [= <- <-]; eauto | discriminate]. Qed.

Lemma parse_string_body_length (n : nat) :
  ∀ s d r, (String.length s ≤ n)%nat →
           parse_string_body s = Some (d, r) → (String.length r < String.length s)%nat.
Proof.
  induction n as [|n IH]; intros s d r Hn H.
  - destruct s; [discriminate | cbn in Hn; lia].
  - destruct s as [|c s]; [discriminate|].
    cbn [parse_string_body] in H. cbn [String.length] in *.
    repeat match type of H with
           | Some _ = Some _ => injection H as <- <-; lia
           | None = Some _ => discriminate H
           | push _ _ = Some _ =>
               apply push_Some in H as [d' H]; apply IH in H;
               cbn [String.length] in *; lia
           | context [if ?b then _ else _] => destruct b
           | context [match ?x with _ => _ end] => destruct x eqn:?
           end.
Qed.

Lemma lex_int_length (s i r : string) :
  lex_int s = Some (i, r) → (String.length r < String.length s)%nat.
Proof.
  unfold lex_int. destruct (span_digits s) as [d r'] eqn:E.
  apply span_digits_length in E.
  destruct d as [|c [|c' d]]; [discriminate | |];
    [|destruct (Ascii.eqb c "0"); [discriminate|]];
    intros [= <- <-]; cbn in E; lia.
Qed.

Lemma lex_frac_length (s f r : string) :
  lex_frac s = Some (f, r) → (String.length r ≤ String.length s)%nat.
Proof.
  unfold lex_frac. destruct s as [|c s]; [by intros [= <- <-]|].
  destruct (Ascii.eqb c "."); [|by intros [= <- <-]].
  destruct (span_digits s) as [d r'] eqn:E. apply span_digits_length in E.
  destruct d; [discriminate|]. intros [= <- <-]. cbn in *. lia.
Qed.

Lemma lex_exp_length (s e r : string) :
  lex_exp s = Some (e, r) → (String.length r ≤ String.length s)%nat.
Proof.
  unfold lex_exp. destruct s as [|c s]; [by intros [= <- <-]|].
  destruct (_ || _); [|by intros [= <- <-]].
  destruct (lex_sign s) as [sg r1] eqn:Es.
  assert (String.length r1 ≤ String.length s)%nat.
  { unfold lex_sign in Es. destruct s as [|c' s']; [by injection Es as <- <-|].
    destruct (Ascii.eqb c' "+" || Ascii.eqb c' "-"); injection Es as <- <-; cbn; lia. }
  destruct (span_digits r1) as [d r'] eqn:E. apply span_digits_length in E.
  destruct d; [discriminate|]. intros [= <- <-]. cbn in *. lia.
Qed.

Lemma lex_number_length (s lit r : string) :
  lex_number s = Some (lit, r) → (String.length r < String.length s)%nat.
Proof.
  unfold lex_number.
  set (sg := match s with
             | String c r0 => if Ascii.eqb c "-" then (String c "", r0) else (EmptyString, s)
             | EmptyString => (EmptyString, s)
             end).
  assert (Hs : (String.length sg.2 ≤ String.length s)%nat).
  { subst sg. destruct s as [|c s']; [done|]. destruct (Ascii.eqb c "-"); cbn; lia. }
  destruct sg as [sgn s1]. cbn [snd] in Hs.
  destruct (lex_int s1) as [[i s2]|] eqn:Ei; [|discriminate]. apply lex_int_length in Ei.
  cbn [mbind option_bind].
  destruct (lex_frac s2) as [[f s3]|] eqn:Ef; [|discriminate]. apply lex_frac_length in Ef.
  cbn [mbind option_bind].
  destruct (lex_exp s3) as [[e s4]|] eqn:Ee; [|discriminate]. apply lex_exp_length in Ee.
  cbn [mbind option_bind]. intros [= <- <-]. lia.
Qed.

Lemma skip_length (n : nat) (s : string) :
  (String.length (skip n s) ≤ String.length s)%nat.
Proof.
  revert s. induction n as [|n IH]; intros [|c s]; cbn; try lia.
  specialize (IH s). lia.
Qed.

Lemma prefix_length (p s : string) :
  String.prefix p s = true → (String.length p ≤ String.length s)%nat.
Proof.
  revert s. induction p as [|a p IH]; intros [|b s]; cbn; try lia; try discriminate.
  destruct (ascii_dec a b); [|discriminate]. intros H%IH. lia.
Qed.

Lemma parse_fuel (f : nat) :
  fuel_enough parse_value f ∧ fuel_enough parse_members f ∧ fuel_enough parse_elements f.
Proof.
  induction f as [|f (IHv & IHm & IHe)]; [by split_and!; intros s a r H|].
  split_and!.
  - intros s v r H. cbn [parse_value] in H.
    destruct (skip_ws_length s) as [k0 Hk0].
    destruct (skip_ws s) as [|c r0] eqn:Es; [discriminate|]. cbn [String.length] in Hk0.
    destruct (Ascii.eqb c "{") eqn:E1.
    { destruct (skip_ws_length r0) as [k1 Hk1].
      destruct (skip_ws r0) as [|c' r'] eqn:Es1; [discriminate|]. cbn [String.length] in Hk1.
      destruct (Ascii.eqb c' "}") eqn:E2.
      - injection H as <- <-. split; [lia|]. intros [|f'] Hf; [lia|].
        cbn [parse_value]. rewrite_cases. reflexivity.
      - destruct (parse_members f r0) as [[ms r1]|] eqn:Em; [|discriminate].
        injection H as <- <-. apply IHm in Em as [Hl Hf0]. split; [lia|].
        intros [|f'] Hf; [lia|]. cbn [parse_value]. rewrite_cases.
        rewrite (Hf0 f') by lia. reflexivity. }
    destruct (Ascii.eqb c "[") eqn:E2.
    { destruct (skip_ws_length r0) as [k1 Hk1].
      destruct (skip_ws r0) as [|c' r'] eqn:Es1; [discriminate|]. cbn [String.length] in Hk1.
      destruct (Ascii.eqb c' "]") eqn:E3.
      - injection H as <- <-. split; [lia|]. intros [|f'] Hf; [lia|].
        cbn [parse_value]. rewrite_cases. reflexivity.
      - destruct (parse_elements f r0) as [[es r1]|] eqn:Em; [|discriminate].
        injection H as <- <-. apply IHe in Em as [Hl Hf0]. split; [lia|].
        intros [|f'] Hf; [lia|]. cbn [parse_value]. rewrite_cases.
        rewrite (Hf0 f') by lia. reflexivity. }
    destruct (Ascii.eqb c DQ) eqn:E3.
    { destruct (parse_string_body r0) as [[str r1]|] eqn:Eb; [|discriminate].
      injection H as <- <-. pose proof (parse_string_body_length _ _ _ _ (le_n _) Eb).
      split; [lia|]. intros [|f'] Hf; [lia|].
      cbn [parse_value]. rewrite_cases. reflexivity. }
    destruct (String.prefix "true" (String c r0)) eqn:E4.
    { injection H as <- <-.
      pose proof (skip_length 3 r0) as Hsk. cbn in Hsk.
      split; [lia|]. intros [|f'] Hf; [lia|].
      cbn [parse_value]. rewrite_cases. reflexivity. }
    destruct (String.prefix "false" (String c r0)) eqn:E5.
    { injection H as <- <-.
      pose proof (skip_length 4 r0) as Hsk. cbn in Hsk.
      split; [lia|]. intros [|f'] Hf; [lia|].
      cbn [parse_value]. rewrite_cases. reflexivity. }
    destruct (String.prefix "null" (String c r0)) eqn:E6.
    { injection H as <- <-.
      pose proof (skip_length 3 r0) as Hsk. cbn in Hsk.
      split; [lia|]. intros [|f'] Hf; [lia|].
      cbn [parse_value]. rewrite_cases. reflexivity. }
    destruct (lex_number (String c r0)) as [[lit r1]|] eqn:El; [|discriminate].
    injection H as <- <-. pose proof (lex_number_length _ _ _ El) as Hn.
    cbn [String.length] in Hn. split; [lia|]. intros [|f'] Hf; [lia|].
    cbn [parse_value]. rewrite_cases. reflexivity.
  - intros s ms r H. cbn [parse_members] in H.
    destruct (skip_ws_length s) as [k0 Hk0].
    destruct (skip_ws s) as [|c r0] eqn:Es; [discriminate|]. cbn [String.length] in Hk0.
    destruct (Ascii.eqb c DQ) eqn:E1; [|discriminate].
    destruct (parse_string_body r0) as [[k r1]|] eqn:Eb; [|discriminate].
    pose proof (parse_string_body_length _ _ _ _ (le_n _) Eb) as Hb.
    cbn [mbind option_bind] in H.
    destruct (skip_ws_length r1) as [k1 Hk1].
    destruct (skip_ws r1) as [|c1 r2] eqn:Es1; [discriminate|]. cbn [String.length] in Hk1.
    destruct (Ascii.eqb c1 ":") eqn:E2; [|discriminate].
    destruct (parse_value f r2) as [[v r3]|] eqn:Ev; [|discriminate].
    apply IHv in Ev as [Hlv Hfv]. cbn [mbind option_bind] in H.
    destruct (skip_ws_length r3) as [k3 Hk3].
    destruct (skip_ws r3) as [|c3 r4] eqn:Es3; [discriminate|]. cbn [String.length] in Hk3.
    destruct (Ascii.eqb c3 ",") eqn:E3.
    + destruct (parse_members f r4) as [[ms' r5]|] eqn:Em; [|discriminate].
      injection H as <- <-. apply IHm in Em as [Hlm Hfm]. split; [lia|].
      intros [|f'] Hf; [lia|]. cbn [parse_members]. rewrite_cases.
      rewrite (Hfv f') by lia. rewrite_cases. rewrite (Hfm f') by lia. reflexivity.
    + destruct (Ascii.eqb c3 "}") eqn:E4; [|discriminate].
      injection H as <- <-. split; [lia|].
      intros [|f'] Hf; [lia|]. cbn [parse_members]. rewrite_cases.
      rewrite (Hfv f') by lia. rewrite_cases. reflexivity.
  - intros s es r H. cbn [parse_elements] in H.
    destruct (parse_value f s) as [[v r1]|] eqn:Ev; [|discriminate].
    apply IHv in Ev as [Hlv Hfv]. cbn [mbind option_bind] in H.
    destruct (skip_ws_length r1) as [k1 Hk1].
    destruct (skip_ws r1) as [|c r2] eqn:Es1; [discriminate|]. cbn [String.length] in Hk1.
    destruct (Ascii.eqb c ",") eqn:E1.
    + destruct (parse_elements f r2) as [[es' r3]|] eqn:Ee; [|discriminate].
      injection H as <- <-. apply IHe in Ee as [Hle Hfe]. split; [lia|].
      intros [|f'] Hf; [lia|]. cbn [parse_elements].
      rewrite (Hfv f') by lia. rewrite_cases.
      rewrite (Hfe f') by lia. reflexivity.
    + destruct (Ascii.eqb c "]") eqn:E2; [|discriminate].
      injection H as <- <-. split; [lia|].
      intros [|f'] Hf; [lia|]. cbn [parse_elements].
      rewrite (Hfv f') by lia. rewrite_cases. reflexivity.
Qed.

(** Whatever a run of the decoder finds with some fuel, [parse] finds: its
    fuel, the length of the text and one, never cuts a decoding short. *)
Lemma parse_fuel_enough (f : nat) (text : string) (v : json) (r : string) :
  parse_value f text = Some (v, r) →
  parse_value (S (String.length text)) text = Some (v, r).
Proof.
  intros H. destruct (parse_fuel f) as (Hv & _ & _).
  apply Hv in H as [_ Hf]. apply Hf. lia.
Qed.

(** ** CleanError *)

Lemma NewServerError_Marshal (c : Redis.CleanedServerError) (status : Z) (cm : string) :
  SDK.NewServerError status (Redis.Marshal_CleanedServerError c) cm
  = Returns (SDK.mkServerError status "" (coerce_utf8 (Redis.HostId c))
               (coerce_utf8 (Redis.Code c)) "" (coerce_utf8 (Redis.Message c)) cm).
Proof.
  unfold SDK.NewServerError, Unmarshal_interface.
  rewrite parse_CleanedServerError. reflexivity.
Qed.

Lemma CleanError_scrubbed (err : error) : Redis.CleanError err = Returns (scrubbed err).
Proof.
  destruct err as [[s| | |]|]; try reflexivity.
  unfold Redis.CleanError. rewrite NewServerError_Marshal. reflexivity.
Qed.

(** ** Error values *)

(** A value that [errors.New] has just made is no part of an older error. *)
Lemma Is_fresh (n : nat) (msg : string) (e : GoError) :
  allocated_below n e → Is e (EFundamental n msg) = false.
Proof.
  induction e as [s|a m|cause IH m|m]; cbn; intros H; try reflexivity.
  - rewrite orb_false_r. apply Nat.eqb_neq. lia.
  - auto.
Qed.

Lemma IsErrorNotFound_run (e : GoError) (w : World) :
  allocated_below (next_addr w) e →
  ∃ n, (next_addr w ≤ n)%nat ∧
       Redis.IsErrorNotFound (Some e) w = Returns (not_found e, mkWorld n (trace w)).
Proof.
  intros Ha. unfold Redis.IsErrorNotFound, not_found.
  destruct (As e) as [s|] eqn:E.
  - exists (next_addr w). split; [lia|]. destruct w; reflexivity.
  - exists (S (next_addr w)). split; [lia|].
    run_M. rewrite (Is_fresh _ _ _ Ha). reflexivity.
Qed.

Lemma Ignore_run (err : error) (w : World) :
  (∀ e, err = Some e → allocated_below (next_addr w) e) →
  ∃ n, (next_addr w ≤ n)%nat ∧
       Controller.Ignore Redis.IsErrorNotFound err w
       = Returns (match err with
                  | Some e => if not_found e then None else Some e
                  | None => None
                  end, mkWorld n (trace w)).
Proof.
  intros Ha. destruct err as [e|].
  - destruct (IsErrorNotFound_run e w (Ha e eq_refl)) as (n & Hn & Hrun).
    exists n. split; [assumption|].
    unfold Controller.Ignore, mbind, M_bind. rewrite Hrun.
    destruct (not_found e); reflexivity.
  - exists (next_addr w). split; [lia|]. destruct w; reflexivity.
Qed.

(** ** Connection details *)

(** C6. [getConnectionDetails] holds each of the four keys exactly when the
    field it is filled from is not empty, with that field as its value, and
    holds no other key; a user name alone gives the map with the one key, and
    four fields that are not empty give the four keys. *)
Theorem getConnectionDetails_nonempty_fields (c : Redis.RedisConnection) :
  let cd := Controller.getConnectionDetails c in
  (∀ v, cd !! "username" = Some v ↔ Redis.Username c ≠ "" ∧ v = Redis.Username c) ∧
  (∀ v, cd !! "password" = Some v ↔ Redis.Password c ≠ "" ∧ v = Redis.Password c) ∧
  (∀ v, cd !! "endpoint" = Some v
        ↔ Redis.ConnectionDomain c ≠ "" ∧ v = Redis.ConnectionDomain c) ∧
  (∀ v, cd !! "port" = Some v ↔ Redis.Port c ≠ "" ∧ v = Redis.Port c) ∧
  (∀ k, is_Some (cd !! k) → k ∈ ["username"; "password"; "endpoint"; "port"]) ∧
  Controller.getConnectionDetails
    {| Redis.Username := "u1"; Redis.Password := "";
       Redis.ConnectionDomain := ""; Redis.Port := "" |}
  = {[ "username" := "u1" ]} ∧
  Controller.getConnectionDetails
    {| Redis.Username := "u1"; Redis.Password := "p1";
       Redis.ConnectionDomain := "1.2.3.4"; Redis.Port := "8080" |}
  = <["username" := "u1"]> (<["password" := "p1"]>
      (<["endpoint" := "1.2.3.4"]> {[ "port" := "8080" ]})).
Proof.
  cbv zeta. unfold Controller.getConnectionDetails,
    Controller.ResourceCredentialsSecretUserKey,
    Controller.ResourceCredentialsSecretPasswordKey,
    Controller.ResourceCredentialsSecretEndpointKey,
    Controller.ResourceCredentialsSecretPortKey.
  split_and!.
  1-4: intros v;
       destruct (String.eqb_spec (Redis.Username c) "");
       destruct (String.eqb_spec (Redis.Password c) "");
       destruct (String.eqb_spec (Redis.ConnectionDomain c) "");
       destruct (String.eqb_spec (Redis.Port c) ""); cbn [negb];
       (split; [intros H; simplify_map_eq; done | intros [H ->]; by simplify_map_eq]).
  - intros k [v Hv].
    destruct (decide (k = "username")) as [->|]; [set_solver|].
    destruct (decide (k = "password")) as [->|]; [set_solver|].
    destruct (decide (k = "endpoint")) as [->|]; [set_solver|].
    destruct (decide (k = "port")) as [->|]; [set_solver|].
    exfalso.
    destruct (negb _), (negb _), (negb _), (negb _); simplify_map_eq.
  - apply map_eq. intros k. cbn. 
    destruct (decide (k = "username")) as [->|]; simplify_map_eq; done.
  - apply map_eq. intros k. cbn. 
    destruct (decide (k = "port")) as [->|]; [by simplify_map_eq|].
    destruct (decide (k = "endpoint")) as [->|]; [by simplify_map_eq|].
    destruct (decide (k = "password")) as [->|]; [by simplify_map_eq|].
    destruct (decide (k = "username")) as [->|]; by simplify_map_eq.
Qed.

(** The user name "u1" is not empty: the key is there. *)
Lemma getConnectionDetails_nonempty_fields_witness :
  Controller.getConnectionDetails
    {| Redis.Username := "u1"; Redis.Password := "";
       Redis.ConnectionDomain := ""; Redis.Port := "" |} !! "username"
  = Some "u1".
Proof.
  apply (proj1 (getConnectionDetails_nonempty_fields
                  {| Redis.Username := "u1"; Redis.Password := "";
                     Redis.ConnectionDomain := ""; Redis.Port := "" |})).
  split; [discriminate | reflexivity].
Defined.

(** ** Drift of the instance class and of the number of read-only replicas *)

(** C8. [SpecsNeedUpdate] compares the desired class with [RealInstanceClass]
    on a cluster and with [InstanceClass] otherwise.  When they differ the
    request carries the desired class and no replica count; the replica count
    is looked at only when the classes agree, and a request then carries the
    count alone; when nothing differs there is no request. *)
Theorem SpecsNeedUpdate_class_first (attr : SDK.DBInstanceAttribute)
    (p : V1alpha1.RedisInstanceParameters) :
  (SDK.ArchitectureType attr = "cluster" →
     compared_class attr = SDK.RealInstanceClass attr) ∧
  (SDK.ArchitectureType attr ≠ "cluster" →
     compared_class attr = SDK.InstanceClass attr) ∧
  (compared_class attr ≠ V1alpha1.InstanceClass p →
     Redis.SpecsNeedUpdate attr p
     = Some {| SDK.spec_InstanceId := "";
               SDK.spec_EffectiveTime := V1alpha1.EffectiveTime p;
               SDK.spec_InstanceClass := V1alpha1.InstanceClass p;
               SDK.spec_ReadOnlyCount := "" |}) ∧
  (compared_class attr = V1alpha1.InstanceClass p →
     Redis.SpecsNeedUpdate attr p
     = match V1alpha1.ReadOnlyCount p with
       | Some n =>
           if decide (SDK.ReadOnlyCount attr = n) then None
           else Some {| SDK.spec_InstanceId := "";
                        SDK.spec_EffectiveTime := V1alpha1.EffectiveTime p;
                        SDK.spec_InstanceClass := "";
                        SDK.spec_ReadOnlyCount := Itoa n |}
       | None => None
       end).
Proof.
  assert (Het : (if String.eqb (V1alpha1.EffectiveTime p) "" then ""
                 else V1alpha1.EffectiveTime p) = V1alpha1.EffectiveTime p).
  { destruct (String.eqb_spec (V1alpha1.EffectiveTime p) ""); congruence. }
  assert (Hcur : (if String.eqb (SDK.ArchitectureType attr) Redis.RedisArchTypeCluster
                  then SDK.RealInstanceClass attr else SDK.InstanceClass attr)
                 = compared_class attr).
  { unfold compared_class.
    destruct (String.eqb_spec (SDK.ArchitectureType attr) Redis.RedisArchTypeCluster);
      case_decide; congruence. }
  unfold Redis.SpecsNeedUpdate, Redis.calculateSpecDiff. cbn [SDK.spec_InstanceId
    SDK.spec_EffectiveTime SDK.spec_InstanceClass SDK.spec_ReadOnlyCount
    SDK.CreateModifyInstanceSpecRequest].
  rewrite Het, Hcur.
  split_and!.
  - intros E. unfold compared_class, Redis.RedisArchTypeCluster.
    case_decide; congruence.
  - intros E. unfold compared_class, Redis.RedisArchTypeCluster.
    case_decide; congruence.
  - intros E.
    destruct (String.eqb_spec (compared_class attr) (V1alpha1.InstanceClass p));
      [contradiction | reflexivity].
  - intros E. rewrite E, String.eqb_refl. cbn [negb].
    destruct (V1alpha1.ReadOnlyCount p) as [n|]; [|reflexivity].
    destruct (Z.eqb_spec (SDK.ReadOnlyCount attr) n); case_decide;
      try contradiction; reflexivity.
Qed.

(** A class mismatch on a cluster, where the nominal class agrees. *)
Lemma SpecsNeedUpdate_class_first_witness :
  Redis.SpecsNeedUpdate
    (Sample.attribute "Normal" "cluster" "redis.small" "redis.shard.small" 0 "" "")
    (Sample.parameters "" "redis.small" (Some 2) [] "" "")
  = Some {| SDK.spec_InstanceId := ""; SDK.spec_EffectiveTime := "";
            SDK.spec_InstanceClass := "redis.small"; SDK.spec_ReadOnlyCount := "" |}.
Proof.
  apply (proj1 (proj2 (proj2 (SpecsNeedUpdate_class_first
    (Sample.attribute "Normal" "cluster" "redis.small" "redis.shard.small" 0 "" "")
    (Sample.parameters "" "redis.small" (Some 2) [] "" ""))))).
  vm_compute. discriminate.
Defined.

(** ** The tags of the create request *)

Lemma requestTags_append (tags : list V1alpha1.Tag) (acc : list SDK.CreateInstanceTag) :
  foldl (λ acc tag, acc ++ [SDK.mkCreateInstanceTag (V1alpha1.Key tag) (V1alpha1.Value tag)])
        acc tags
  = acc ++ ((λ tag, SDK.mkCreateInstanceTag (V1alpha1.Key tag) (V1alpha1.Value tag)) <$> tags).
Proof.
  revert acc. induction tags as [|t tags IH]; intros acc; cbn.
  - by rewrite app_nil_r.
  - rewrite IH. by rewrite <- app_assoc.
Qed.

Lemma requestTags_eq (tags : list V1alpha1.Tag) :
  Redis.requestTags tags
  = replicate (length tags) (SDK.mkCreateInstanceTag "" "")
    ++ ((λ tag, SDK.mkCreateInstanceTag (V1alpha1.Key tag) (V1alpha1.Value tag)) <$> tags).
Proof. apply requestTags_append. Qed.

(** ** CreateInstance *)

Lemma events_app (w : World) (n : nat) (evs : list Event) :
  events w (mkWorld n (trace w ++ evs)) = evs.
Proof. unfold events. cbn. by rewrite drop_app_length. Qed.

Lemma lift_CleanError (err : error) (w : World) :
  lift (Redis.CleanError err) w = Returns (scrubbed err, w).
Proof. unfold lift. by rewrite CleanError_scrubbed. Qed.

Lemma CreateInstance_issue (c : Redis.client) (name : string)
    (p : V1alpha1.RedisInstanceParameters) (pw : string) (w : World) :
  (let request := Redis.createRequest name p pw in
   emit (SDKCreateInstance request);;
   let '(resp, err) := Redis.sdk_CreateInstance (Redis.redisCli c) request in
   match err with
   | Some _ => cleaned ← lift (Redis.CleanError err); mret (None, None, cleaned)
   | None =>
       mret (Some resp,
             Some {| Redis.Username := SDK.resp_InstanceId resp;
                     Redis.Password := pw;
                     Redis.ConnectionDomain := SDK.resp_ConnectionDomain resp;
                     Redis.Port := Itoa (SDK.resp_Port resp) |},
             None)
   end) w
  = Returns (created c name p pw,
             mkWorld (next_addr w) (trace w ++ [SDKCreateInstance (Redis.createRequest name p pw)])).
Proof.
  unfold created. cbv zeta.
  destruct (Redis.sdk_CreateInstance _ _) as [resp [e|]].
  - unfold mbind, M_bind, emit. cbn -[lift Redis.CleanError].
    rewrite lift_CleanError. reflexivity.
  - reflexivity.
Qed.

(** A password the user supplies: nothing is drawn, and the request is the
    one built with the empty password. *)
Lemma CreateInstance_supplied (c : Redis.client) (name : string)
    (p : V1alpha1.RedisInstanceParameters) (w : World) :
  V1alpha1.Password p ≠ "" →
  Redis.CreateInstance c name p w
  = Returns (created c name p "",
             mkWorld (next_addr w)
               (trace w ++ [SDKCreateInstance (Redis.createRequest name p "")])).
Proof.
  intros Hp. unfold Redis.CreateInstance.
  destruct (String.eqb_spec (V1alpha1.Password p) ""); [contradiction|].
  unfold mbind at 1. unfold M_bind at 1. cbn.
  apply CreateInstance_issue.
Qed.

(** No password in the desired state: one is drawn first, then sent. *)
Lemma CreateInstance_generated (c : Redis.client) (name : string)
    (p : V1alpha1.RedisInstanceParameters) (pw : string) (w : World) :
  V1alpha1.Password p = "" →
  Redis.password_Generate c = (pw, None) →
  Redis.CreateInstance c name p w
  = Returns (created c name p pw,
             mkWorld (next_addr w)
               (trace w ++ [PasswordGenerate;
                            SDKCreateInstance (Redis.createRequest name p pw)])).
Proof.
  intros Hp Hg. unfold Redis.CreateInstance. rewrite Hp, Hg.
  refine (eq_trans (CreateInstance_issue c name p pw
                      (mkWorld (next_addr w) (trace w ++ [PasswordGenerate]))) _).
  cbn. by rewrite <- app_assoc.
Qed.

Lemma CreateInstance_generate_fails (c : Redis.client) (name : string)
    (p : V1alpha1.RedisInstanceParameters) (pw : string) (e : GoError) (w : World) :
  V1alpha1.Password p = "" →
  Redis.password_Generate c = (pw, Some e) →
  Redis.CreateInstance c name p w
  = Returns ((None, None, Some (EWrap e Redis.errGeneratePasswordFailed)),
             mkWorld (next_addr w) (trace w ++ [PasswordGenerate])).
Proof.
  intros Hp Hg. unfold Redis.CreateInstance. rewrite Hp, Hg. reflexivity.
Qed.

(** The first half of the handling of passwords: with no password in the
    desired state, the generated one is drawn before the create call, sent in
    the request and returned in the connection. *)
Lemma CreateInstance_generated_password (c : Redis.client) (name : string)
    (p : V1alpha1.RedisInstanceParameters) (pw : string) (w : World) :
  V1alpha1.Password p = "" →
  Redis.password_Generate c = (pw, None) →
  ∃ r w', Redis.CreateInstance c name p w = Returns (r, w') ∧
    events w w' = [PasswordGenerate; SDKCreateInstance (Redis.createRequest name p pw)] ∧
    SDK.create_Password (Redis.createRequest name p pw) = pw ∧
    (∀ resp conn, r = (Some resp, Some conn, None) → Redis.Password conn = pw).
Proof.
  intros Hp Hg. eexists _, _. split; [by apply CreateInstance_generated|].
  split; [apply events_app|]. split; [reflexivity|].
  unfold created. destruct (Redis.sdk_CreateInstance _ _) as [resp' [e|]];
    intros resp conn [= <- <-]; reflexivity.
Qed.

(** C1. A password the user supplies does not reach the vendor: for every
    parameter set with a password, [CreateInstance] draws no password and
    issues one create call, whose request carries the empty password; the
    connection it returns carries the empty password too. *)
Theorem CreateInstance_supplied_password_dropped (c : Redis.client) (name : string)
    (p : V1alpha1.RedisInstanceParameters) (w : World) :
  V1alpha1.Password p ≠ "" →
  ∃ r w' req, Redis.CreateInstance c name p w = Returns (r, w') ∧
    events w w' = [SDKCreateInstance req] ∧
    SDK.create_Password req = "" ∧
    SDK.create_Password req ≠ V1alpha1.Password p ∧
    (∀ resp conn, r = (Some resp, Some conn, None) → Redis.Password conn = "").
Proof.
  intros Hp. eexists _, _, _. split; [by apply CreateInstance_supplied|].
  split; [apply events_app|]. split; [reflexivity|]. split; [cbn; congruence|].
  unfold created. destruct (Redis.sdk_CreateInstance _ _) as [resp' [e|]];
    intros resp conn [= <- <-]; reflexivity.
Qed.

(** The password "hunter2A!" is supplied; the request carries none. *)
Lemma CreateInstance_supplied_password_dropped_witness :
  ∃ r w' req,
    Redis.CreateInstance (Sample.client Sample.throttled) "testName"
      (Sample.parameters "hunter2A!" "redis.small" None [] "" "") Sample.world
    = Returns (r, w') ∧
    events Sample.world w' = [SDKCreateInstance req] ∧
    SDK.create_Password req = "" ∧
    SDK.create_Password req ≠ "hunter2A!" ∧
    (∀ resp conn, r = (Some resp, Some conn, None) → Redis.Password conn = "").
Proof.
  apply (CreateInstance_supplied_password_dropped (Sample.client Sample.throttled)
           "testName" (Sample.parameters "hunter2A!" "redis.small" None [] "" "")
           Sample.world).
  vm_compute. discriminate.
Defined.

(** C10. The tags of the request of every create call [CreateInstance] issues
    are twice as many as the desired tags: as many zero tags first, then the
    desired tags; and a call is issued unless the draw of a password fails. *)
Theorem CreateInstance_request_tags (c : Redis.client) (name : string)
    (p : V1alpha1.RedisInstanceParameters) (w : World) :
  let tags := V1alpha1.Tag_ p in
  let n := length tags in
  ∃ r w', Redis.CreateInstance c name p w = Returns (r, w') ∧
    (∀ req, In (SDKCreateInstance req) (events w w') →
       length (SDK.create_Tag req) = (2 * n)%nat ∧
       take n (SDK.create_Tag req) = replicate n zero_tag ∧
       drop n (SDK.create_Tag req) = request_tag <$> tags) ∧
    (V1alpha1.Password p ≠ "" ∨ (Redis.password_Generate c).2 = None →
       ∃ req, In (SDKCreateInstance req) (events w w')).
Proof.
  intros tags n.
  assert (Htags : ∀ pw,
    let req := Redis.createRequest name p pw in
    length (SDK.create_Tag req) = (2 * n)%nat ∧
    take n (SDK.create_Tag req) = replicate n zero_tag ∧
    drop n (SDK.create_Tag req) = request_tag <$> tags).
  { intros pw. cbn. rewrite requestTags_eq. fold tags n zero_tag. split_and!.
    - rewrite length_app, length_replicate, length_fmap. lia.
    - rewrite take_app_length'; [done | by rewrite length_replicate].
    - rewrite drop_app_length'; [done | by rewrite length_replicate]. }
  destruct (String.eqb_spec (V1alpha1.Password p) "") as [Hp|Hp].
  - destruct (Redis.password_Generate c) as [pw [e|]] eqn:Hg.
    + eexists _, _. split; [by eapply CreateInstance_generate_fails|].
      rewrite events_app. split.
      * intros req [H|[]]. discriminate H.
      * intros [H|H]; [contradiction | discriminate H].
    + eexists _, _. split; [by eapply CreateInstance_generated|].
      rewrite events_app. split.
      * intros req [H|[[= <-]|[]]]; [discriminate H | apply Htags].
      * intros _. eexists. right. left. reflexivity.
  - eexists _, _. split; [by apply CreateInstance_supplied|].
    rewrite events_app. split.
    + intros req [[= <-]|[]]. apply Htags.
    + intros _. eexists. left. reflexivity.
Qed.

(** Two desired tags, a supplied password: four tags are sent. *)
Lemma CreateInstance_request_tags_witness :
  ∃ req, In (SDKCreateInstance req)
           (match Redis.CreateInstance (Sample.client Sample.throttled) "testName"
                    (Sample.parameters "pw" "c" None
                       [V1alpha1.mkTag "env" "prod"; V1alpha1.mkTag "team" "db"] "" "")
                    Sample.world with
            | Returns (_, w') => events Sample.world w'
            | Panics _ => []
            end)
         ∧ SDK.create_Tag req
           = [zero_tag; zero_tag; request_tag (V1alpha1.mkTag "env" "prod");
              request_tag (V1alpha1.mkTag "team" "db")].
Proof.
  destruct (CreateInstance_request_tags (Sample.client Sample.throttled) "testName"
              (Sample.parameters "pw" "c" None
                 [V1alpha1.mkTag "env" "prod"; V1alpha1.mkTag "team" "db"] "" "")
              Sample.world) as (r & w' & Hrun & Hall & Hex).
  rewrite Hrun.
  destruct Hex as [req Hreq]; [left; vm_compute; discriminate|].
  exists req. split; [exact Hreq|].
  destruct (Hall req Hreq) as (_ & Ht & Hd).
  rewrite <- (take_drop 2 (SDK.create_Tag req)).
  cbn in Ht, Hd. rewrite Ht, Hd. reflexivity.
Defined.

(** ** Drift of the security IPs *)

Lemma prefix_cons (a : ascii) (p s : string) :
  String.prefix (String a p) (String a s) = String.prefix p s.
Proof. cbn. destruct (ascii_dec a a); [reflexivity | contradiction]. Qed.

Lemma Contains_prefix (s p : string) : String.prefix p s = true → Contains s p = true.
Proof. intros H. destruct s; cbn -[String.prefix]; rewrite H; reflexivity. Qed.

Lemma Contains_cons (a : ascii) (s x : string) :
  Contains s x = true → Contains (String a s) x = true.
Proof. intros H. cbn -[String.prefix]. rewrite H. apply orb_true_r. Qed.

(** The pieces cut at a one-byte separator occur in the string. *)
Lemma split_from_occurs (c : ascii) (s : string) :
  let '(p, ps) := split_from (String c "") 0 s in
  String.prefix p s = true ∧ ∀ x, In x ps → Contains s x = true.
Proof.
  induction s as [|a s IH]; [cbn; split; [reflexivity | intros x []]|].
  cbn [split_from String.length Nat.pred].
  destruct (split_from (String c "") 0 s) as [p ps]. destruct IH as [Hp Hps].
  destruct (String.prefix (String c "") (String a s)).
  - split; [reflexivity|]. intros x [<-|Hx].
    + apply Contains_cons, Contains_prefix, Hp.
    + apply Contains_cons, Hps, Hx.
  - split; [by rewrite prefix_cons|]. intros x Hx. apply Contains_cons, Hps, Hx.
Qed.

Lemma Split_occurs (s x : string) : In x (Split s ",") → Contains s x = true.
Proof.
  unfold Split. pose proof (split_from_occurs "," s) as H.
  destruct (split_from "," 0 s) as [p ps]. destruct H as [Hp Hps].
  intros [<-|Hx]; [by apply Contains_prefix | by apply Hps].
Qed.

(** The drift [SecurityIpsNeedUpdate] does detect.  With a desired list that
    is not empty: a request is produced when some entry of the configured list
    does not occur in the desired list, and none when the two lists have the
    same entries; a request carries the whole desired list and the mode
    "Cover".  With "10.0.0.1,10.0.0.2" configured, a desired list in which
    both occur gives no request, and one in which either is missing gives the
    request. *)
Lemma SecurityIpsNeedUpdate_configured_missing (attr : SDK.DBInstanceAttribute)
    (p : V1alpha1.RedisInstanceParameters) :
  let configured := Split (SDK.SecurityIPList attr) "," in
  let desired := V1alpha1.SecurityIps p in
  let cover := {| SDK.ips_InstanceId := ""; SDK.ips_SecurityIps := desired;
                  SDK.ips_ModifyMode := "Cover" |} in
  desired ≠ "" →
  ((∃ ip, In ip configured ∧ Contains desired ip = false) →
     Redis.SecurityIpsNeedUpdate attr p = Some cover) ∧
  ((∀ ip, In ip configured ↔ In ip (Split desired ",")) →
     Redis.SecurityIpsNeedUpdate attr p = None) ∧
  (∀ req, Redis.SecurityIpsNeedUpdate attr p = Some req → req = cover) ∧
  (SDK.SecurityIPList attr = "10.0.0.1,10.0.0.2" →
     (Contains desired "10.0.0.1" = true ∧ Contains desired "10.0.0.2" = true →
        Redis.SecurityIpsNeedUpdate attr p = None) ∧
     (Contains desired "10.0.0.1" = false ∨ Contains desired "10.0.0.2" = false →
        Redis.SecurityIpsNeedUpdate attr p = Some cover)).
Proof.
  intros configured desired cover Hd.
  unfold Redis.SecurityIpsNeedUpdate. fold desired configured.
  destruct (String.eqb_spec desired ""); [contradiction|].
  change {| SDK.ips_InstanceId := _; SDK.ips_SecurityIps := desired;
            SDK.ips_ModifyMode := Redis.DefaultIPModifyMode |} with cover.
  assert (Hex : (∃ ip, In ip configured ∧ Contains desired ip = false) →
                existsb (λ ip, negb (Contains desired ip)) configured = true).
  { intros (ip & Hin & Hc). apply existsb_exists. exists ip. by rewrite Hc. }
  split_and!.
  - intros H. by rewrite (Hex H).
  - intros Hsame.
    destruct (existsb _ configured) eqn:E; [|reflexivity].
    apply existsb_exists in E as (ip & Hin & Hc).
    apply Hsame, Split_occurs in Hin. fold desired in Hin. by rewrite Hin in Hc.
  - intros req. destruct (existsb _ configured); congruence.
  - intros Hconf. subst configured. rewrite Hconf.
    change (Split "10.0.0.1,10.0.0.2" ",") with ["10.0.0.1"; "10.0.0.2"].
    cbn [existsb]. split.
    + intros [-> ->]. reflexivity.
    + intros [-> | ->]; cbn; rewrite ?orb_true_r; reflexivity.
Qed.

(** The second scenario of the specification: "10.0.0.2" is configured and
    missing from the desired list. *)
Lemma SecurityIpsNeedUpdate_configured_missing_witness :
  Redis.SecurityIpsNeedUpdate
    (Sample.attribute "Normal" "standard" "c" "c" 0 "10.0.0.1,10.0.0.2" "")
    (Sample.parameters "" "c" None [] "10.0.0.1" "")
  = Some {| SDK.ips_InstanceId := ""; SDK.ips_SecurityIps := "10.0.0.1";
            SDK.ips_ModifyMode := "Cover" |}.
Proof.
  refine (proj1 (SecurityIpsNeedUpdate_configured_missing
                   (Sample.attribute "Normal" "standard" "c" "c" 0 "10.0.0.1,10.0.0.2" "")
                   (Sample.parameters "" "c" None [] "10.0.0.1" "") _) _).
  - vm_compute. discriminate.
  - exists "10.0.0.2". split; [right; left; reflexivity | reflexivity].
Defined.

(** With "10.0.0.1,10.0.0.2" configured and "10.0.0.1" desired, every desired
    IP is in the configured list, and a request is produced: the one that
    removes "10.0.0.2". *)
Example SecurityIpsNeedUpdate_not_desired_absent :
  let configured := "10.0.0.1,10.0.0.2" in
  let desired := "10.0.0.1" in
  (∀ ip, In ip (Split desired ",") → In ip (Split configured ",")) ∧
  Redis.SecurityIpsNeedUpdate
    (Sample.attribute "Normal" "standard" "c" "c" 0 configured "")
    (Sample.parameters "" "c" None [] desired "")
  = Some {| SDK.ips_InstanceId := ""; SDK.ips_SecurityIps := desired;
            SDK.ips_ModifyMode := "Cover" |}.
Proof.
  cbv zeta. split; [|reflexivity].
  intros ip [<-|[]]. left. reflexivity.
Qed.

(** C4.  The code misses the drift the claim is about.
    [SecurityIpsNeedUpdate] looks for each configured entry in the desired
    list, and never for a desired entry in the configured list.  So when every
    configured entry is desired and some desired IP is absent from the
    configured list, where the claim has a request and the comment of the
    function has "Return true if there are differences", it returns nil: with
    "10.0.0.1" configured and "10.0.0.1,10.0.0.2" desired no request is
    produced, and "10.0.0.2" is never added. *)
Theorem SecurityIpsNeedUpdate_misses_desired (attr : SDK.DBInstanceAttribute)
    (p : V1alpha1.RedisInstanceParameters) :
  let configured := Split (SDK.SecurityIPList attr) "," in
  let desired := Split (V1alpha1.SecurityIps p) "," in
  (∀ ip, In ip configured → In ip desired) →
  (∃ ip, In ip desired ∧ ¬ In ip configured) →
  Redis.SecurityIpsNeedUpdate attr p = None.
Proof.
  intros configured desired Hsub _. unfold Redis.SecurityIpsNeedUpdate.
  destruct (String.eqb _ ""); [reflexivity|]. fold configured.
  destruct (existsb _ configured) eqn:E; [|reflexivity].
  apply existsb_exists in E as (ip & Hip & Hc).
  apply Hsub, Split_occurs in Hip. by rewrite Hip in Hc.
Qed.

(** "10.0.0.1" is configured, "10.0.0.1,10.0.0.2" is desired: "10.0.0.2" is
    desired and absent from the configured list, and there is no request. *)
Lemma SecurityIpsNeedUpdate_misses_desired_witness :
  (In "10.0.0.2" (Split "10.0.0.1,10.0.0.2" ",") ∧ ¬ In "10.0.0.2" (Split "10.0.0.1" ",")) ∧
  Redis.SecurityIpsNeedUpdate
    (Sample.attribute "Normal" "standard" "c" "c" 0 "10.0.0.1" "")
    (Sample.parameters "" "c" None [] "10.0.0.1,10.0.0.2" "")
  = None.
Proof.
  assert (H : In "10.0.0.2" (Split "10.0.0.1,10.0.0.2" ",") ∧
              ¬ In "10.0.0.2" (Split "10.0.0.1" ",")).
  { split; [right; left; reflexivity | intros [H|[]]; discriminate H]. }
  split; [exact H|].
  apply (SecurityIpsNeedUpdate_misses_desired
           (Sample.attribute "Normal" "standard" "c" "c" 0 "10.0.0.1" "")
           (Sample.parameters "" "c" None [] "10.0.0.1,10.0.0.2" "")).
  - intros ip [<-|[]]. left. reflexivity.
  - exists "10.0.0.2". exact H.
Defined.

(** ** Cleaning of vendor errors *)

(** C5, as the code has it.  [CleanError] returns nil for nil and an error
    that is not a server error as it is.  A server error comes back as a
    server error with an empty request ID and an empty recommendation, with
    its status and comment unchanged, and with its host ID, code and message
    as they are after the journey through JSON: each byte that starts no
    well-formed UTF-8 character replaced by U+FFFD.  So a field that is
    well-formed UTF-8 is unchanged, and only such a field is: the message
    with the lone byte 0xFF in "bad ? byte" comes back with the three bytes of
    U+FFFD in its place.  Two server errors that differ in their request IDs
    only are cleaned to the same error. *)
Theorem CleanError_drops_request_id :
  Redis.CleanError None = Returns None ∧
  (∀ e, (∀ s, e ≠ EServer s) → Redis.CleanError (Some e) = Returns (Some e)) ∧
  (∀ s, ∃ s',
     Redis.CleanError (Some (EServer s)) = Returns (Some (EServer s')) ∧
     SDK.requestId s' = "" ∧
     SDK.recommend s' = "" ∧
     SDK.httpStatus s' = SDK.httpStatus s ∧
     SDK.comment s' = SDK.comment s ∧
     SDK.errorCode s' = coerce_utf8 (SDK.errorCode s) ∧
     SDK.hostId s' = coerce_utf8 (SDK.hostId s) ∧
     SDK.message s' = coerce_utf8 (SDK.message s) ∧
     (SDK.errorCode s' = SDK.errorCode s ↔ well_formed (SDK.errorCode s)) ∧
     (SDK.hostId s' = SDK.hostId s ↔ well_formed (SDK.hostId s)) ∧
     (SDK.message s' = SDK.message s ↔ well_formed (SDK.message s))) ∧
  (∀ s, ascii_only s = true → well_formed s) ∧
  (∀ s, well_formed (coerce_utf8 s)) ∧
  (let ill := "bad " +:+ String "255" " byte" in
   ¬ well_formed ill ∧
   coerce_utf8 ill = "bad " +:+ String "239" (String "191" (String "189" " byte"))) ∧
  (∀ status rid1 rid2 host code rec msg cm,
     Redis.CleanError (Some (EServer (SDK.mkServerError status rid1 host code rec msg cm)))
     = Redis.CleanError (Some (EServer (SDK.mkServerError status rid2 host code rec msg cm)))).
Proof.
  split_and!.
  - reflexivity.
  - intros e He. rewrite CleanError_scrubbed. destruct e; try reflexivity.
    by destruct (He e).
  - intros s. eexists. rewrite CleanError_scrubbed. cbn [scrubbed].
    split_and!; reflexivity.
  - apply ascii_only_well_formed.
  - apply coerce_utf8_idempotent.
  - cbv zeta. split; [unfold well_formed; vm_compute; discriminate | reflexivity].
  - intros. by rewrite !CleanError_scrubbed.
Qed.

(** An error of the SDK client, which is no server error, is left alone. *)
Lemma CleanError_drops_request_id_witness :
  Redis.CleanError (Some (EOther "SDK.ClientError: timeout"))
  = Returns (Some (EOther "SDK.ClientError: timeout")).
Proof.
  apply (proj1 (proj2 CleanError_drops_request_id)).
  intros s. discriminate.
Defined.

(** C5 as stated fails: the vendor answers with a message that quotes the
    request ID; the cleaned error has the same message, and its text still
    contains the request ID. *)
Lemma CleanError_message_keeps_request_id :
  ∃ s s',
    SDK.NewServerError 400
      (dq "{'RequestId':'REQ-1','Code':'Throttling','Message':'request REQ-1 was throttled'}")
      "" = Returns s ∧
    SDK.requestId s = "REQ-1" ∧
    Redis.CleanError (Some (EServer s)) = Returns (Some (EServer s')) ∧
    Contains (SDK.message s') (SDK.requestId s) = true ∧
    Contains (Error (EServer s')) (SDK.requestId s) = true.
Proof.
  exists (SDK.mkServerError 400 "REQ-1" "" "Throttling" "" "request REQ-1 was throttled" ""),
         (SDK.mkServerError 400 "" "" "Throttling" "" "request REQ-1 was throttled" "").
  split_and!; vm_compute; reflexivity.
Qed.

(** ** The test for "not found" *)



(** ** Observe *)

(** C2. With an empty external name [Observe] reports that the resource does
    not exist, with no error, and leaves the world as it was: the describe
    operation is not called.  With an external name for which
    [DescribeInstance] succeeds, [Observe] reports that the resource exists
    and is up to date, with the connection details of the description. *)
Theorem Observe_exists_and_up_to_date (e : Controller.external) (cr : V1alpha1.RedisInstance)
    (w : World) :
  let id := Controller.GetExternalName cr in
  (id = "" →
     Controller.Observe e (V1alpha1.IsRedisInstance cr) w
     = Returns ((V1alpha1.IsRedisInstance cr,
                 {| Controller.ResourceExists := false;
                    Controller.ResourceUpToDate := false;
                    Controller.ConnectionDetails := ∅ |},
                 None), w)) ∧
  (id ≠ "" →
     ∀ attr conn w',
       Controller.DescribeInstance (Controller.redisClient e) id
         (mkWorld (next_addr w) (trace w ++ [ClientDescribeInstance id]))
       = Returns ((Some attr, Some conn, None), w') →
       ∃ cr',
         Controller.Observe e (V1alpha1.IsRedisInstance cr) w
         = Returns ((V1alpha1.IsRedisInstance cr',
                     {| Controller.ResourceExists := true;
                        Controller.ResourceUpToDate := true;
                        Controller.ConnectionDetails :=
                          Controller.getConnectionDetails conn |},
                     None), w') ∧
         V1alpha1.AtProvider cr' = Redis.GenerateObservation attr).
Proof.
  intros id. split.
  - intros Hid. unfold Controller.Observe. fold id. rewrite Hid. reflexivity.
  - intros Hid attr conn w' Hd. unfold Controller.Observe. fold id.
    destruct (String.eqb_spec id ""); [contradiction|].
    unfold mbind at 1. unfold M_bind at 1. cbn [emit].
    unfold mbind at 1. unfold M_bind at 1. rewrite Hd.
    eexists. split; [reflexivity|].
    repeat match goal with |- context [if ?b then _ else _] => destruct b end;
      reflexivity.
Qed.

(** The scenario of the specification: "testId" is described as running. *)
Lemma Observe_exists_and_up_to_date_witness :
  ∃ cr' w',
    Controller.Observe (Sample.external Sample.throttled)
      (V1alpha1.IsRedisInstance
         (Sample.instance "testId" "testStatus" (Sample.parameters "" "" None [] "" "")))
      Sample.world
    = Returns ((V1alpha1.IsRedisInstance cr',
                {| Controller.ResourceExists := true;
                   Controller.ResourceUpToDate := true;
                   Controller.ConnectionDetails :=
                     <["endpoint" := "172.0.0.1"]> {[ "port" := "8080" ]} |},
                None), w') ∧
    V1alpha1.Conditions cr' = [V1alpha1.Available].
Proof.
  destruct (proj2 (Observe_exists_and_up_to_date (Sample.external Sample.throttled)
              (Sample.instance "testId" "testStatus" (Sample.parameters "" "" None [] "" ""))
              Sample.world))
    with (attr := Sample.attribute "Normal" "standard" "c" "c" 0 "" "")
         (conn := {| Redis.Username := ""; Redis.Password := "";
                     Redis.ConnectionDomain := "172.0.0.1"; Redis.Port := "8080" |})
         (w' := mkWorld 0 [ClientDescribeInstance "testId";
                           SDKDescribeInstanceAttribute
                             {| SDK.describe_Scheme := "https";
                                SDK.describe_InstanceId := "testId" |}])
    as (cr' & Hrun & Hobs).
  - vm_compute. discriminate.
  - reflexivity.
  - exists cr'. eexists. split.
    + rewrite Hrun. reflexivity.
    + vm_compute in Hrun. injection Hrun as <-. reflexivity.
Defined.

(** ** Delete *)

(** C3, as the code has it.  [Delete] marks the resource as being deleted and
    calls the delete operation, whatever the observed status.  It returns no
    error when that call returns none, or one in which [IsErrorNotFound]
    finds a server error with the code "InvalidInstanceId.NotFound"; every
    other error comes back wrapped with "cannot delete redis instance". *)
Theorem Delete_ignores_not_found (e : Controller.external) (cr : V1alpha1.RedisInstance)
    (w w1 : World) (err : error) :
  let id := Controller.GetExternalName cr in
  Controller.DeleteInstance (Controller.redisClient e) id
    (mkWorld (next_addr w) (trace w ++ [ClientDeleteInstance id]))
  = Returns (err, w1) →
  (∀ x, err = Some x → allocated_below (next_addr w1) x) →
  ∃ result w2,
    Controller.Delete e (V1alpha1.IsRedisInstance cr) w
    = Returns ((V1alpha1.IsRedisInstance (Controller.setCondition cr V1alpha1.Deleting),
                result), w2) ∧
    (err = None → result = None) ∧
    (∀ x s, err = Some x → As x = Some s →
            SDK.errorCode s = "InvalidInstanceId.NotFound" → result = None) ∧
    (∀ x, err = Some x →
          (∀ s, As x = Some s → SDK.errorCode s ≠ "InvalidInstanceId.NotFound") →
          result = Some (EWrap x "cannot delete redis instance") ∧
          (∀ r, result = Some r →
                Error r = "cannot delete redis instance: " +:+ Error x)).
Proof.
  intros id Hd Ha.
  destruct (Ignore_run err w1 Ha) as (n & _ & Hign).
  eexists _, _. split.
  - unfold Controller.Delete.
    change (Controller.GetExternalName (Controller.setCondition cr V1alpha1.Deleting))
      with id.
    unfold mbind at 1. unfold M_bind at 1. cbn [emit].
    unfold mbind at 1. unfold M_bind at 1. rewrite Hd.
    unfold mbind at 1. unfold M_bind at 1. rewrite Hign. reflexivity.
  - split_and!.
    + intros ->. reflexivity.
    + intros x s -> Hs Hc. unfold not_found. rewrite Hs.
      apply String.eqb_eq in Hc. unfold Redis.errInstanceNotFoundCode. by rewrite Hc.
    + intros x -> Hx.
      assert (Hnf : not_found x = false).
      { unfold not_found. destruct (As x) as [s|]; [|reflexivity].
        apply String.eqb_neq. by apply Hx. }
      rewrite Hnf. split; [reflexivity|]. intros r [= <-]. reflexivity.
Qed.

(** The code "InvalidInstanceId.NotFound" is ASCII: a code is it after the
    cleaning exactly when it was it before. *)
Lemma eqb_coerce_utf8 (code : string) :
  String.eqb (coerce_utf8 code) Redis.errInstanceNotFoundCode
  = String.eqb code Redis.errInstanceNotFoundCode.
Proof.
  destruct (String.eqb_spec code Redis.errInstanceNotFoundCode) as [->|Hne].
  - reflexivity.
  - apply String.eqb_neq. intros Hc. apply Hne.
    by apply (coerce_utf8_ascii _ _ Hc).
Qed.

(** The same through the adapter of redis.go, from what the vendor answers:
    cleaning the error keeps the code "InvalidInstanceId.NotFound" and makes
    no other code into it, so a server error of the vendor with that code ends
    the deletion without an error. *)
Lemma not_found_scrubbed (x : GoError) :
  match scrubbed (Some x) with
  | Some x' => not_found x' = not_found x ∧ ∀ n, allocated_below n x → allocated_below n x'
  | None => False
  end.
Proof.
  destruct x; cbn [scrubbed]; auto. split; [|done].
  unfold not_found. cbn [As SDK.errorCode]. apply eqb_coerce_utf8.
Qed.

Lemma Delete_through_adapter (c : Redis.client) (cr : V1alpha1.RedisInstance) (w : World) :
  let id := Controller.GetExternalName cr in
  let answer := Redis.sdk_DeleteInstance (Redis.redisCli c)
                  {| SDK.delete_Scheme := "https"; SDK.delete_InstanceId := id |} in
  (∀ x, answer = Some x → allocated_below (next_addr w) x) →
  ∃ w2,
    Controller.Delete {| Controller.redisClient := Controller.adapter c |}
      (V1alpha1.IsRedisInstance cr) w
    = Returns ((V1alpha1.IsRedisInstance (Controller.setCondition cr V1alpha1.Deleting),
                match scrubbed answer with
                | Some x =>
                    if not_found x then None
                    else Some (EWrap x "cannot delete redis instance")
                | None => None
                end), w2) ∧
    (∀ x, answer = Some x → not_found x = true → scrubbed answer ≠ None ∧
       Sample.deletion
         (Controller.Delete {| Controller.redisClient := Controller.adapter c |}
            (V1alpha1.IsRedisInstance cr) w) = Some None).
Proof.
  intros id answer Ha.
  set (w1 := mkWorld (next_addr w)
               ((trace w ++ [ClientDeleteInstance id])
                ++ [SDKDeleteInstance {| SDK.delete_Scheme := "https";
                                         SDK.delete_InstanceId := id |}])).
  assert (Hd : Controller.DeleteInstance (Controller.adapter c) id
                 (mkWorld (next_addr w) (trace w ++ [ClientDeleteInstance id]))
               = Returns (scrubbed answer, w1)).
  { cbn [Controller.DeleteInstance Controller.adapter]. unfold Redis.DeleteInstance.
    unfold mbind, M_bind, emit. cbn -[lift Redis.CleanError].
    rewrite lift_CleanError. reflexivity. }
  assert (Hs : ∀ x, scrubbed answer = Some x → allocated_below (next_addr w1) x).
  { intros x Hx. destruct answer as [y|]; [|discriminate].
    pose proof (not_found_scrubbed y) as Hy. rewrite Hx in Hy.
    apply Hy, Ha. reflexivity. }
  destruct (Ignore_run (scrubbed answer) w1 Hs) as (n & _ & Hign).
  assert (Hrun : Controller.Delete {| Controller.redisClient := Controller.adapter c |}
                   (V1alpha1.IsRedisInstance cr) w
                 = Returns ((V1alpha1.IsRedisInstance
                               (Controller.setCondition cr V1alpha1.Deleting),
                             match scrubbed answer with
                             | Some x =>
                                 if not_found x then None
                                 else Some (EWrap x "cannot delete redis instance")
                             | None => None
                             end), mkWorld n (trace w1))).
  { unfold Controller.Delete.
    change (Controller.GetExternalName (Controller.setCondition cr V1alpha1.Deleting))
      with id.
    unfold mbind at 1. unfold M_bind at 1. cbn [emit].
    unfold mbind at 1. unfold M_bind at 1.
    cbn [Controller.redisClient]. rewrite Hd.
    unfold mbind at 1. unfold M_bind at 1. rewrite Hign.
    destruct (scrubbed answer) as [x|]; [destruct (not_found x)|]; reflexivity. }
  eexists. split; [exact Hrun|].
  intros x Hx Hnf. rewrite Hrun. cbn [Sample.deletion].
  pose proof (not_found_scrubbed x) as Hy. rewrite Hx.
  destruct (scrubbed (Some x)) as [x'|]; [|contradiction].
  destruct Hy as [Hy _]. rewrite Hy, Hnf. split; [discriminate | reflexivity].
Qed.

(** The instance is gone at the vendor: no error. *)
Lemma Delete_ignores_not_found_witness :
  ∃ w2,
    Controller.Delete
      (Sample.external
         (SDK.mkServerError 404 "REQ-2" "" "InvalidInstanceId.NotFound" "" "gone" ""))
      (V1alpha1.IsRedisInstance
         (Sample.instance "goneId" "Normal" (Sample.parameters "" "" None [] "" "")))
      Sample.world
    = Returns
        ((V1alpha1.IsRedisInstance
            (Controller.setCondition
               (Sample.instance "goneId" "Normal" (Sample.parameters "" "" None [] "" ""))
               V1alpha1.Deleting),
          None), w2).
Proof.
  destruct (Delete_ignores_not_found
              (Sample.external
                 (SDK.mkServerError 404 "REQ-2" "" "InvalidInstanceId.NotFound" "" "gone" ""))
              (Sample.instance "goneId" "Normal" (Sample.parameters "" "" None [] "" ""))
              Sample.world
              (mkWorld 0 [ClientDeleteInstance "goneId";
                          SDKDeleteInstance {| SDK.delete_Scheme := "https";
                                               SDK.delete_InstanceId := "goneId" |}])
              (Some (EServer
                 (SDK.mkServerError 404 "" "" "InvalidInstanceId.NotFound" "" "gone" ""))))
    as (result & w2 & Hrun & _ & Hnf & _).
  - vm_compute. reflexivity.
  - intros x [= <-]. exact I.
  - exists w2. rewrite Hrun. by rewrite (Hnf _ _ eq_refl eq_refl eq_refl).
Defined.

(** C3 as stated fails: the observed status is the deleting state, the vendor
    refuses the delete call with "Throttling", and [Delete] returns the
    error. *)
Lemma Delete_in_deleting_state_fails :
  V1alpha1.InstanceStatus
    (V1alpha1.AtProvider
       (Sample.instance "busyId" V1alpha1.RedisInstanceStateDeleting
          (Sample.parameters "" "" None [] "" "")))
  = V1alpha1.RedisInstanceStateDeleting ∧
  ∃ mg w',
    Controller.Delete (Sample.external Sample.throttled)
      (V1alpha1.IsRedisInstance
         (Sample.instance "busyId" V1alpha1.RedisInstanceStateDeleting
            (Sample.parameters "" "" None [] "" "")))
      Sample.world
    = Returns
        ((mg,
          Some (EWrap
                  (EServer
                     (SDK.mkServerError 400 "" "r-kvstore.aliyuncs.com" "Throttling" ""
                        "Request was denied due to user flow control." ""))
                  "cannot delete redis instance")), w').
Proof. split; [reflexivity|]. eexists _, _. vm_compute. reflexivity. Qed.

(** ** Drift of the parameters *)

(** The loop of [calculateParamDiff] over the wanted parameters, on a map
    that is not nil: the wanted values override the actual ones, and the flag
    tells whether some wanted value was missing or different. *)
Lemma paramStep_fold (actual wanted : gmap string string) :
  ∃ flag : bool,
    map_fold Redis.paramStep (Returns (Some actual, false)) wanted
    = Returns (Some (wanted ∪ actual), flag) ∧
    (flag = true ↔ differs wanted actual).
Proof.
  apply (map_fold_weak_ind
           (λ r m, ∃ flag : bool,
              r = Returns (Some (m ∪ actual), flag) ∧ (flag = true ↔ differs m actual))).
  - exists false. rewrite (left_id_L ∅ (∪)). split; [reflexivity|].
    split; [discriminate|]. intros (k & v & Hk & _). by rewrite lookup_empty in Hk.
  - intros i x m r Hi (flag & -> & Hflag).
    assert (Hl : (m ∪ actual) !! i = actual !! i) by (by apply lookup_union_r).
    unfold Redis.paramStep. cbn [mbind option_bind]. rewrite Hl.
    assert (Hnew : differs (<[i:=x]> m) actual ↔
                   actual !! i ≠ Some x ∨ differs m actual).
    { split.
      - intros (k & v & Hk & Hne). destruct (decide (k = i)) as [->|Hki].
        + rewrite lookup_insert_eq in Hk. injection Hk as <-. by left.
        + rewrite lookup_insert_ne in Hk by done. right. by exists k, v.
      - intros [Hne|(k & v & Hk & Hne)].
        + exists i, x. by rewrite lookup_insert_eq.
        + exists k, v. split; [|done]. rewrite lookup_insert_ne; [done|].
          intros ->. congruence. }
    destruct (actual !! i) as [av|] eqn:Ha.
    + destruct (String.eqb_spec av x) as [->|Hne]; cbn [negb].
      * exists flag. split.
        -- do 2 f_equal. f_equal. apply map_eq. intros k.
           destruct (decide (k = i)) as [->|Hki].
           ++ by rewrite !lookup_union, lookup_insert_eq, Hi, Ha.
           ++ by rewrite !lookup_union, lookup_insert_ne.
        -- rewrite Hflag, Hnew. split; [tauto|]. intros [H|H]; [congruence|done].
      * exists true. split.
        -- cbn. by rewrite insert_union_l.
        -- rewrite Hnew. split; [|done]. intros _. left. congruence.
    + exists true. split.
      * by rewrite insert_union_l.
      * rewrite Hnew. split; [|done]. intros _. by left.
Qed.




(** ** The tests of the repository, run on the model *)

(** [TestIsErrorNotFound]. *)
Example TestIsErrorNotFound :
  ∃ e w',
    SDK.NewServerError 404
      (Marshal_map (Some {[ "Code" := Redis.errInstanceNotFoundCode ]})) "comment"
    = Returns e ∧
    Redis.IsErrorNotFound (Some (EServer e)) Sample.world = Returns (true, w').
Proof.
  exists (SDK.mkServerError 404 "" "" "InvalidInstanceId.NotFound" ""
            (dq "{'Code':'InvalidInstanceId.NotFound'}") "comment"), Sample.world.
  split; vm_compute; reflexivity.
Qed.

(** [TestGenerateObservation]. *)
Example TestGenerateObservation :
  V1alpha1.InstanceStatus
    (Redis.GenerateObservation
       (Sample.attribute V1alpha1.RedisInstanceStateRunning "" "" "" 0 "" ""))
  = V1alpha1.RedisInstanceStateRunning.
Proof. reflexivity. Qed.

(** [TestObserve]: the fake client describes "testId". *)
Example TestObserve :
  Sample.observation
    (Controller.Observe {| Controller.redisClient := Sample.fakeRedisClient |}
       (V1alpha1.IsRedisInstance
          (Sample.instance "testId" "testEndpoint" (Sample.parameters "" "" None [] "" "")))
       Sample.world)
  = Some ({| Controller.ResourceExists := true;
             Controller.ResourceUpToDate := true;
             Controller.ConnectionDetails :=
               <["endpoint" := "172.0.0.1"]> {[ "port" := "8080" ]} |},
          None).
Proof. vm_compute. reflexivity. Qed.

(** [TestDelete], "Managed resource is already in a delete state": the fake
    client deletes "testId" without an error. *)
Example TestDelete_deleting_state :
  Sample.deletion
    (Controller.Delete {| Controller.redisClient := Sample.fakeRedisClient |}
       (V1alpha1.IsRedisInstance
          (Sample.instance "testId" V1alpha1.RedisInstanceStateDeleting
             (Sample.parameters "" "" None [] "" "")))
       Sample.world)
  = Some None.
Proof. vm_compute. reflexivity. Qed.

(** [TestGetConnectionDetails], "SuccessfulNoPassword" and "SuccessfulNoEndpoint". *)
Example TestGetConnectionDetails :
  Controller.getConnectionDetails
    {| Redis.Username := "testId"; Redis.Password := "";
       Redis.ConnectionDomain := "172.0.0.1"; Redis.Port := "8080" |}
  = <["username" := "testId"]> (<["endpoint" := "172.0.0.1"]> {[ "port" := "8080" ]}) ∧
  Controller.getConnectionDetails
    {| Redis.Username := "testId"; Redis.Password := "testPassword";
       Redis.ConnectionDomain := ""; Redis.Port := "" |}
  = <["username" := "testId"]> {[ "password" := "testPassword" ]}.
Proof. split; apply map_eq; intros k; vm_compute; reflexivity. Qed.

(* ===================================================================== *)
(** * Further properties of the adapter and of the controller *)
(* ===================================================================== *)

(** ** Cleaning, again *)

Lemma scrubbed_idempotent (err : error) : scrubbed (scrubbed err) = scrubbed err.
Proof.
  destruct err as [[s| | |]|]; try reflexivity.
  cbn. by rewrite !coerce_utf8_idempotent.
Qed.

(** X1.  [CleanError] returns for every error, and cleaning what it returns
    changes nothing more. *)
Theorem CleanError_idempotent (err : error) :
  ∃ cleaned,
    Redis.CleanError err = Returns cleaned ∧
    Redis.CleanError cleaned = Returns cleaned.
Proof.
  exists (scrubbed err). rewrite !CleanError_scrubbed, scrubbed_idempotent. done.
Qed.

(** X2.  Cleaning an error does not change what [IsErrorNotFound] answers for
    it: the code "InvalidInstanceId.NotFound" of a server error is kept and no
    other code becomes it, and the errors [CleanError] leaves alone are the
    same values. *)
Theorem IsErrorNotFound_after_CleanError (e : GoError) (w : World) :
  allocated_below (next_addr w) e →
  ∃ cleaned b w1 w2,
    Redis.CleanError (Some e) = Returns (Some cleaned) ∧
    Redis.IsErrorNotFound (Some e) w = Returns (b, w1) ∧
    Redis.IsErrorNotFound (Some cleaned) w = Returns (b, w2).
Proof.
  intros Ha. rewrite CleanError_scrubbed.
  pose proof (not_found_scrubbed e) as Hs.
  destruct (scrubbed (Some e)) as [cleaned|]; [|contradiction].
  destruct Hs as [Hnf Hal].
  destruct (IsErrorNotFound_run e w Ha) as (n1 & _ & H1).
  destruct (IsErrorNotFound_run cleaned w (Hal _ Ha)) as (n2 & _ & H2).
  exists cleaned, (not_found e), (mkWorld n1 (trace w)), (mkWorld n2 (trace w)).
  rewrite H1, H2, Hnf. done.
Qed.

(** A throttled request is no "not found", before and after the cleaning. *)
Lemma IsErrorNotFound_after_CleanError_witness :
  ∃ cleaned b w1 w2,
    Redis.CleanError (Some (EServer Sample.throttled)) = Returns (Some cleaned) ∧
    Redis.IsErrorNotFound (Some (EServer Sample.throttled)) Sample.world = Returns (b, w1) ∧
    Redis.IsErrorNotFound (Some cleaned) Sample.world = Returns (b, w2).
Proof.
  apply (IsErrorNotFound_after_CleanError (EServer Sample.throttled) Sample.world).
  exact I.
Defined.

(** ** DescribeInstance *)

(** X3.  When the vendor answers the describe request with an error,
    [DescribeInstance] makes that one request, for the instance and over https,
    and returns no attribute, no connection and the cleaned error wrapped: its
    text starts with "cannot describe instance attributes: ", and [errors.As]
    finds in it the server error it finds in the vendor's, with the same code
    when that code is well-formed UTF-8, and with the code coerced to
    well-formed UTF-8 in any case. *)
Theorem DescribeInstance_vendor_error (c : Redis.client) (id : string) (w : World)
    (response : SDK.DescribeInstanceAttributeResponse) (e : GoError) :
  let request := {| SDK.describe_Scheme := "https"; SDK.describe_InstanceId := id |} in
  Redis.DescribeInstanceAttribute (Redis.redisCli c) request = (response, Some e) →
  ∃ cleaned,
    Redis.CleanError (Some e) = Returns (Some cleaned) ∧
    Redis.DescribeInstance c id w
    = Returns ((None, None, Some (EWrap cleaned "cannot describe instance attributes")),
               mkWorld (next_addr w) (trace w ++ [SDKDescribeInstanceAttribute request])) ∧
    Error (EWrap cleaned "cannot describe instance attributes")
    = "cannot describe instance attributes: " +:+ Error cleaned ∧
    (∀ s, As e = Some s →
       ∃ s', As (EWrap cleaned "cannot describe instance attributes") = Some s' ∧
             (well_formed (SDK.errorCode s) → SDK.errorCode s' = SDK.errorCode s) ∧
             coerce_utf8 (SDK.errorCode s') = coerce_utf8 (SDK.errorCode s)) ∧
    (As e = None → As (EWrap cleaned "cannot describe instance attributes") = None).
Proof.
  intros request Hv. rewrite CleanError_scrubbed.
  destruct (scrubbed (Some e)) as [cleaned|] eqn:Hc; [|by destruct e].
  exists cleaned. split_and!.
  - reflexivity.
  - unfold Redis.DescribeInstance, Redis.HTTPSScheme. fold request.
    unfold mbind at 1. unfold M_bind at 1. cbn [emit]. rewrite Hv.
    unfold mbind, M_bind. rewrite lift_CleanError, Hc. reflexivity.
  - reflexivity.
  - intros s Hs. destruct e; cbn [scrubbed As] in Hc, Hs; simplify_eq;
      cbn [As SDK.errorCode]; eexists; split_and!; try reflexivity; try done.
    apply coerce_utf8_idempotent.
  - intros Hn. destruct e; cbn [scrubbed As] in Hc, Hn; simplify_eq; cbn [As]; done.
Qed.

(** The vendor throttles the describe request. *)
Lemma DescribeInstance_vendor_error_witness :
  ∃ cleaned w',
    Redis.DescribeInstance (Sample.client Sample.throttled) "otherId" Sample.world
    = Returns ((None, None, Some (EWrap cleaned "cannot describe instance attributes")), w') ∧
    As cleaned = Some (SDK.mkServerError 400 "" "r-kvstore.aliyuncs.com" "Throttling" ""
                         "Request was denied due to user flow control." "").
Proof.
  destruct (DescribeInstance_vendor_error (Sample.client Sample.throttled) "otherId"
              Sample.world {| SDK.Instances := [] |} (EServer Sample.throttled))
    as (cleaned & Hc & Hrun & _).
  - reflexivity.
  - exists cleaned. eexists. split; [exact Hrun|].
    vm_compute in Hc. injection Hc as <-. reflexivity.
Defined.

(** ** Observe, when the description fails *)

Lemma allocated_below_mono (n m : nat) (e : GoError) :
  (n ≤ m)%nat → allocated_below n e → allocated_below m e.
Proof. intros Hnm. induction e; cbn; auto. lia. Qed.

(** Two calls of [resource.Ignore] in a row, with what is printed between
    them. *)
Lemma Observe_fails_run (e : Controller.external) (cr : V1alpha1.RedisInstance)
    (w w1 : World) (resp : option SDK.DBInstanceAttribute)
    (conn : option Redis.RedisConnection) (x : GoError) :
  let id := Controller.GetExternalName cr in
  id ≠ "" →
  Controller.DescribeInstance (Controller.redisClient e) id
    (mkWorld (next_addr w) (trace w ++ [ClientDescribeInstance id]))
  = Returns ((resp, conn, Some x), w1) →
  allocated_below (next_addr w1) x →
  ∃ n,
    Controller.Observe e (V1alpha1.IsRedisInstance cr) w
    = Returns ((V1alpha1.IsRedisInstance cr, Controller.noObservation,
                if not_found x then None
                else Some (EWrap x "cannot describe redis instance")),
               mkWorld n
                 (trace w1 ++ [Print (Error x +:+ (if not_found x then "<nil>" else Error x))])).
Proof.
  intros id Hid Hd Ha.
  destruct (not_found x) eqn:Hnf;
    (destruct (Ignore_run (Some x) w1) as (n1 & Hn1 & H1); [by intros ? [= <-]|];
     rewrite Hnf in H1;
     match goal with
     | |- ∃ n, _ = Returns (_, mkWorld n ?t) =>
         destruct (Ignore_run (Some x) (mkWorld n1 t)) as (n2 & _ & H2);
         [intros ? [= <-]; cbn; by eapply allocated_below_mono|]
     end;
     rewrite Hnf in H2; exists n2; unfold Controller.Observe; fold id;
     destruct (String.eqb_spec id ""); [contradiction|];
     unfold mbind at 1; unfold M_bind at 1; cbn [emit];
     unfold mbind at 1; unfold M_bind at 1; rewrite Hd;
     unfold mbind at 1; unfold M_bind at 1; rewrite H1;
     unfold mbind at 1; unfold M_bind at 1;
     cbn [emit trace next_addr Controller.show_error];
     unfold mbind at 1; unfold M_bind at 1; rewrite H2; reflexivity).
Qed.

(** X4.  When [DescribeInstance] fails, [Observe] leaves the resource as it was
    and reports nothing about it. An error in which [IsErrorNotFound] finds the
    "not found" code of the vendor is dropped: [Observe] then returns the zero
    observation, in which the resource does not exist, and no error. Every other
    error comes back wrapped with "cannot describe redis instance". Either way
    the error is printed once, followed by what is left of it. *)
Theorem Observe_describe_fails (e : Controller.external) (cr : V1alpha1.RedisInstance)
    (w w1 : World) (resp : option SDK.DBInstanceAttribute)
    (conn : option Redis.RedisConnection) (x : GoError) :
  let id := Controller.GetExternalName cr in
  id ≠ "" →
  Controller.DescribeInstance (Controller.redisClient e) id
    (mkWorld (next_addr w) (trace w ++ [ClientDescribeInstance id]))
  = Returns ((resp, conn, Some x), w1) →
  allocated_below (next_addr w1) x →
  ∃ result w2,
    Controller.Observe e (V1alpha1.IsRedisInstance cr) w
    = Returns ((V1alpha1.IsRedisInstance cr,
                {| Controller.ResourceExists := false;
                   Controller.ResourceUpToDate := false;
                   Controller.ConnectionDetails := ∅ |},
                result), w2) ∧
    (∀ s, As x = Some s → SDK.errorCode s = "InvalidInstanceId.NotFound" →
          result = None ∧ events w1 w2 = [Print (Error x +:+ "<nil>")]) ∧
    ((∀ s, As x = Some s → SDK.errorCode s ≠ "InvalidInstanceId.NotFound") →
       result = Some (EWrap x "cannot describe redis instance") ∧
       events w1 w2 = [Print (Error x +:+ Error x)]).
Proof.
  intros id Hid Hd Ha.
  destruct (Observe_fails_run e cr w w1 resp conn x Hid Hd Ha) as (n & Hrun).
  eexists _, _. split; [exact Hrun|]. rewrite events_app. split.
  - intros s Hs Hc. unfold not_found. rewrite Hs.
    apply String.eqb_eq in Hc. unfold Redis.errInstanceNotFoundCode. by rewrite Hc.
  - intros Hx.
    assert (Hnf : not_found x = false).
    { unfold not_found. destruct (As x) as [s|]; [|reflexivity].
      apply String.eqb_neq. by apply Hx. }
    by rewrite Hnf.
Qed.

(** The client of the tests fails for an instance it does not know. *)
Lemma Observe_describe_fails_witness :
  ∃ w2,
    Controller.Observe {| Controller.redisClient := Sample.fakeRedisClient |}
      (V1alpha1.IsRedisInstance
         (Sample.instance "otherId" "" (Sample.parameters "" "" None [] "" "")))
      Sample.world
    = Returns ((V1alpha1.IsRedisInstance
                  (Sample.instance "otherId" "" (Sample.parameters "" "" None [] "" "")),
                Controller.noObservation,
                Some (EWrap (EFundamental 0 "DescribeRedisInstance: client doesn't work")
                        "cannot describe redis instance")), w2).
Proof.
  destruct (Observe_describe_fails {| Controller.redisClient := Sample.fakeRedisClient |}
              (Sample.instance "otherId" "" (Sample.parameters "" "" None [] "" ""))
              Sample.world (mkWorld 1 [ClientDescribeInstance "otherId"]) None None
              (EFundamental 0 "DescribeRedisInstance: client doesn't work"))
    as (result & w2 & Hrun & _ & Hother).
  - vm_compute. discriminate.
  - reflexivity.
  - cbn. lia.
  - exists w2. rewrite Hrun. destruct Hother as [-> _]; [|reflexivity].
    intros s. discriminate.
Defined.

(** ** Observe through the adapter *)

Lemma DescribeInstance_error_run (c : Redis.client) (id : string) (w : World)
    (response : SDK.DescribeInstanceAttributeResponse) (e : GoError) :
  let request := {| SDK.describe_Scheme := "https"; SDK.describe_InstanceId := id |} in
  Redis.DescribeInstanceAttribute (Redis.redisCli c) request = (response, Some e) →
  Redis.DescribeInstance c id w
  = Returns ((None, None, Wrap (scrubbed (Some e)) "cannot describe instance attributes"),
             mkWorld (next_addr w) (trace w ++ [SDKDescribeInstanceAttribute request])).
Proof.
  intros request Hv. unfold Redis.DescribeInstance, Redis.HTTPSScheme. fold request.
  unfold mbind at 1. unfold M_bind at 1. cbn [emit]. rewrite Hv.
  unfold mbind, M_bind. rewrite lift_CleanError. reflexivity.
Qed.

Lemma DescribeInstance_empty_run (c : Redis.client) (id : string) (w : World)
    (response : SDK.DescribeInstanceAttributeResponse) :
  let request := {| SDK.describe_Scheme := "https"; SDK.describe_InstanceId := id |} in
  Redis.DescribeInstanceAttribute (Redis.redisCli c) request = (response, None) →
  SDK.Instances response = [] →
  Redis.DescribeInstance c id w
  = Returns ((None, None, Some (EFundamental (next_addr w) "InstanceNotFound")),
             mkWorld (S (next_addr w)) (trace w ++ [SDKDescribeInstanceAttribute request])).
Proof.
  intros request Hv Hnone. unfold Redis.DescribeInstance, Redis.HTTPSScheme. fold request.
  run_M. rewrite Hv, Hnone. reflexivity.
Qed.

Lemma DescribeInstance_first_run (c : Redis.client) (id : string) (w : World)
    (response : SDK.DescribeInstanceAttributeResponse)
    (attr : SDK.DBInstanceAttribute) (others : list SDK.DBInstanceAttribute) :
  let request := {| SDK.describe_Scheme := "https"; SDK.describe_InstanceId := id |} in
  Redis.DescribeInstanceAttribute (Redis.redisCli c) request = (response, None) →
  SDK.Instances response = attr :: others →
  Redis.DescribeInstance c id w
  = Returns ((Some attr,
              Some {| Redis.Username := ""; Redis.Password := "";
                      Redis.ConnectionDomain := SDK.ConnectionDomain attr;
                      Redis.Port := Itoa (SDK.Port attr) |},
              None),
             mkWorld (next_addr w) (trace w ++ [SDKDescribeInstanceAttribute request])).
Proof.
  intros request Hv Hsome. unfold Redis.DescribeInstance, Redis.HTTPSScheme. fold request.
  run_M. rewrite Hv, Hsome. reflexivity.
Qed.

(** X5.  Through the adapter, the two ways in which the vendor says that an
    instance is gone are observed differently. A server error with the code
    "InvalidInstanceId.NotFound" is dropped: [Observe] reports, with no error,
    that the resource does not exist. A description that lists no instance makes
    [Observe] fail with "cannot describe redis instance: InstanceNotFound". *)
Theorem Observe_adapter_instance_gone (c : Redis.client) (cr : V1alpha1.RedisInstance)
    (w : World) (response : SDK.DescribeInstanceAttributeResponse) :
  let id := Controller.GetExternalName cr in
  let request := {| SDK.describe_Scheme := "https"; SDK.describe_InstanceId := id |} in
  let e := {| Controller.redisClient := Controller.adapter c |} in
  let nothing := {| Controller.ResourceExists := false;
                    Controller.ResourceUpToDate := false;
                    Controller.ConnectionDetails := ∅ |} in
  id ≠ "" →
  (∀ s, Redis.DescribeInstanceAttribute (Redis.redisCli c) request
        = (response, Some (EServer s)) →
        SDK.errorCode s = "InvalidInstanceId.NotFound" →
        ∃ w', Controller.Observe e (V1alpha1.IsRedisInstance cr) w
              = Returns ((V1alpha1.IsRedisInstance cr, nothing, None), w')) ∧
  (Redis.DescribeInstanceAttribute (Redis.redisCli c) request = (response, None) →
   SDK.Instances response = [] →
   ∃ err w', Controller.Observe e (V1alpha1.IsRedisInstance cr) w
             = Returns ((V1alpha1.IsRedisInstance cr, nothing, Some err), w') ∧
             Error err = "cannot describe redis instance: InstanceNotFound").
Proof.
  intros id request e nothing Hid. split.
  - intros s Hv Hc.
    pose proof (DescribeInstance_error_run c id
                  (mkWorld (next_addr w) (trace w ++ [ClientDescribeInstance id]))
                  response (EServer s) Hv) as Hd.
    cbn [scrubbed Wrap] in Hd.
    destruct (Observe_fails_run e cr w _ _ _ _ Hid Hd I) as (n & Hrun).
    eexists. rewrite Hrun. unfold not_found. cbn [As SDK.errorCode].
    unfold Redis.errInstanceNotFoundCode. rewrite Hc. reflexivity.
  - intros Hv Hnone.
    pose proof (DescribeInstance_empty_run c id
                  (mkWorld (next_addr w) (trace w ++ [ClientDescribeInstance id]))
                  response Hv Hnone) as Hd.
    destruct (Observe_fails_run e cr w _ _ _ _ Hid Hd) as (n & Hrun).
    { cbn. lia. }
    eexists _, _. split; [exact Hrun|]. reflexivity.
Qed.

(** The vendor of the samples answers for an unknown instance that it is not
    found. *)
Lemma Observe_adapter_instance_gone_witness :
  ∃ w',
    Controller.Observe
      (Sample.external
         (SDK.mkServerError 404 "REQ-7" "" "InvalidInstanceId.NotFound" "" "gone" ""))
      (V1alpha1.IsRedisInstance
         (Sample.instance "goneId" "Normal" (Sample.parameters "" "" None [] "" "")))
      Sample.world
    = Returns ((V1alpha1.IsRedisInstance
                  (Sample.instance "goneId" "Normal" (Sample.parameters "" "" None [] "" "")),
                Controller.noObservation, None), w').
Proof.
  refine (proj1 (Observe_adapter_instance_gone
                   (Sample.client
                      (SDK.mkServerError 404 "REQ-7" "" "InvalidInstanceId.NotFound" "" "gone" ""))
                   (Sample.instance "goneId" "Normal" (Sample.parameters "" "" None [] "" ""))
                   Sample.world {| SDK.Instances := [] |} _)
                (SDK.mkServerError 404 "REQ-7" "" "InvalidInstanceId.NotFound" "" "gone" "")
                _ _).
  - vm_compute. discriminate.
  - reflexivity.
  - reflexivity.
Defined.

Lemma Itoa_nonempty (z : Z) : Itoa z ≠ "".
Proof.
  destruct z as [|p|p]; cbn; try discriminate.
  destruct (to_uint_head p) as (c & r & -> & _). discriminate.
Qed.

Lemma Observe_succeeds_run (e : Controller.external) (cr : V1alpha1.RedisInstance)
    (w w' : World) (attr : SDK.DBInstanceAttribute) (conn : Redis.RedisConnection) :
  let id := Controller.GetExternalName cr in
  id ≠ "" →
  Controller.DescribeInstance (Controller.redisClient e) id
    (mkWorld (next_addr w) (trace w ++ [ClientDescribeInstance id]))
  = Returns ((Some attr, Some conn, None), w') →
  Controller.Observe e (V1alpha1.IsRedisInstance cr) w
  = Returns ((V1alpha1.IsRedisInstance
                (Controller.setCondition
                   (Controller.setAtProvider cr (Redis.GenerateObservation attr))
                   (ready_condition (SDK.InstanceStatus attr))),
              {| Controller.ResourceExists := true;
                 Controller.ResourceUpToDate := true;
                 Controller.ConnectionDetails := Controller.getConnectionDetails conn |},
              None), w').
Proof.
  intros id Hid Hd. unfold Controller.Observe. fold id.
  destruct (String.eqb_spec id ""); [contradiction|].
  unfold mbind at 1. unfold M_bind at 1. cbn [emit].
  unfold mbind at 1. unfold M_bind at 1. rewrite Hd.
  unfold ready_condition.
  cbn [Controller.setAtProvider V1alpha1.AtProvider Redis.GenerateObservation
       V1alpha1.InstanceStatus].
  repeat match goal with |- context [if ?b then _ else _] => destruct b end;
    reflexivity.
Qed.

(** X6.  Through the adapter, the connection details of an observed instance
    hold its port, which is never empty, its endpoint unless the connection
    domain is empty, and nothing else: no user name and no password. The vendor
    is asked once, and the first instance of its answer is the one observed. *)
Theorem Observe_adapter_details (c : Redis.client) (cr : V1alpha1.RedisInstance)
    (w : World) (response : SDK.DescribeInstanceAttributeResponse)
    (attr : SDK.DBInstanceAttribute) (others : list SDK.DBInstanceAttribute) :
  let id := Controller.GetExternalName cr in
  let request := {| SDK.describe_Scheme := "https"; SDK.describe_InstanceId := id |} in
  id ≠ "" →
  Redis.DescribeInstanceAttribute (Redis.redisCli c) request = (response, None) →
  SDK.Instances response = attr :: others →
  ∃ cr' details w',
    Controller.Observe {| Controller.redisClient := Controller.adapter c |}
      (V1alpha1.IsRedisInstance cr) w
    = Returns ((V1alpha1.IsRedisInstance cr',
                {| Controller.ResourceExists := true;
                   Controller.ResourceUpToDate := true;
                   Controller.ConnectionDetails := details |},
                None), w') ∧
    events w w' = [ClientDescribeInstance id; SDKDescribeInstanceAttribute request] ∧
    V1alpha1.AtProvider cr' = Redis.GenerateObservation attr ∧
    details !! "port" = Some (Itoa (SDK.Port attr)) ∧
    Itoa (SDK.Port attr) ≠ "" ∧
    details !! "endpoint"
    = (if decide (SDK.ConnectionDomain attr = "") then None
       else Some (SDK.ConnectionDomain attr)) ∧
    (∀ k, k ≠ "port" → k ≠ "endpoint" → details !! k = None).
Proof.
  intros id request Hid Hv Hsome.
  pose proof (DescribeInstance_first_run c id
                (mkWorld (next_addr w) (trace w ++ [ClientDescribeInstance id]))
                response attr others Hv Hsome) as Hd.
  eexists _, _, _. split.
  { apply (Observe_succeeds_run {| Controller.redisClient := Controller.adapter c |}
             cr w _ attr _ Hid Hd). }
  pose proof (Itoa_nonempty (SDK.Port attr)) as Hport.
  split_and!.
  - cbn [trace]. rewrite <- app_assoc. apply events_app.
  - reflexivity.
  - unfold Controller.getConnectionDetails. cbn.
    destruct (String.eqb_spec (Itoa (SDK.Port attr)) ""); [contradiction|].
    destruct (String.eqb_spec (SDK.ConnectionDomain attr) ""); cbn;
      by simplify_map_eq.
  - exact Hport.
  - unfold Controller.getConnectionDetails. cbn.
    destruct (String.eqb_spec (Itoa (SDK.Port attr)) ""); [contradiction|].
    destruct (String.eqb_spec (SDK.ConnectionDomain attr) ""); cbn;
      destruct (decide _); try contradiction; by simplify_map_eq.
  - intros k Hk1 Hk2. unfold Controller.getConnectionDetails. cbn.
    destruct (String.eqb (Itoa (SDK.Port attr)) "");
      destruct (String.eqb (SDK.ConnectionDomain attr) ""); cbn;
      by simplify_map_eq.
Qed.

(** The instance "testId" of the sample vendor. *)
Lemma Observe_adapter_details_witness :
  ∃ cr' w',
    Controller.Observe (Sample.external Sample.throttled)
      (V1alpha1.IsRedisInstance
         (Sample.instance "testId" "" (Sample.parameters "" "" None [] "" "")))
      Sample.world
    = Returns ((V1alpha1.IsRedisInstance cr',
                {| Controller.ResourceExists := true;
                   Controller.ResourceUpToDate := true;
                   Controller.ConnectionDetails :=
                     <["endpoint" := "172.0.0.1"]> {[ "port" := "8080" ]} |},
                None), w').
Proof.
  destruct (Observe_adapter_details (Sample.client Sample.throttled)
              (Sample.instance "testId" "" (Sample.parameters "" "" None [] "" ""))
              Sample.world
              {| SDK.Instances := [Sample.attribute "Normal" "standard" "c" "c" 0 "" ""] |}
              (Sample.attribute "Normal" "standard" "c" "c" 0 "" "") [])
    as (cr' & details & w' & Hrun & _).
  - vm_compute. discriminate.
  - reflexivity.
  - reflexivity.
  - exists cr', w'. unfold Sample.external. rewrite Hrun.
    vm_compute in Hrun. injection Hrun as _ <- _. reflexivity.
Defined.

(** ** The condition of an observed instance *)

Lemma same_type_eq (a b : V1alpha1.ConditionType) : V1alpha1.same_type a b = true ↔ a = b.
Proof. destruct a, b; cbn; split; congruence. Qed.

Lemma SetConditions_spec (cs : list V1alpha1.Condition) (new : V1alpha1.Condition) :
  new ∈ V1alpha1.SetConditions cs new ∧
  (∀ c, c ∈ V1alpha1.SetConditions cs new →
        V1alpha1.cond_Type c = V1alpha1.cond_Type new → c = new) ∧
  (∀ c, V1alpha1.cond_Type c ≠ V1alpha1.cond_Type new →
        c ∈ V1alpha1.SetConditions cs new ↔ c ∈ cs).
Proof.
  unfold V1alpha1.SetConditions.
  destruct (existsb _ cs) eqn:E.
  - apply existsb_exists in E as (c0 & Hin & Hty). apply list_elem_of_In in Hin.
    split_and!.
    + apply list_elem_of_fmap. exists c0. by rewrite Hty.
    + intros c (c1 & -> & _)%list_elem_of_fmap Hc. revert Hc.
      destruct (V1alpha1.same_type (V1alpha1.cond_Type c1) _) eqn:E1; [reflexivity|].
      intros Hc%same_type_eq. congruence.
    + intros c Hc. rewrite list_elem_of_fmap. split.
      * intros (c1 & -> & H1). revert Hc.
        destruct (V1alpha1.same_type (V1alpha1.cond_Type c1) _) eqn:E1;
          [congruence | done].
      * intros H1. exists c. split; [|assumption].
        destruct (V1alpha1.same_type (V1alpha1.cond_Type c) _) eqn:E1; [|reflexivity].
        by apply same_type_eq in E1.
  - assert (Hnone : ∀ c, c ∈ cs → V1alpha1.cond_Type c ≠ V1alpha1.cond_Type new).
    { intros c Hin%list_elem_of_In Hc.
      assert (existsb (λ c, V1alpha1.same_type (V1alpha1.cond_Type c)
                              (V1alpha1.cond_Type new)) cs = true); [|congruence].
      apply existsb_exists. exists c. split; [assumption | by apply same_type_eq]. }
    split_and!.
    + set_solver.
    + intros c [Hc | ->%list_elem_of_singleton]%elem_of_app Hty; [|reflexivity].
      by destruct (Hnone c Hc).
    + intros c Hc. rewrite elem_of_app, list_elem_of_singleton. split; [|tauto].
      intros [?| ->]; [assumption | contradiction].
Qed.

(** X7.  After an instance has been described, [Observe] has stored its
    observation in the resource and set its condition of type Ready from the
    observed status: Available for "Normal", Creating for "Creating", Deleting
    for "Flushing", and Unavailable for every other status. That condition is
    the only one of its type the resource then has; the conditions of another
    type, the desired state and the annotations are left as they were. *)
Theorem Observe_sets_ready_condition (e : Controller.external)
    (cr : V1alpha1.RedisInstance) (w w' : World) (attr : SDK.DBInstanceAttribute)
    (conn : Redis.RedisConnection) :
  let id := Controller.GetExternalName cr in
  let status := SDK.InstanceStatus attr in
  id ≠ "" →
  Controller.DescribeInstance (Controller.redisClient e) id
    (mkWorld (next_addr w) (trace w ++ [ClientDescribeInstance id]))
  = Returns ((Some attr, Some conn, None), w') →
  ∃ cr' obs ready,
    Controller.Observe e (V1alpha1.IsRedisInstance cr) w
    = Returns ((V1alpha1.IsRedisInstance cr', obs, None), w') ∧
    (status = "Normal" → ready = V1alpha1.Available) ∧
    (status = "Creating" → ready = V1alpha1.Creating) ∧
    (status = "Flushing" → ready = V1alpha1.Deleting) ∧
    (status ≠ "Normal" → status ≠ "Creating" → status ≠ "Flushing" →
     ready = V1alpha1.Unavailable) ∧
    V1alpha1.InstanceStatus (V1alpha1.AtProvider cr') = status ∧
    ready ∈ V1alpha1.Conditions cr' ∧
    (∀ c, c ∈ V1alpha1.Conditions cr' →
          V1alpha1.cond_Type c = V1alpha1.TypeReady → c = ready) ∧
    (∀ c, V1alpha1.cond_Type c ≠ V1alpha1.TypeReady →
          c ∈ V1alpha1.Conditions cr' ↔ c ∈ V1alpha1.Conditions cr) ∧
    V1alpha1.ForProvider cr' = V1alpha1.ForProvider cr ∧
    V1alpha1.Annotations cr' = V1alpha1.Annotations cr.
Proof.
  intros id status Hid Hd.
  eexists _, _, (ready_condition status). split.
  { apply (Observe_succeeds_run e cr w w' attr conn Hid Hd). }
  assert (Hty : V1alpha1.cond_Type (ready_condition status) = V1alpha1.TypeReady).
  { unfold ready_condition.
    repeat match goal with |- context [if ?b then _ else _] => destruct b end;
      reflexivity. }
  destruct (SetConditions_spec (V1alpha1.Conditions cr) (ready_condition status))
    as (Hin & Huniq & Hrest).
  rewrite Hty in Huniq, Hrest.
  unfold ready_condition, V1alpha1.RedisInstanceStateRunning,
    V1alpha1.RedisInstanceStateCreating, V1alpha1.RedisInstanceStateDeleting.
  split_and!; try done.
  - by intros ->.
  - by intros ->.
  - by intros ->.
  - intros H1 H2 H3.
    destruct (String.eqb_spec status "Normal"); [contradiction|].
    destruct (String.eqb_spec status "Creating"); [contradiction|].
    destruct (String.eqb_spec status "Flushing"); [contradiction|]. reflexivity.
Qed.

(** An instance that is being flushed, with an older condition of either
    type. *)
Lemma Observe_sets_ready_condition_witness :
  ∃ cr' obs w',
    Controller.Observe
      {| Controller.redisClient :=
           {| Controller.DescribeInstance := λ id,
                mret (Some (Sample.attribute "Flushing" "" "" "" 0 "" ""),
                      Some {| Redis.Username := ""; Redis.Password := "";
                              Redis.ConnectionDomain := ""; Redis.Port := "6379" |},
                      None);
              Controller.DeleteInstance := λ id, mret None |} |}
      (V1alpha1.IsRedisInstance
         {| V1alpha1.Name := "n"; V1alpha1.Annotations := {[ "crossplane.io/external-name" := "id" ]};
            V1alpha1.ForProvider := Sample.parameters "" "" None [] "" "";
            V1alpha1.AtProvider := Redis.GenerateObservation
                                     (Sample.attribute "Normal" "" "" "" 0 "" "");
            V1alpha1.Conditions :=
              [V1alpha1.Available;
               {| V1alpha1.cond_Type := V1alpha1.TypeSynced;
                  V1alpha1.cond_Status := V1alpha1.ConditionTrue;
                  V1alpha1.cond_Reason := "ReconcileSuccess" |}] |})
      Sample.world
    = Returns ((V1alpha1.IsRedisInstance cr', obs, None), w') ∧
    V1alpha1.Conditions cr'
    = [V1alpha1.Deleting;
       {| V1alpha1.cond_Type := V1alpha1.TypeSynced;
          V1alpha1.cond_Status := V1alpha1.ConditionTrue;
          V1alpha1.cond_Reason := "ReconcileSuccess" |}].
Proof.
  edestruct (Observe_sets_ready_condition
              {| Controller.redisClient :=
                   {| Controller.DescribeInstance := λ id,
                        mret (Some (Sample.attribute "Flushing" "" "" "" 0 "" ""),
                              Some {| Redis.Username := ""; Redis.Password := "";
                                      Redis.ConnectionDomain := ""; Redis.Port := "6379" |},
                              None);
                      Controller.DeleteInstance := λ id, mret None |} |}
              {| V1alpha1.Name := "n";
                 V1alpha1.Annotations := {[ "crossplane.io/external-name" := "id" ]};
                 V1alpha1.ForProvider := Sample.parameters "" "" None [] "" "";
                 V1alpha1.AtProvider := Redis.GenerateObservation
                                          (Sample.attribute "Normal" "" "" "" 0 "" "");
                 V1alpha1.Conditions :=
                   [V1alpha1.Available;
                    {| V1alpha1.cond_Type := V1alpha1.TypeSynced;
                       V1alpha1.cond_Status := V1alpha1.ConditionTrue;
                       V1alpha1.cond_Reason := "ReconcileSuccess" |}] |}
              Sample.world)
    as (cr' & obs & ready & Hrun & _).
  - vm_compute. discriminate.
  - reflexivity.
  - exists cr', obs. eexists. split; [exact Hrun|].
    vm_compute in Hrun. injection Hrun as <- _. reflexivity.
Defined.

(** ** Create *)

Lemma Create_run (c : Controller.Writer) (k : Controller.KubeClient)
    (cr cr1 : V1alpha1.RedisInstance) (w w1 : World) (err : error) :
  Controller.StatusUpdate k (Controller.setCondition cr V1alpha1.Creating) w
  = Returns ((cr1, err), w1) →
  Controller.Create c k (V1alpha1.IsRedisInstance cr) w
  = match err with
    | Some x =>
        Returns ((V1alpha1.IsRedisInstance cr1, Controller.noCreation,
                  Some (EWrap x "failed to update CR status")), w1)
    | None =>
        match Controller.CreateInstance c (V1alpha1.Name cr1) (V1alpha1.ForProvider cr1) w1 with
        | Returns ((resp, conn, Some x), w2) =>
            Returns ((V1alpha1.IsRedisInstance cr1, Controller.noCreation,
                      Some (EWrap x "cannot create redis instance")), w2)
        | Returns ((resp, conn, None), w2) =>
            match resp, conn with
            | Some resp, Some conn =>
                Returns ((V1alpha1.IsRedisInstance
                            (Controller.SetExternalName cr1 (SDK.resp_InstanceId resp)),
                          {| Controller.creation_ConnectionDetails :=
                               Controller.getConnectionDetails conn |},
                          None), w2)
            | _, _ => Panics "invalid memory address or nil pointer dereference"
            end
        | Panics msg => Panics msg
        end
    end.
Proof.
  intros Hk. unfold Controller.Create.
  unfold mbind at 1. unfold M_bind at 1. rewrite Hk.
  destruct err as [x|]; [reflexivity|].
  unfold mbind at 1. unfold M_bind at 1.
  destruct (Controller.CreateInstance c _ _ w1) as [[[[resp conn] [x|]] w2]|msg];
    try reflexivity; destruct resp, conn; reflexivity.
Qed.

(** X8.  [Create] marks the resource as being created and writes its status
    first. When that write fails, the client is not asked to create anything,
    whatever client it is, and the error comes back wrapped with "failed to
    update CR status". When the client fails to create the instance, its error
    comes back wrapped with "cannot create redis instance" and the resource is
    as the status write left it. When the client succeeds, the instance ID of
    its response becomes the external name of the resource, and the connection
    details are those of the connection it returned. *)
Theorem Create_sets_external_name (c : Controller.Writer) (k : Controller.KubeClient)
    (cr cr1 : V1alpha1.RedisInstance) (w w1 : World) (err : error) :
  Controller.StatusUpdate k (Controller.setCondition cr V1alpha1.Creating) w
  = Returns ((cr1, err), w1) →
  (∀ x, err = Some x →
     Controller.Create c k (V1alpha1.IsRedisInstance cr) w
     = Returns ((V1alpha1.IsRedisInstance cr1, Controller.noCreation,
                 Some (EWrap x "failed to update CR status")), w1)) ∧
  (err = None →
   ∀ resp conn x w2,
     Controller.CreateInstance c (V1alpha1.Name cr1) (V1alpha1.ForProvider cr1) w1
     = Returns ((resp, conn, Some x), w2) →
     Controller.Create c k (V1alpha1.IsRedisInstance cr) w
     = Returns ((V1alpha1.IsRedisInstance cr1, Controller.noCreation,
                 Some (EWrap x "cannot create redis instance")), w2)) ∧
  (err = None →
   ∀ resp conn w2,
     Controller.CreateInstance c (V1alpha1.Name cr1) (V1alpha1.ForProvider cr1) w1
     = Returns ((Some resp, Some conn, None), w2) →
     ∃ cr',
       Controller.Create c k (V1alpha1.IsRedisInstance cr) w
       = Returns ((V1alpha1.IsRedisInstance cr',
                   {| Controller.creation_ConnectionDetails :=
                        Controller.getConnectionDetails conn |},
                   None), w2) ∧
       Controller.GetExternalName cr' = SDK.resp_InstanceId resp ∧
       V1alpha1.ForProvider cr' = V1alpha1.ForProvider cr1 ∧
       V1alpha1.Conditions cr' = V1alpha1.Conditions cr1).
Proof.
  intros Hk. rewrite (Create_run c k cr cr1 w w1 err Hk). split_and!.
  - by intros x ->.
  - intros -> resp conn x w2 ->. reflexivity.
  - intros -> resp conn w2 ->. eexists. split_and!; try reflexivity.
    unfold Controller.GetExternalName, Controller.SetExternalName. cbn.
    by rewrite lookup_insert_eq.
Qed.

(** The status cannot be written: the world is left as it was, and no create
    request was made. *)
Lemma Create_sets_external_name_witness :
  Controller.Create (Controller.writer (Sample.client Sample.throttled) Sample.untouchable)
    (Sample.kube (Some (EOther "conflict")))
    (V1alpha1.IsRedisInstance
       (Sample.instance "" "" (Sample.parameters "" "c" None [] "" "")))
    Sample.world
  = Returns ((V1alpha1.IsRedisInstance
                (Controller.setCondition
                   (Sample.instance "" "" (Sample.parameters "" "c" None [] "" ""))
                   V1alpha1.Creating),
              Controller.noCreation,
              Some (EWrap (EOther "conflict") "failed to update CR status")),
             Sample.world).
Proof.
  refine (proj1 (Create_sets_external_name _ (Sample.kube (Some (EOther "conflict")))
                   (Sample.instance "" "" (Sample.parameters "" "c" None [] "" ""))
                   _ Sample.world Sample.world (Some (EOther "conflict")) _) _ _).
  - reflexivity.
  - reflexivity.
Defined.

(** The password [CreateInstance] ends with: the generated one when none is
    desired, and the empty string when one is. *)
Lemma CreateInstance_succeeds_run (c : Redis.client) (name : string)
    (p : V1alpha1.RedisInstanceParameters) (pw : string)
    (resp : SDK.CreateInstanceResponse) (w : World) :
  (V1alpha1.Password p ≠ "" ∧ pw = "") ∨
  (V1alpha1.Password p = "" ∧ Redis.password_Generate c = (pw, None)) →
  Redis.sdk_CreateInstance (Redis.redisCli c) (Redis.createRequest name p pw) = (resp, None) →
  Redis.CreateInstance c name p w
  = Returns ((Some resp,
              Some {| Redis.Username := SDK.resp_InstanceId resp;
                      Redis.Password := pw;
                      Redis.ConnectionDomain := SDK.resp_ConnectionDomain resp;
                      Redis.Port := Itoa (SDK.resp_Port resp) |},
              None),
             mkWorld (next_addr w)
               (trace w ++ (if decide (V1alpha1.Password p = "") then [PasswordGenerate] else [])
                        ++ [SDKCreateInstance (Redis.createRequest name p pw)])).
Proof.
  intros [[Hp ->] | [Hp Hg]] Hv.
  - rewrite (CreateInstance_supplied c name p w Hp).
    unfold created. rewrite Hv. destruct (decide _); [contradiction|]. reflexivity.
  - rewrite (CreateInstance_generated c name p pw w Hp Hg).
    unfold created. rewrite Hv. destruct (decide _); [|contradiction]. reflexivity.
Qed.

(** X9.  Through the adapter, a successful [Create] asks the vendor once and
    returns connection details with the instance ID as user name, the endpoint
    and the port of the response, and the password [CreateInstance] ends with.
    That password is the generated one when no password is desired; when one is
    desired it is the empty string, and the details hold no password. *)
Theorem Create_adapter_connection_details (c : Redis.client) (m : Redis.AliModifier)
    (k : Controller.KubeClient) (cr cr1 : V1alpha1.RedisInstance) (w w1 : World)
    (pw : string) (resp : SDK.CreateInstanceResponse) :
  let p := V1alpha1.ForProvider cr1 in
  let request := Redis.createRequest (V1alpha1.Name cr1) p pw in
  Controller.StatusUpdate k (Controller.setCondition cr V1alpha1.Creating) w
  = Returns ((cr1, None), w1) →
  (V1alpha1.Password p ≠ "" ∧ pw = "") ∨
  (V1alpha1.Password p = "" ∧ Redis.password_Generate c = (pw, None)) →
  Redis.sdk_CreateInstance (Redis.redisCli c) request = (resp, None) →
  ∃ cr' details w2,
    Controller.Create (Controller.writer c m) k (V1alpha1.IsRedisInstance cr) w
    = Returns ((V1alpha1.IsRedisInstance cr',
                {| Controller.creation_ConnectionDetails := details |}, None), w2) ∧
    Controller.GetExternalName cr' = SDK.resp_InstanceId resp ∧
    (∀ req, In (SDKCreateInstance req) (events w1 w2) → req = request) ∧
    In (SDKCreateInstance request) (events w1 w2) ∧
    details !! "username"
    = (if decide (SDK.resp_InstanceId resp = "") then None
       else Some (SDK.resp_InstanceId resp)) ∧
    details !! "password" = (if decide (pw = "") then None else Some pw) ∧
    (V1alpha1.Password p ≠ "" → details !! "password" = None) ∧
    details !! "endpoint"
    = (if decide (SDK.resp_ConnectionDomain resp = "") then None
       else Some (SDK.resp_ConnectionDomain resp)) ∧
    details !! "port" = Some (Itoa (SDK.resp_Port resp)).
Proof.
  intros p request Hk Hpw Hv.
  pose proof (CreateInstance_succeeds_run c (V1alpha1.Name cr1) p pw resp w1 Hpw Hv) as Hc.
  pose proof (Create_run (Controller.writer c m) k cr cr1 w w1 None Hk) as Hrun.
  cbn [Controller.CreateInstance Controller.writer] in Hrun. fold p in Hrun.
  rewrite Hc in Hrun.
  set (conn := {| Redis.Username := SDK.resp_InstanceId resp;
                  Redis.Password := pw;
                  Redis.ConnectionDomain := SDK.resp_ConnectionDomain resp;
                  Redis.Port := Itoa (SDK.resp_Port resp) |}) in *.
  pose proof (Itoa_nonempty (SDK.resp_Port resp)) as Hport.
  assert (Hdetails :
    Controller.getConnectionDetails conn !! "username"
    = (if decide (SDK.resp_InstanceId resp = "") then None
       else Some (SDK.resp_InstanceId resp)) ∧
    Controller.getConnectionDetails conn !! "password"
    = (if decide (pw = "") then None else Some pw) ∧
    Controller.getConnectionDetails conn !! "endpoint"
    = (if decide (SDK.resp_ConnectionDomain resp = "") then None
       else Some (SDK.resp_ConnectionDomain resp)) ∧
    Controller.getConnectionDetails conn !! "port" = Some (Itoa (SDK.resp_Port resp))).
  { unfold Controller.getConnectionDetails. cbn.
    destruct (String.eqb_spec (Itoa (SDK.resp_Port resp)) ""); [contradiction|].
    destruct (String.eqb_spec (SDK.resp_InstanceId resp) "");
      destruct (String.eqb_spec pw "");
      destruct (String.eqb_spec (SDK.resp_ConnectionDomain resp) ""); cbn;
      repeat destruct (decide _); try contradiction; by simplify_map_eq. }
  destruct Hdetails as (Hu & Hpass & He & Hpo).
  eexists _, (Controller.getConnectionDetails conn), _.
  split; [exact Hrun|].
  rewrite events_app.
  split_and!; try assumption.
  - unfold Controller.GetExternalName, Controller.SetExternalName. cbn.
    by rewrite lookup_insert_eq.
  - intros req. unfold request. destruct (decide _); cbn; intuition congruence.
  - unfold request. destruct (decide _); cbn; auto.
  - intros Hp. destruct Hpw as [[_ ->] | [Hp' _]]; [|contradiction].
    rewrite Hpass. reflexivity.
Qed.

(** A desired password: the connection details of the created instance hold
    none. *)
Lemma Create_adapter_connection_details_witness :
  ∃ cr' details w2,
    Controller.Create (Controller.writer (Sample.client Sample.throttled) Sample.untouchable)
      (Sample.kube None)
      (V1alpha1.IsRedisInstance
         (Sample.instance "" "" (Sample.parameters "hunter2A!" "redis.small" None [] "" "")))
      Sample.world
    = Returns ((V1alpha1.IsRedisInstance cr',
                {| Controller.creation_ConnectionDetails := details |}, None), w2) ∧
    Controller.GetExternalName cr' = "testId" ∧
    details !! "username" = Some "testId" ∧
    details !! "password" = None.
Proof.
  destruct (Create_adapter_connection_details (Sample.client Sample.throttled)
              Sample.untouchable (Sample.kube None)
              (Sample.instance "" "" (Sample.parameters "hunter2A!" "redis.small" None [] "" ""))
              (Controller.setCondition
                 (Sample.instance "" "" (Sample.parameters "hunter2A!" "redis.small" None [] "" ""))
                 V1alpha1.Creating)
              Sample.world Sample.world ""
              {| SDK.resp_InstanceId := "testId"; SDK.resp_ConnectionDomain := "172.0.0.1";
                 SDK.resp_Port := 8080 |})
    as (cr' & details & w2 & Hrun & Hname & _ & _ & Hu & _ & Hp & _).
  - reflexivity.
  - left. split; [vm_compute; discriminate | reflexivity].
  - reflexivity.
  - exists cr', details, w2. split_and!.
    + exact Hrun.
    + exact Hname.
    + exact Hu.
    + apply Hp. vm_compute. discriminate.
Defined.

(** ** Update *)

Lemma modifyInstanceSpec_run (m : Redis.AliModifier) (id : string)
    (req : Redis.ModifyRedisInstanceRequest) (w : World) :
  Redis.modifyInstanceSpec m id req w
  = match Redis.ModifyInstanceSpec m "https"
            {| SDK.spec_InstanceId := id; SDK.spec_EffectiveTime := "";
               SDK.spec_InstanceClass := Redis.InstanceClass req;
               SDK.spec_ReadOnlyCount := "" |} w with
    | Returns (err, w1) => Returns (scrubbed err, w1)
    | Panics msg => Panics msg
    end.
Proof.
  unfold Redis.modifyInstanceSpec, mbind, M_bind. cbn -[lift Redis.CleanError].
  destruct (Redis.ModifyInstanceSpec m _ _ w) as [[err w1]|msg]; [|reflexivity].
  apply lift_CleanError.
Qed.

Lemma scrubbed_None (err : error) : scrubbed err = None → err = None.
Proof. destruct err as [[]|]; cbn; congruence. Qed.

(** X10.  [UpdateInstance] returns no error only when the vendor has been asked
    to change the class of the instance, over https, and has answered without
    one: the return after its two tests is never reached, and cleaning does not
    make an error disappear. Without a class it fails before the vendor is
    asked, whatever the vendor is. *)
Theorem UpdateInstance_asks_vendor (m : Redis.AliModifier) (id : string)
    (req : Redis.ModifyRedisInstanceRequest) (w : World) :
  let request := {| SDK.spec_InstanceId := id; SDK.spec_EffectiveTime := "";
                    SDK.spec_InstanceClass := Redis.InstanceClass req;
                    SDK.spec_ReadOnlyCount := "" |} in
  (Redis.InstanceClass req = "" →
   Redis.UpdateInstance m id req w
   = Returns (Some (EFundamental (next_addr w) "modify instances spec is require"),
              mkWorld (S (next_addr w)) (trace w))) ∧
  (∀ w', Redis.UpdateInstance m id req w = Returns (None, w') →
         Redis.InstanceClass req ≠ "" ∧
         Redis.ModifyInstanceSpec m "https" request w = Returns (None, w')) ∧
  (Redis.InstanceClass req ≠ "" →
   ∀ err w1, Redis.ModifyInstanceSpec m "https" request w = Returns (err, w1) →
     ∃ cleaned, Redis.CleanError err = Returns cleaned ∧
                Redis.UpdateInstance m id req w = Returns (cleaned, w1)).
Proof.
  intros request. unfold Redis.UpdateInstance. split_and!.
  - intros ->. reflexivity.
  - intros w'. destruct (String.eqb_spec (Redis.InstanceClass req) ""); [discriminate|].
    cbn [negb]. rewrite modifyInstanceSpec_run. fold request.
    destruct (Redis.ModifyInstanceSpec m "https" request w) as [[err w1]|msg];
      [|discriminate].
    intros [= Hs ->]. apply scrubbed_None in Hs as ->. done.
  - intros Hc err w1 Hv. exists (scrubbed err). split; [apply CleanError_scrubbed|].
    destruct (String.eqb_spec (Redis.InstanceClass req) ""); [contradiction|].
    cbn [negb]. rewrite modifyInstanceSpec_run. fold request. by rewrite Hv.
Qed.

(** No class: the vendor that panics when called is not called. *)
Lemma UpdateInstance_asks_vendor_witness :
  Redis.UpdateInstance Sample.untouchable "testId" {| Redis.InstanceClass := "" |} Sample.world
  = Returns (Some (EFundamental 0 "modify instances spec is require"), mkWorld 1 []).
Proof.
  apply (proj1 (UpdateInstance_asks_vendor Sample.untouchable "testId"
                  {| Redis.InstanceClass := "" |} Sample.world)).
  reflexivity.
Defined.

(** X11.  [Update] marks the resource as being created and hands the desired
    class to [UpdateInstance] under the external name of the resource; the error
    of that call is returned as it is, not wrapped. Through the adapter, a
    resource without a desired class cannot be updated: the call fails before
    the vendor is asked. With a class the vendor is asked once, and its error
    comes back cleaned. *)
Theorem Update_adapter (c : Redis.client) (m : Redis.AliModifier)
    (cr : V1alpha1.RedisInstance) (w : World) :
  let class := V1alpha1.InstanceClass (V1alpha1.ForProvider cr) in
  let request := {| SDK.spec_InstanceId := Controller.GetExternalName cr;
                    SDK.spec_EffectiveTime := "";
                    SDK.spec_InstanceClass := class;
                    SDK.spec_ReadOnlyCount := "" |} in
  let cr' := Controller.setCondition cr V1alpha1.Creating in
  (class = "" →
   Controller.Update (Controller.writer c m) (V1alpha1.IsRedisInstance cr) w
   = Returns ((V1alpha1.IsRedisInstance cr', Controller.noUpdate,
               Some (EFundamental (next_addr w) "modify instances spec is require")),
              mkWorld (S (next_addr w)) (trace w))) ∧
  (class ≠ "" →
   ∀ err w1, Redis.ModifyInstanceSpec m "https" request w = Returns (err, w1) →
     ∃ cleaned, Redis.CleanError err = Returns cleaned ∧
                Controller.Update (Controller.writer c m) (V1alpha1.IsRedisInstance cr) w
                = Returns ((V1alpha1.IsRedisInstance cr', Controller.noUpdate, cleaned), w1)).
Proof.
  intros class request cr'. unfold Controller.Update.
  change (Controller.GetExternalName (Controller.setCondition cr V1alpha1.Creating))
    with (Controller.GetExternalName cr).
  cbn [Controller.UpdateInstance Controller.writer Controller.setCondition
       V1alpha1.ForProvider].
  fold class. unfold Redis.UpdateInstance. cbn [Redis.InstanceClass]. split.
  - intros ->. reflexivity.
  - intros Hc err w1 Hv. exists (scrubbed err). split; [apply CleanError_scrubbed|].
    destruct (String.eqb_spec class ""); [contradiction|]. cbn [negb].
    unfold mbind at 1. unfold M_bind at 1.
    rewrite modifyInstanceSpec_run. cbn [Redis.InstanceClass]. fold request.
    rewrite Hv. reflexivity.
Qed.

(** The vendor refuses the change of the class. *)
Lemma Update_adapter_witness :
  ∃ cleaned,
    Controller.Update
      (Controller.writer (Sample.client Sample.throttled)
         (Sample.modifier (Some (EServer Sample.throttled))))
      (V1alpha1.IsRedisInstance
         (Sample.instance "testId" "Normal" (Sample.parameters "" "redis.large" None [] "" "")))
      Sample.world
    = Returns ((V1alpha1.IsRedisInstance
                  (Controller.setCondition
                     (Sample.instance "testId" "Normal"
                        (Sample.parameters "" "redis.large" None [] "" ""))
                     V1alpha1.Creating),
                Controller.noUpdate, Some (EServer cleaned)), Sample.world) ∧
    SDK.errorCode cleaned = "Throttling" ∧ SDK.requestId cleaned = "".
Proof.
  destruct (proj2 (Update_adapter (Sample.client Sample.throttled)
                     (Sample.modifier (Some (EServer Sample.throttled)))
                     (Sample.instance "testId" "Normal"
                        (Sample.parameters "" "redis.large" None [] "" ""))
                     Sample.world))
    with (err := Some (EServer Sample.throttled)) (w1 := Sample.world)
    as (cleaned & Hc & Hrun).
  - vm_compute. discriminate.
  - reflexivity.
  - vm_compute in Hc. injection Hc as <-. eexists. split; [exact Hrun|]. done.
Defined.

(** ** From a detected drift to the request that reaches the vendor *)

Lemma SecurityIpsNeedUpdate_Some (attr : SDK.DBInstanceAttribute)
    (p : V1alpha1.RedisInstanceParameters) (req : SDK.ModifySecurityIpsRequest) :
  Redis.SecurityIpsNeedUpdate attr p = Some req →
  req = {| SDK.ips_InstanceId := ""; SDK.ips_SecurityIps := V1alpha1.SecurityIps p;
           SDK.ips_ModifyMode := "Cover" |}.
Proof.
  unfold Redis.SecurityIpsNeedUpdate.
  destruct (String.eqb _ ""); [discriminate|].
  destruct (existsb _ _); [|discriminate]. by intros [= <-].
Qed.

(** X12.  [ModifySecurityIps] applied to what [SecurityIpsNeedUpdate] returns.
    When an update is needed, the vendor is asked once to replace the list of
    the instance [id] by the whole desired list, in the mode "Cover"; the
    request comes back with the instance ID written into it, and the error of
    the vendor comes back cleaned. When no update is needed,
    [SecurityIpsNeedUpdate] returns nil, and [ModifySecurityIps] panics on it
    before the vendor is asked. *)
Theorem ModifySecurityIps_after_NeedUpdate (m : Redis.AliModifier) (id : string)
    (attr : SDK.DBInstanceAttribute) (p : V1alpha1.RedisInstanceParameters) (w : World) :
  let sent := {| SDK.ips_InstanceId := id; SDK.ips_SecurityIps := V1alpha1.SecurityIps p;
                 SDK.ips_ModifyMode := "Cover" |} in
  (Redis.SecurityIpsNeedUpdate attr p = None →
   Redis.ModifySecurityIps m id (Redis.SecurityIpsNeedUpdate attr p) w
   = Panics "invalid memory address or nil pointer dereference") ∧
  (Redis.SecurityIpsNeedUpdate attr p ≠ None →
   ∀ err w1, Redis.sdk_ModifySecurityIps m sent w = Returns (err, w1) →
     ∃ cleaned, Redis.CleanError err = Returns cleaned ∧
       Redis.ModifySecurityIps m id (Redis.SecurityIpsNeedUpdate attr p) w
       = Returns ((sent, cleaned), w1)).
Proof.
  intros sent. split.
  - intros ->. reflexivity.
  - intros Hsome err w1 Hv.
    destruct (Redis.SecurityIpsNeedUpdate attr p) as [req|] eqn:E; [|contradiction].
    apply SecurityIpsNeedUpdate_Some in E as ->.
    exists (scrubbed err). split; [apply CleanError_scrubbed|].
    unfold Redis.ModifySecurityIps. cbn [SDK.ips_SecurityIps SDK.ips_ModifyMode].
    fold sent. unfold mbind at 1. unfold M_bind at 1. rewrite Hv.
    unfold mbind, M_bind. rewrite lift_CleanError. reflexivity.
Qed.

(** The lists are the same: nothing to send, and sending it panics although
    the vendor would accept every request. *)
Lemma ModifySecurityIps_after_NeedUpdate_witness :
  Redis.ModifySecurityIps (Sample.modifier None) "testId"
    (Redis.SecurityIpsNeedUpdate
       (Sample.attribute "Normal" "standard" "c" "c" 0 "10.0.0.1" "")
       (Sample.parameters "" "c" None [] "10.0.0.1" ""))
    Sample.world
  = Panics "invalid memory address or nil pointer dereference".
Proof.
  apply (proj1 (ModifySecurityIps_after_NeedUpdate (Sample.modifier None) "testId"
                  (Sample.attribute "Normal" "standard" "c" "c" 0 "10.0.0.1" "")
                  (Sample.parameters "" "c" None [] "10.0.0.1" "") Sample.world)).
  reflexivity.
Defined.

(** X13.  [ModifyInstanceSpecs] applied to what [SpecsNeedUpdate] returns. A
    request that is not nil changes one thing: the class, or the number of
    read-only replicas, never both; it takes effect at the desired time.
    [ModifyInstanceSpecs] writes the instance ID into it, asks the vendor once
    and returns the error of the vendor cleaned. On nil it panics. *)
Theorem ModifyInstanceSpecs_after_NeedUpdate (m : Redis.AliModifier) (id : string)
    (attr : SDK.DBInstanceAttribute) (p : V1alpha1.RedisInstanceParameters) (w : World) :
  (Redis.SpecsNeedUpdate attr p = None →
   Redis.ModifyInstanceSpecs m id (Redis.SpecsNeedUpdate attr p) w
   = Panics "invalid memory address or nil pointer dereference") ∧
  (∀ req, Redis.SpecsNeedUpdate attr p = Some req →
     let sent := {| SDK.spec_InstanceId := id;
                    SDK.spec_EffectiveTime := V1alpha1.EffectiveTime p;
                    SDK.spec_InstanceClass := SDK.spec_InstanceClass req;
                    SDK.spec_ReadOnlyCount := SDK.spec_ReadOnlyCount req |} in
     ((SDK.spec_InstanceClass req = V1alpha1.InstanceClass p ∧
       SDK.spec_ReadOnlyCount req = "" ∧
       compared_class attr ≠ V1alpha1.InstanceClass p) ∨
      (SDK.spec_InstanceClass req = "" ∧
       compared_class attr = V1alpha1.InstanceClass p ∧
       ∃ n, V1alpha1.ReadOnlyCount p = Some n ∧ SDK.ReadOnlyCount attr ≠ n ∧
            SDK.spec_ReadOnlyCount req = Itoa n)) ∧
     ∀ err w1, Redis.ModifyInstanceSpec m "" sent w = Returns (err, w1) →
       ∃ cleaned, Redis.CleanError err = Returns cleaned ∧
         Redis.ModifyInstanceSpecs m id (Some req) w = Returns ((sent, cleaned), w1)).
Proof.
  split.
  - intros ->. reflexivity.
  - intros req Hreq sent.
    assert (Hshape :
      SDK.spec_EffectiveTime req = V1alpha1.EffectiveTime p ∧
      ((SDK.spec_InstanceClass req = V1alpha1.InstanceClass p ∧
        SDK.spec_ReadOnlyCount req = "" ∧
        compared_class attr ≠ V1alpha1.InstanceClass p) ∨
       (SDK.spec_InstanceClass req = "" ∧
        compared_class attr = V1alpha1.InstanceClass p ∧
        ∃ n, V1alpha1.ReadOnlyCount p = Some n ∧ SDK.ReadOnlyCount attr ≠ n ∧
             SDK.spec_ReadOnlyCount req = Itoa n))).
    { revert Hreq. unfold Redis.SpecsNeedUpdate, Redis.calculateSpecDiff, compared_class.
      cbn [SDK.CreateModifyInstanceSpecRequest SDK.spec_InstanceId SDK.spec_EffectiveTime
           SDK.spec_InstanceClass SDK.spec_ReadOnlyCount].
      assert (Het : (if String.eqb (V1alpha1.EffectiveTime p) "" then ""
                     else V1alpha1.EffectiveTime p) = V1alpha1.EffectiveTime p).
      { by destruct (String.eqb_spec (V1alpha1.EffectiveTime p) "") as [->|]. }
      rewrite Het.
      unfold Redis.RedisArchTypeCluster.
      destruct (decide (SDK.ArchitectureType attr = "cluster")) as [Ha|Ha];
        [apply String.eqb_eq in Ha as Ha' | apply String.eqb_neq in Ha as Ha'];
        rewrite Ha';
        (match goal with
         | |- context [String.eqb ?a ?b] => destruct (String.eqb_spec a b) as [Hc|Hc]
         end; cbn [negb];
         [ destruct (V1alpha1.ReadOnlyCount p) as [n|]; [|discriminate];
           destruct (Z.eqb_spec (SDK.ReadOnlyCount attr) n); [discriminate|];
           intros [= <-]; cbn; split; [reflexivity|]; right;
           split_and!; [reflexivity | assumption | eauto]
         | intros [= <-]; cbn; split; [reflexivity|]; left; done ]). }
    destruct Hshape as [Het Hshape]. split; [exact Hshape|].
    intros err w1 Hv. exists (scrubbed err). split; [apply CleanError_scrubbed|].
    unfold Redis.ModifyInstanceSpecs. rewrite Het. fold sent.
    unfold mbind at 1. unfold M_bind at 1. rewrite Hv.
    unfold mbind, M_bind. rewrite lift_CleanError. reflexivity.
Qed.

(** A cluster whose real class differs from the desired one. *)
Lemma ModifyInstanceSpecs_after_NeedUpdate_witness :
  Redis.ModifyInstanceSpecs (Sample.modifier None) "testId"
    (Some {| SDK.spec_InstanceId := ""; SDK.spec_EffectiveTime := "";
             SDK.spec_InstanceClass := "redis.large"; SDK.spec_ReadOnlyCount := "" |})
    Sample.world
  = Returns (({| SDK.spec_InstanceId := "testId"; SDK.spec_EffectiveTime := "";
                 SDK.spec_InstanceClass := "redis.large"; SDK.spec_ReadOnlyCount := "" |},
              None), Sample.world).
Proof.
  destruct (proj2 (ModifyInstanceSpecs_after_NeedUpdate (Sample.modifier None) "testId"
                     (Sample.attribute "Normal" "cluster" "redis.shard" "redis.small" 0 "" "")
                     (Sample.parameters "" "redis.large" (Some 2) [] "" "") Sample.world)
              {| SDK.spec_InstanceId := ""; SDK.spec_EffectiveTime := "";
                 SDK.spec_InstanceClass := "redis.large"; SDK.spec_ReadOnlyCount := "" |})
    as (_ & Hsend).
  - reflexivity.
  - destruct (Hsend None Sample.world) as (cleaned & Hc & Hrun); [reflexivity|].
    vm_compute in Hc. injection Hc as <-. exact Hrun.
Defined.

(** ** Desired security IPs that go unnoticed *)

Lemma Contains_empty (s : string) : Contains s "" = true.
Proof. destruct s; reflexivity. Qed.

(** X14.  [SecurityIpsNeedUpdate] looks for the configured entries in the
    desired list only. It returns nil whenever every configured entry is empty
    or is an entry of the desired list: entries that are desired and not
    configured are not detected. In particular, for an instance whose configured
    list is empty it returns nil whatever is desired. *)
Theorem SecurityIpsNeedUpdate_additions_unnoticed (attr : SDK.DBInstanceAttribute)
    (p : V1alpha1.RedisInstanceParameters) :
  let configured := Split (SDK.SecurityIPList attr) "," in
  let desired := Split (V1alpha1.SecurityIps p) "," in
  ((∀ ip, In ip configured → ip = "" ∨ In ip desired) →
   Redis.SecurityIpsNeedUpdate attr p = None) ∧
  (SDK.SecurityIPList attr = "" → Redis.SecurityIpsNeedUpdate attr p = None).
Proof.
  intros configured desired.
  assert (Hsub : (∀ ip, In ip configured → ip = "" ∨ In ip desired) →
                 Redis.SecurityIpsNeedUpdate attr p = None).
  { intros Hin. unfold Redis.SecurityIpsNeedUpdate.
    destruct (String.eqb _ ""); [reflexivity|]. fold configured.
    destruct (existsb _ configured) eqn:E; [|reflexivity].
    apply existsb_exists in E as (ip & Hip & Hc).
    destruct (Hin ip Hip) as [-> | Hd].
    - by rewrite Contains_empty in Hc.
    - apply Split_occurs in Hd. by rewrite Hd in Hc. }
  split; [exact Hsub|].
  intros Hnone. apply Hsub. subst configured. rewrite Hnone.
  intros ip [<-|[]]. by left.
Qed.

(** A second address is desired and not configured: no request. *)
Lemma SecurityIpsNeedUpdate_additions_unnoticed_witness :
  Redis.SecurityIpsNeedUpdate
    (Sample.attribute "Normal" "standard" "c" "c" 0 "10.0.0.1" "")
    (Sample.parameters "" "c" None [] "10.0.0.1,10.0.0.2" "")
  = None.
Proof.
  apply (proj1 (SecurityIpsNeedUpdate_additions_unnoticed
                  (Sample.attribute "Normal" "standard" "c" "c" 0 "10.0.0.1" "")
                  (Sample.parameters "" "c" None [] "10.0.0.1,10.0.0.2" ""))).
  intros ip [<-|[]]. right. left. reflexivity.
Defined.

(** ** The text of a parameter map decodes to the map *)

Lemma member_text_append (kv : string * string) (rest : string) :
  member_text kv +:+ rest
  = String DQ (escape kv.1 +:+ String DQ (String ":"
      (String DQ (escape kv.2 +:+ String DQ rest)))).
Proof.
  unfold member_text, quote. cbn [String.append].
  rewrite !append_assoc. cbn [String.append]. rewrite !append_assoc. reflexivity.
Qed.

Lemma parse_members_strings (l : list (string * string)) :
  ∀ (kv : string * string) (f : nat) (rest : string),
    parse_members (S (S (length l + f)))
      (String.concat "," (member_text <$> (kv :: l)) +:+ String "}" rest)
    = Some ((λ kv, (coerce_utf8 kv.1, JStr (coerce_utf8 kv.2))) <$> (kv :: l), rest).
Proof.
  induction l as [|kv' l IH]; intros kv f rest.
  - cbn [fmap list_fmap String.concat length Nat.add].
    rewrite member_text_append. apply parse_members_string_last.
  - change (String.concat "," (member_text <$> kv :: kv' :: l))
      with (member_text kv +:+ "," +:+ String.concat "," (member_text <$> kv' :: l)).
    rewrite !append_assoc, member_text_append. cbn [String.append length Nat.add].
    rewrite parse_members_string, IH. reflexivity.
Qed.

Lemma parse_members_text (l : list (string * string)) (f : nat) :
  parse_value (S (S (S (length l + f))))
    (String "{" (String.concat "," (member_text <$> l) +:+ "}"))
  = Some (JObj ((λ kv, (coerce_utf8 kv.1, JStr (coerce_utf8 kv.2))) <$> l), "").
Proof.
  destruct l as [|kv l]; [reflexivity|].
  pose proof (parse_members_strings l kv (S f) "") as H.
  replace (S (S (length l + S f))) with (S (S (length (kv :: l) + f))) in H
    by (cbn; lia).
  destruct (String.concat "," (member_text <$> kv :: l) +:+ "}") as [|c s] eqn:E.
  { destruct l; cbn in E; rewrite ?member_text_append in E; discriminate. }
  assert (Hc : c = DQ).
  { destruct l; cbn [fmap list_fmap String.concat] in E;
      rewrite ?append_assoc, member_text_append in E; by injection E. }
  subst c. rewrite parse_value_object, H. reflexivity.
Qed.

Lemma members_to_map_strings (l : list (string * string)) (acc : gmap string string) :
  members_to_map ((λ kv, (kv.1, JStr kv.2)) <$> l) acc
  = Some (foldl (λ a kv, <[kv.1 := kv.2]> a) acc l).
Proof.
  revert acc. induction l as [|[k v] l IH]; intros acc; [reflexivity|]. cbn. apply IH.
Qed.

Lemma foldl_insert_distinct (l : list (string * string)) (acc : gmap string string) :
  NoDup l.*1 →
  foldl (λ a kv, <[kv.1 := kv.2]> a) acc l = list_to_map l ∪ acc.
Proof.
  revert acc. induction l as [|[k v] l IH]; intros acc Hnd.
  - cbn. by rewrite (left_id_L ∅ (∪)).
  - rewrite fmap_cons in Hnd. apply NoDup_cons in Hnd as [Hk Hnd].
    cbn [foldl fst snd]. rewrite IH by assumption.
    rewrite list_to_map_cons, <- insert_union_l. symmetry.
    apply insert_union_r. by apply not_elem_of_list_to_map_1.
Qed.

Lemma insert_sorted_Permutation (kv : string * string) (l : list (string * string)) :
  insert_sorted kv l ≡ₚ kv :: l.
Proof.
  induction l as [|kv' l IH]; cbn; [reflexivity|].
  destruct (String.leb _ _); [reflexivity|]. rewrite IH. apply Permutation_swap.
Qed.

Lemma sorted_members_Permutation (m : gmap string string) :
  sorted_members m ≡ₚ map_to_list m.
Proof.
  unfold sorted_members. induction (map_to_list m) as [|kv l IH]; cbn; [reflexivity|].
  by rewrite insert_sorted_Permutation, IH.
Qed.

(** What the decoder stores for a string, in a string or in a mapping, is
    well formed. *)
Lemma parse_value_well_formed (f : nat) (s v r : string) :
  parse_value f s = Some (JStr v, r) → well_formed v.
Proof.
  destruct f as [|f]; [discriminate|]. cbn [parse_value].
  repeat match goal with
         | |- context [if ?b then _ else _] => destruct b
         | |- context [match skip_ws ?x with _ => _ end] => destruct (skip_ws x)
         | |- context [parse_members ?f ?x] => destruct (parse_members f x) as [[??]|]
         | |- context [parse_elements ?f ?x] => destruct (parse_elements f x) as [[??]|]
         | |- context [lex_number ?x] => destruct (lex_number x) as [[??]|]
         end; cbn [mbind option_bind]; try discriminate.
  destruct (parse_string_body _) as [[d r']|] eqn:E; [|discriminate].
  cbn [mbind option_bind]. intros [= <- <-].
  by apply (parse_string_body_well_formed _ _ _ _ (le_n _) E).
Qed.

Lemma parse_members_well_formed (f : nat) :
  ∀ s ms r, parse_members f s = Some (ms, r) →
            Forall (λ kv, well_formed kv.1 ∧ ∀ v, kv.2 = JStr v → well_formed v) ms.
Proof.
  induction f as [|f IH]; intros s ms r; [discriminate|]. cbn [parse_members].
  destruct (skip_ws s) as [|c r0]; [discriminate|].
  destruct (Ascii.eqb c DQ); [|discriminate].
  destruct (parse_string_body r0) as [[k r1]|] eqn:Ek; [|discriminate].
  apply (parse_string_body_well_formed _ _ _ _ (le_n _)) in Ek.
  cbn [mbind option_bind].
  destruct (skip_ws r1) as [|c1 r2]; [discriminate|].
  destruct (Ascii.eqb c1 ":"); [|discriminate].
  destruct (parse_value f r2) as [[v r3]|] eqn:Ev; [|discriminate].
  cbn [mbind option_bind].
  assert (Hkv : well_formed (k, v).1 ∧ ∀ str, (k, v).2 = JStr str → well_formed str).
  { split; [exact Ek|]. cbn. intros str ->. by apply parse_value_well_formed in Ev. }
  destruct (skip_ws r3) as [|c3 r4]; [discriminate|].
  destruct (Ascii.eqb c3 ",").
  - destruct (parse_members f r4) as [[ms' r5]|] eqn:Em; [|discriminate].
    cbn [mbind option_bind]. intros [= <- <-].
    constructor; [exact Hkv | by apply (IH _ _ _ Em)].
  - destruct (Ascii.eqb c3 "}"); [|discriminate]. intros [= <- <-].
    constructor; [exact Hkv | constructor].
Qed.

Lemma members_to_map_well_formed (ms : list (string * json)) :
  ∀ acc m,
    Forall (λ kv, well_formed kv.1 ∧ ∀ v, kv.2 = JStr v → well_formed v) ms →
    well_formed_map acc → members_to_map ms acc = Some m → well_formed_map m.
Proof.
  induction ms as [|[k v] ms IH]; intros acc m Hms Hacc; [by intros [= <-]|].
  apply Forall_cons in Hms as [[Hk Hv] Hms]. cbn in Hk, Hv.
  destruct v; try discriminate; cbn [members_to_map]; apply IH; try assumption;
    apply map_Forall_insert_2; try assumption; split; try assumption;
    [reflexivity | by apply Hv].
Qed.

Lemma Unmarshal_map_well_formed (text : string) (m : gmap string string) :
  Unmarshal_map text = Value (Some m) → well_formed_map m.
Proof.
  unfold Unmarshal_map, parse.
  destruct (parse_value _ text) as [[v r]|] eqn:E; [|discriminate].
  cbn [mbind option_bind]. destruct (skip_ws r); [|discriminate].
  destruct v as [| | | | |ms]; try discriminate.
  destruct (members_to_map ms ∅) as [m'|] eqn:Em; [|discriminate].
  intros [= <-]. apply (members_to_map_well_formed ms ∅); [|apply map_Forall_empty|exact Em].
  revert E. cbn [parse_value].
  repeat match goal with
         | |- context [if ?b then _ else _] => destruct b
         | |- context [match skip_ws ?x with _ => _ end] => destruct (skip_ws x)
         | |- context [parse_elements ?f ?x] => destruct (parse_elements f x) as [[??]|]
         | |- context [parse_string_body ?x] => destruct (parse_string_body x) as [[??]|]
         | |- context [lex_number ?x] => destruct (lex_number x) as [[??]|]
         end; cbn [mbind option_bind]; try discriminate.
  - intros [= <- <-]. constructor.
  - destruct (parse_members _ _) as [[ms' r']|] eqn:Em'; [|discriminate].
    cbn [mbind option_bind]. intros [= <- <-].
    by apply (parse_members_well_formed _ _ _ _ Em').
Qed.

(** The text [json.Marshal] writes for a mapping of well-formed strings
    decodes to the mapping. *)
Lemma Unmarshal_Marshal_map (m : gmap string string) :
  well_formed_map m → Unmarshal_map (Marshal_map (Some m)) = Value (Some m).
Proof.
  intros Hm.
  unfold Unmarshal_map, parse, Marshal_map. cbn [String.append].
  rewrite (parse_fuel_enough _ _ _ _ (parse_members_text (sorted_members m) 0)).
  cbn [mbind option_bind skip_ws].
  pose proof (sorted_members_Permutation m) as Hp.
  assert (Hwf : (λ kv : string * string, (coerce_utf8 kv.1, JStr (coerce_utf8 kv.2)))
                  <$> sorted_members m
                = (λ kv, (kv.1, JStr kv.2)) <$> sorted_members m).
  { apply list_fmap_ext. intros i [k v] Hi. cbn.
    apply list_elem_of_lookup_2 in Hi. rewrite Hp in Hi.
    apply elem_of_map_to_list in Hi. destruct (Hm k v Hi) as [-> ->]. reflexivity. }
  rewrite Hwf, members_to_map_strings.
  rewrite foldl_insert_distinct.
  - rewrite (right_id_L ∅ (∪)). do 2 f_equal.
    rewrite <- (list_to_map_to_list m) at 2.
    apply list_to_map_proper; [|assumption].
    rewrite Hp. apply NoDup_fst_map_to_list.
  - rewrite Hp. apply NoDup_fst_map_to_list.
Qed.

(** ** The parameter drift, at its edges *)

Lemma paramStep_fold_nil (wanted : gmap string string) :
  (wanted = ∅ → map_fold Redis.paramStep (Returns (None, false)) wanted
                = Returns (None, false)) ∧
  (wanted ≠ ∅ → map_fold Redis.paramStep (Returns (None, false)) wanted
                = Panics "assignment to entry in nil map").
Proof.
  apply (map_fold_weak_ind
           (λ r m, (m = ∅ → r = Returns (None, false)) ∧
                   (m ≠ ∅ → r = Panics "assignment to entry in nil map"))).
  - split; [reflexivity | contradiction].
  - intros i x m r Hi [He Hn]. split.
    + intros H. by apply insert_non_empty in H.
    + intros _. destruct (decide (m = ∅)) as [Hm|Hm].
      * rewrite (He Hm). reflexivity.
      * rewrite (Hn Hm). reflexivity.
Qed.

Lemma ParamsNeedUpdate_request_inv (attr : SDK.DBInstanceAttribute)
    (p : V1alpha1.RedisInstanceParameters) (req : SDK.ModifyInstanceParameterRequest)
    (err : error) :
  Redis.ParamsNeedUpdate attr p = Returns (Some req, err) →
  ∃ actual desired,
    V1alpha1.ParameterConfig p ≠ "" ∧
    Unmarshal_map (SDK.Config attr) = Value (Some actual) ∧
    Unmarshal_map (V1alpha1.ParameterConfig p) = Value (Some desired) ∧
    differs desired actual ∧
    err = None ∧
    req = {| SDK.param_InstanceId := "";
             SDK.param_Parameters := Marshal_map (Some (desired ∪ actual)) |}.
Proof.
  unfold Redis.ParamsNeedUpdate, Redis.calculateParamDiff.
  destruct (String.eqb_spec (V1alpha1.ParameterConfig p) "") as [|Hne]; [discriminate|].
  destruct (Unmarshal_map (SDK.Config attr)) as [actual| |]; try discriminate.
  destruct (Unmarshal_map (V1alpha1.ParameterConfig p)) as [wanted| |]; try discriminate.
  destruct actual as [actual|].
  - destruct (paramStep_fold actual (default ∅ wanted)) as (flag & -> & Hflag).
    destruct flag; [|discriminate]. intros [= <- <-].
    destruct wanted as [desired|].
    + exists actual, desired. split_and!; try done. by apply Hflag.
    + cbn in Hflag. destruct (proj1 Hflag eq_refl) as (k & v & Hk & _).
      by rewrite lookup_empty in Hk.
  - destruct (paramStep_fold_nil (default ∅ wanted)) as [He Hn].
    destruct (decide (default ∅ wanted = ∅)) as [H|H];
      [rewrite (He H) | rewrite (Hn H)]; discriminate.
Qed.

(** X15.  [ParamsNeedUpdate] decodes the configuration of the instance before
    the desired one, so a text of the instance that is no JSON, the empty text
    for one, makes it fail with "cannot unmarshal the json config from the real
    instance" whatever is desired; with a configuration of the instance that
    decodes, a desired text that does not makes it fail with "cannot unmarshal
    the json config from users input". In neither case is there a request. A
    configuration of the instance that is the JSON [null] decodes to the nil
    map: the call then panics as soon as one parameter is desired. *)
Theorem ParamsNeedUpdate_undecodable (attr : SDK.DBInstanceAttribute)
    (p : V1alpha1.RedisInstanceParameters) :
  V1alpha1.ParameterConfig p ≠ "" →
  ((∀ actual, Unmarshal_map (SDK.Config attr) ≠ Value actual) →
   ∃ cause,
     Redis.ParamsNeedUpdate attr p
     = Returns (None, Some (EWrap cause
                              "cannot unmarshal the json config from the real instance"))) ∧
  (SDK.Config attr = "" → ∀ actual, Unmarshal_map (SDK.Config attr) ≠ Value actual) ∧
  (∀ actual, Unmarshal_map (SDK.Config attr) = Value actual →
     (∀ wanted, Unmarshal_map (V1alpha1.ParameterConfig p) ≠ Value wanted) →
     ∃ cause,
       Redis.ParamsNeedUpdate attr p
       = Returns (None, Some (EWrap cause
                                "cannot unmarshal the json config from users input"))) ∧
  (∀ desired, SDK.Config attr = "null" →
     Unmarshal_map (V1alpha1.ParameterConfig p) = Value (Some desired) →
     desired ≠ ∅ →
     Redis.ParamsNeedUpdate attr p = Panics "assignment to entry in nil map").
Proof.
  intros Hne. unfold Redis.ParamsNeedUpdate, Redis.calculateParamDiff.
  destruct (String.eqb_spec (V1alpha1.ParameterConfig p) ""); [contradiction|].
  split_and!.
  - intros Hbad. destruct (Unmarshal_map (SDK.Config attr)) as [actual| |] eqn:E.
    + by destruct (Hbad actual).
    + eexists. reflexivity.
    + eexists. reflexivity.
  - intros -> actual. discriminate.
  - intros actual -> Hbad.
    destruct (Unmarshal_map (V1alpha1.ParameterConfig p)) as [wanted| |] eqn:E.
    + by destruct (Hbad wanted).
    + eexists. reflexivity.
    + eexists. reflexivity.
  - intros desired -> -> Hd.
    change (Unmarshal_map "null") with (Value (@None (gmap string string))).
    lazy beta iota. change (default ∅ (Some desired)) with desired.
    rewrite (proj2 (paramStep_fold_nil desired) Hd). reflexivity.
Qed.

(** The instance reports no configuration at all. *)
Lemma ParamsNeedUpdate_undecodable_witness :
  ∃ cause,
    Redis.ParamsNeedUpdate
      (Sample.attribute "Normal" "standard" "c" "c" 0 "" "")
      (Sample.parameters "" "c" None [] "" (dq "{'appendonly':'yes'}"))
    = Returns (None, Some (EWrap cause
                             "cannot unmarshal the json config from the real instance")).
Proof.
  refine (proj1 (ParamsNeedUpdate_undecodable
                   (Sample.attribute "Normal" "standard" "c" "c" 0 "" "")
                   (Sample.parameters "" "c" None [] "" (dq "{'appendonly':'yes'}")) _) _).
  - vm_compute. discriminate.
  - intros actual. discriminate.
Defined.

(** X16.  [ModifyInstanceParams] applied to what [ParamsNeedUpdate] returns. The
    text of a request is a JSON object that decodes again, to the map of the
    instance with every desired parameter written over it.
    [ModifyInstanceParams] writes the instance ID into the request, asks the
    vendor once and returns the error of the vendor cleaned. *)
Theorem ModifyInstanceParams_after_NeedUpdate (m : Redis.AliModifier) (id : string)
    (attr : SDK.DBInstanceAttribute) (p : V1alpha1.RedisInstanceParameters)
    (req : SDK.ModifyInstanceParameterRequest) (err0 : error) (w : World) :
  Redis.ParamsNeedUpdate attr p = Returns (Some req, err0) →
  let sent := {| SDK.param_InstanceId := id;
                 SDK.param_Parameters := SDK.param_Parameters req |} in
  ∃ actual desired merged,
    err0 = None ∧
    Unmarshal_map (SDK.Config attr) = Value (Some actual) ∧
    Unmarshal_map (V1alpha1.ParameterConfig p) = Value (Some desired) ∧
    Unmarshal_map (SDK.param_Parameters req) = Value (Some merged) ∧
    (∀ k v, desired !! k = Some v → merged !! k = Some v) ∧
    (∀ k, desired !! k = None → merged !! k = actual !! k) ∧
    (∀ err w1, Redis.ModifyInstanceParameter m sent w = Returns (err, w1) →
       ∃ cleaned, Redis.CleanError err = Returns cleaned ∧
         Redis.ModifyInstanceParams m id (Some req) w = Returns ((sent, cleaned), w1)).
Proof.
  intros Hreq sent.
  destruct (ParamsNeedUpdate_request_inv attr p req err0 Hreq)
    as (actual & desired & Hne & Ha & Hw & Hd & -> & Hr).
  exists actual, desired, (desired ∪ actual). split_and!; try done.
  - rewrite Hr. apply Unmarshal_Marshal_map, map_Forall_union_2;
      by eapply Unmarshal_map_well_formed.
  - intros k v Hk. by apply lookup_union_Some_l.
  - intros k Hk. by apply lookup_union_r.
  - intros err w1 Hv. exists (scrubbed err). split; [apply CleanError_scrubbed|].
    unfold Redis.ModifyInstanceParams. fold sent.
    unfold mbind at 1. unfold M_bind at 1. rewrite Hv.
    unfold mbind, M_bind. rewrite lift_CleanError. reflexivity.
Qed.

(** One desired parameter differs, one is new; the vendor accepts the
    request. *)
Lemma ModifyInstanceParams_after_NeedUpdate_witness :
  Redis.ModifyInstanceParams (Sample.modifier None) "testId"
    (Some {| SDK.param_InstanceId := "";
             SDK.param_Parameters := dq "{'a':'1','b':'3','c':'4'}" |})
    Sample.world
  = Returns (({| SDK.param_InstanceId := "testId";
                 SDK.param_Parameters := dq "{'a':'1','b':'3','c':'4'}" |}, None),
             Sample.world).
Proof.
  destruct (ModifyInstanceParams_after_NeedUpdate (Sample.modifier None) "testId"
              (Sample.attribute "Normal" "standard" "c" "c" 0 "" (dq "{'a':'1','b':'2'}"))
              (Sample.parameters "" "c" None [] "" (dq "{'b':'3','c':'4'}"))
              {| SDK.param_InstanceId := "";
                 SDK.param_Parameters := dq "{'a':'1','b':'3','c':'4'}" |}
              None Sample.world)
    as (actual & desired & merged & _ & _ & _ & _ & _ & _ & Hsend).
  - vm_compute. reflexivity.
  - destruct (Hsend None Sample.world) as (cleaned & Hc & Hrun); [reflexivity|].
    vm_compute in Hc. injection Hc as <-. exact Hrun.
Defined.

(** X17.  Once the instance has the configuration of the request, no parameter
    drifts any more: for an instance whose configuration is the text of the
    request, [ParamsNeedUpdate] returns no request and no error. *)
Theorem ParamsNeedUpdate_converges (attr attr' : SDK.DBInstanceAttribute)
    (p : V1alpha1.RedisInstanceParameters) (req : SDK.ModifyInstanceParameterRequest)
    (err : error) :
  Redis.ParamsNeedUpdate attr p = Returns (Some req, err) →
  SDK.Config attr' = SDK.param_Parameters req →
  Redis.ParamsNeedUpdate attr' p = Returns (None, None).
Proof.
  intros Hreq Hc.
  destruct (ParamsNeedUpdate_request_inv attr p req err Hreq)
    as (actual & desired & Hne & Ha & Hw & Hd & -> & ->).
  cbn [SDK.param_Parameters] in Hc. unfold Redis.ParamsNeedUpdate, Redis.calculateParamDiff.
  destruct (String.eqb_spec (V1alpha1.ParameterConfig p) ""); [contradiction|].
  rewrite Hc, Unmarshal_Marshal_map, Hw
    by (apply map_Forall_union_2; by eapply Unmarshal_map_well_formed).
  change (default ∅ (Some desired)) with desired.
  destruct (paramStep_fold (desired ∪ actual) desired) as (flag & -> & Hflag).
  destruct flag; [|reflexivity].
  destruct (proj1 Hflag eq_refl) as (k & v & Hk & Hne').
  destruct Hne'. by apply lookup_union_Some_l.
Qed.

(** The configuration after the request of the sample. *)
Lemma ParamsNeedUpdate_converges_witness :
  Redis.ParamsNeedUpdate
    (Sample.attribute "Normal" "standard" "c" "c" 0 "" (dq "{'a':'1','b':'3','c':'4'}"))
    (Sample.parameters "" "c" None [] "" (dq "{'b':'3','c':'4'}"))
  = Returns (None, None).
Proof.
  apply (ParamsNeedUpdate_converges
           (Sample.attribute "Normal" "standard" "c" "c" 0 "" (dq "{'a':'1','b':'2'}"))
           (Sample.attribute "Normal" "standard" "c" "c" 0 "" (dq "{'a':'1','b':'3','c':'4'}"))
           (Sample.parameters "" "c" None [] "" (dq "{'b':'3','c':'4'}"))
           {| SDK.param_InstanceId := "";
              SDK.param_Parameters := dq "{'a':'1','b':'3','c':'4'}" |}
           None).
  - vm_compute. reflexivity.
  - reflexivity.
Defined.

(** ** The earlier revisions *)

(** X18.  In the first revision the error for an instance that is not listed is
    one value, made when the program starts. [DescribeDBInstance] returns that
    value when the vendor lists no instance, and the [IsErrorNotFound] of that
    revision recognises it, alone or wrapped; it does not recognise an error
    with the same text that [errors.New] makes later. *)
Theorem EarlierRedis_sentinel_is_recognised (w0 : World) (c : EarlierRedis.AliClient)
    (id : string) :
  ∃ sentinel w1,
    EarlierRedis.init w0 = Returns (sentinel, w1) ∧
    (EarlierRedis.DescribeInstances c
       {| EarlierRedis.Scheme := "https"; EarlierRedis.InstanceIds := id |} = ([], None) →
     EarlierRedis.DescribeDBInstance sentinel c id = Returns (None, Some sentinel)) ∧
    EarlierRedis.IsErrorNotFound sentinel (Some sentinel) = true ∧
    (∀ msg, EarlierRedis.IsErrorNotFound sentinel (Some (EWrap sentinel msg)) = true) ∧
    (∀ w2 e w3, (next_addr w1 ≤ next_addr w2)%nat →
       New "DBInstanceNotFound" w2 = Returns (e, w3) →
       Error e = Error sentinel ∧
       EarlierRedis.IsErrorNotFound sentinel (Some e) = false).
Proof.
  exists (EFundamental (next_addr w0) "DBInstanceNotFound"),
         (mkWorld (S (next_addr w0)) (trace w0)).
  split_and!.
  - reflexivity.
  - intros Hv. unfold EarlierRedis.DescribeDBInstance, Redis.HTTPSScheme.
    rewrite Hv. reflexivity.
  - cbn. by rewrite Nat.eqb_refl.
  - intros msg. cbn. by rewrite Nat.eqb_refl.
  - intros w2 e w3 Hle [= <- <-]. split; [reflexivity|]. cbn in *.
    rewrite orb_false_r. apply Nat.eqb_neq. lia.
Qed.

(** The vendor lists no instance. *)
Lemma EarlierRedis_sentinel_is_recognised_witness :
  ∃ sentinel,
    EarlierRedis.DescribeDBInstance sentinel
      {| EarlierRedis.DescribeInstances := λ _, ([], None) |} "goneId"
    = Returns (None, Some sentinel) ∧
    EarlierRedis.IsErrorNotFound sentinel (Some sentinel) = true.
Proof.
  destruct (EarlierRedis_sentinel_is_recognised Sample.world
              {| EarlierRedis.DescribeInstances := λ _, ([], None) |} "goneId")
    as (sentinel & w1 & _ & Hd & Hs & _).
  exists sentinel. split; [by apply Hd | exact Hs].
Defined.

(** X19.  The two revisions of [SecurityIpsNeedUpdate] detect the same drifts:
    the later one returns a request exactly when the earlier one returns true.
    For such a request, the later [ModifySecurityIps] asks the vendor what the
    earlier one asks when it is handed the desired list, and returns the same
    error. *)
Theorem SecurityIps_revisions_agree (m : Redis.AliModifier) (id : string)
    (attr : SDK.DBInstanceAttribute) (p : V1alpha1.RedisInstanceParameters) (w : World) :
  (EarlierRedis.SecurityIpsNeedUpdate (SDK.SecurityIPList attr) (V1alpha1.SecurityIps p) = true
   ↔ Redis.SecurityIpsNeedUpdate attr p ≠ None) ∧
  (∀ req, Redis.SecurityIpsNeedUpdate attr p = Some req →
     Redis.ModifySecurityIps m id (Some req) w
     = match EarlierRedis.ModifySecurityIps m id (V1alpha1.SecurityIps p) w with
       | Returns (err, w1) =>
           Returns (({| SDK.ips_InstanceId := id;
                        SDK.ips_SecurityIps := V1alpha1.SecurityIps p;
                        SDK.ips_ModifyMode := "Cover" |}, err), w1)
       | Panics msg => Panics msg
       end).
Proof.
  split.
  - unfold EarlierRedis.SecurityIpsNeedUpdate, Redis.SecurityIpsNeedUpdate.
    destruct (String.eqb _ ""); [split; [discriminate | congruence]|].
    destruct (existsb _ _); split; congruence.
  - intros req ->%SecurityIpsNeedUpdate_Some.
    unfold Redis.ModifySecurityIps, EarlierRedis.ModifySecurityIps,
      EarlierRedis.DefaultModifyMode.
    cbn [SDK.ips_SecurityIps SDK.ips_ModifyMode].
    unfold mbind at 1 3. unfold M_bind at 1 3.
    destruct (Redis.sdk_ModifySecurityIps m _ w) as [[err w1]|msg]; [|reflexivity].
    unfold mbind, M_bind. rewrite !lift_CleanError. reflexivity.
Qed.

(** The second scenario of the specification, in both revisions. *)
Lemma SecurityIps_revisions_agree_witness :
  EarlierRedis.SecurityIpsNeedUpdate "10.0.0.1,10.0.0.2" "10.0.0.1" = true.
Proof.
  apply (proj1 (SecurityIps_revisions_agree (Sample.modifier None) "testId"
                  (Sample.attribute "Normal" "standard" "c" "c" 0 "10.0.0.1,10.0.0.2" "")
                  (Sample.parameters "" "c" None [] "10.0.0.1" "") Sample.world)).
  vm_compute. discriminate.
Defined.

(** ** CreateInstance and DeleteInstance, whatever the vendor answers *)

(** X20.  [CreateInstance] returns for every vendor and every password
    generator; it does not panic. It returns either a response and a connection
    without an error, or an error without a response and without a connection.
    When the generation of the password fails, the vendor is not asked, and the
    error is that of the generator wrapped with "cannot generate a password". An
    error of the vendor comes back cleaned and not wrapped. *)
Theorem CreateInstance_outcomes (c : Redis.client) (name : string)
    (p : V1alpha1.RedisInstanceParameters) (w : World) :
  ∃ resp conn err w',
    Redis.CreateInstance c name p w = Returns ((resp, conn, err), w') ∧
    (err = None ↔ is_Some conn) ∧
    (is_Some resp ↔ is_Some conn) ∧
    (∀ pw x, V1alpha1.Password p = "" → Redis.password_Generate c = (pw, Some x) →
       err = Some (EWrap x "cannot generate a password") ∧
       events w w' = [PasswordGenerate]) ∧
    (∀ pw answer x,
       (V1alpha1.Password p ≠ "" ∧ pw = "") ∨
       (V1alpha1.Password p = "" ∧ Redis.password_Generate c = (pw, None)) →
       Redis.sdk_CreateInstance (Redis.redisCli c) (Redis.createRequest name p pw)
       = (answer, Some x) →
       Redis.CleanError (Some x) = Returns err ∧ err ≠ None).
Proof.
  assert (Hsome : ∀ x, scrubbed (Some x) ≠ None) by (by intros []).
  destruct (decide (V1alpha1.Password p = "")) as [Hp|Hp].
  - destruct (Redis.password_Generate c) as [pw0 [x0|]] eqn:Hg.
    + rewrite (CreateInstance_generate_fails c name p pw0 x0 w Hp Hg).
      eexists _, _, _, _. split; [reflexivity|].
      rewrite events_app. split_and!.
      * split; [discriminate | by intros []].
      * split; by intros [].
      * intros pw x _ [= <- <-]. done.
      * intros pw answer x [[Hp' _]|[_ [=]]] _. contradiction.
    + rewrite (CreateInstance_generated c name p pw0 w Hp Hg). unfold created.
      destruct (Redis.sdk_CreateInstance _ _) as [answer0 [x0|]] eqn:Hv;
        (eexists _, _, _, _; split; [reflexivity|]); rewrite events_app; split_and!.
      * split; [intros H; by apply Hsome in H | by intros []].
      * split; by intros [].
      * intros pw x _ [=].
      * intros pw answer x [[Hp' _]|[_ [= <-]]] Hv'; [contradiction|].
        rewrite Hv in Hv'. injection Hv' as <- <-.
        rewrite CleanError_scrubbed. split; [reflexivity | apply Hsome].
      * done.
      * done.
      * intros pw x _ [=].
      * intros pw answer x [[Hp' _]|[_ [= <-]]] Hv'; [contradiction|].
        rewrite Hv in Hv'. discriminate.
  - rewrite (CreateInstance_supplied c name p w Hp). unfold created.
    destruct (Redis.sdk_CreateInstance _ _) as [answer0 [x0|]] eqn:Hv;
      (eexists _, _, _, _; split; [reflexivity|]); rewrite events_app; split_and!.
    + split; [intros H; by apply Hsome in H | by intros []].
    + split; by intros [].
    + intros pw x Hp'. contradiction.
    + intros pw answer x [[_ ->]|[Hp' _]] Hv'; [|contradiction].
      rewrite Hv in Hv'. injection Hv' as <- <-.
      rewrite CleanError_scrubbed. split; [reflexivity | apply Hsome].
    + done.
    + done.
    + intros pw x Hp'. contradiction.
    + intros pw answer x [[_ ->]|[Hp' _]] Hv'; [|contradiction].
      rewrite Hv in Hv'. discriminate.
Qed.

(** The generator of passwords fails: the trace holds the draw and no
    request. *)
Lemma CreateInstance_outcomes_witness :
  ∃ w',
    Redis.CreateInstance
      {| Redis.redisCli := Sample.vendor Sample.throttled;
         Redis.password_Generate := ("", Some (EOther "crypto/rand: no entropy")) |}
      "testName" (Sample.parameters "" "redis.small" None [] "" "") Sample.world
    = Returns ((None, None,
                Some (EWrap (EOther "crypto/rand: no entropy") "cannot generate a password")),
               w') ∧
    events Sample.world w' = [PasswordGenerate].
Proof.
  destruct (CreateInstance_outcomes
              {| Redis.redisCli := Sample.vendor Sample.throttled;
                 Redis.password_Generate := ("", Some (EOther "crypto/rand: no entropy")) |}
              "testName" (Sample.parameters "" "redis.small" None [] "" "") Sample.world)
    as (resp & conn & err & w' & Hrun & Herr & Hresp & Hgen & _).
  destruct (Hgen "" (EOther "crypto/rand: no entropy") eq_refl eq_refl) as [-> Hev].
  destruct conn as [conn|]; [by destruct (proj2 Herr) | ].
  destruct resp as [resp|]; [by destruct (proj1 Hresp) | ].
  exists w'. split; [exact Hrun | exact Hev].
Defined.

(** X21.  Through the adapter, [Delete] asks the vendor once, over https and for
    the external name of the resource. It returns no error when the vendor
    returns none or a server error with the code "InvalidInstanceId.NotFound",
    and otherwise the cleaned error of the vendor wrapped with "cannot delete
    redis instance". *)
Theorem Delete_adapter_outcomes (c : Redis.client) (cr : V1alpha1.RedisInstance)
    (w : World) :
  let id := Controller.GetExternalName cr in
  let request := {| SDK.delete_Scheme := "https"; SDK.delete_InstanceId := id |} in
  let answer := Redis.sdk_DeleteInstance (Redis.redisCli c) request in
  (∀ x, answer = Some x → allocated_below (next_addr w) x) →
  ∃ result w',
    Controller.Delete {| Controller.redisClient := Controller.adapter c |}
      (V1alpha1.IsRedisInstance cr) w
    = Returns ((V1alpha1.IsRedisInstance (Controller.setCondition cr V1alpha1.Deleting),
                result), w') ∧
    events w w' = [ClientDeleteInstance id; SDKDeleteInstance request] ∧
    (answer = None → result = None) ∧
    (∀ s, answer = Some (EServer s) →
          SDK.errorCode s = "InvalidInstanceId.NotFound" → result = None) ∧
    (∀ x, answer = Some x →
          (∀ s, As x = Some s → SDK.errorCode s ≠ "InvalidInstanceId.NotFound") →
          ∃ cleaned, Redis.CleanError (Some x) = Returns (Some cleaned) ∧
                     result = Some (EWrap cleaned "cannot delete redis instance")).
Proof.
  intros id request answer Ha.
  set (w1 := mkWorld (next_addr w)
               (trace w ++ [ClientDeleteInstance id; SDKDeleteInstance request])).
  assert (Hd : Controller.DeleteInstance (Controller.adapter c) id
                 (mkWorld (next_addr w) (trace w ++ [ClientDeleteInstance id]))
               = Returns (scrubbed answer, w1)).
  { cbn [Controller.DeleteInstance Controller.adapter]. unfold Redis.DeleteInstance.
    unfold mbind, M_bind, emit. cbn -[lift Redis.CleanError].
    rewrite lift_CleanError. unfold w1. by rewrite <- app_assoc. }
  assert (Hs : ∀ x, scrubbed answer = Some x → allocated_below (next_addr w1) x).
  { intros x Hx. destruct answer as [y|]; [|discriminate].
    pose proof (not_found_scrubbed y) as Hy. rewrite Hx in Hy.
    apply Hy, Ha. reflexivity. }
  destruct (Ignore_run (scrubbed answer) w1 Hs) as (n & _ & Hign).
  eexists _, _. split_and!.
  - unfold Controller.Delete.
    change (Controller.GetExternalName (Controller.setCondition cr V1alpha1.Deleting))
      with id.
    unfold mbind at 1. unfold M_bind at 1. cbn [emit].
    unfold mbind at 1. unfold M_bind at 1.
    cbn [Controller.redisClient]. rewrite Hd.
    unfold mbind at 1. unfold M_bind at 1. rewrite Hign. reflexivity.
  - apply events_app.
  - intros ->. reflexivity.
  - intros s -> Hc. cbn [scrubbed]. unfold not_found. cbn [As SDK.errorCode].
    unfold Redis.errInstanceNotFoundCode. rewrite Hc. reflexivity.
  - intros x -> Hx. rewrite CleanError_scrubbed.
    pose proof (not_found_scrubbed x) as Hy.
    destruct (scrubbed (Some x)) as [cleaned|]; [|contradiction].
    destruct Hy as [Hy _]. exists cleaned. split; [reflexivity|].
    rewrite Hy.
    assert (Hnf : not_found x = false).
    { unfold not_found. destruct (As x) as [s|]; [|reflexivity].
      apply String.eqb_neq. by apply Hx. }
    by rewrite Hnf.
Qed.

(** The vendor throttles the deletion. *)
Lemma Delete_adapter_outcomes_witness :
  ∃ result w',
    Controller.Delete (Sample.external Sample.throttled)
      (V1alpha1.IsRedisInstance
         (Sample.instance "busyId" "Normal" (Sample.parameters "" "" None [] "" "")))
      Sample.world
    = Returns ((V1alpha1.IsRedisInstance
                  (Controller.setCondition
                     (Sample.instance "busyId" "Normal" (Sample.parameters "" "" None [] "" ""))
                     V1alpha1.Deleting),
                result), w') ∧
    events Sample.world w'
    = [ClientDeleteInstance "busyId";
       SDKDeleteInstance {| SDK.delete_Scheme := "https"; SDK.delete_InstanceId := "busyId" |}].
Proof.
  destruct (Delete_adapter_outcomes (Sample.client Sample.throttled)
              (Sample.instance "busyId" "Normal" (Sample.parameters "" "" None [] "" ""))
              Sample.world)
    as (result & w' & Hrun & Hev & _).
  - intros x [= <-]. exact I.
  - exists result, w'. split; [exact Hrun | exact Hev].
Defined.

(** ** The tests of Create and Update *)

(** [TestCreate], "Successfully create a managed resource". *)
Example TestCreate :
  Sample.creation
    (Controller.Create Sample.fakeWriter (Sample.kube None)
       (V1alpha1.IsRedisInstance
          (Sample.instance "testId" ""
             (Sample.on_port 8080
                (Sample.parameters "testPassword"
                   "redis.logic.sharding.2g.8db.0rodb.8proxy.default" None [] "" ""))))
       Sample.world)
  = Some ({| Controller.creation_ConnectionDetails :=
               <["username" := "testId"]> (<["password" := "testPassword"]>
                 (<["endpoint" := "172.0.0.1"]> {[ "port" := "8080" ]})) |},
          None).
Proof. vm_compute. reflexivity. Qed.

(** [TestUpdate], "Successfully update a managed resource". *)
Example TestUpdate :
  Sample.update
    (Controller.Update Sample.fakeWriter
       (V1alpha1.IsRedisInstance
          (Sample.instance "testId" "" (Sample.parameters "" "class-test" None [] "" "")))
       Sample.world)
  = Some (Controller.noUpdate, None).
Proof. vm_compute. reflexivity. Qed.
